(** * gosoap: the SOAP envelope codec and the client's [Do]

    A shallow embedding of [src/client.go] (the client's [Do]) together
    with the envelope codec that [Do] and the repository's codec tests
    ([TestEnvelopeEncode], [TestEnvelopeDecode]) rely on.

    Definitions:
    - [Xml]       the XML collaborator on the reading side: names, tokens,
                  and a tokenizer that reports Go's [xml.SyntaxError]
                  (message and line);
    - [Envelope]  the envelope model, its decoder (a token-driven machine,
                  as a Go [UnmarshalXML] loop over [d.Token()] is), the
                  printer and the encoder;
    - [Fixtures]  the types and documents of the repository's test tables;
    - [Client]    [Do], translated from [src/client.go];
    - [Documents] the vocabulary of the properties: response documents and
                  printed elements;
    - [Scenario]  a concrete service and the documents of the decode table
                  taken apart;
    - [WireFormat] the bytes of the test types, after the encode table.
    Properties: [TokenizerFacts], [DecodeFacts], [PrintFacts], [RoundTrip],
    [EncodeFacts], [DoFacts], [DoPaths], [WireFacts]. *)

From Stdlib Require Import ZArith List String Ascii Bool Lia.
From Stdlib Require Import DecimalString DecimalPos DecimalZ.
Import ListNotations.
Set Warnings "-register-all".
Local Open Scope string_scope.
Local Open Scope Z_scope.

(** Results of fallible code: [Ok v] or [Err e]. *)
Inductive result (E A : Type) : Type :=
| Ok (v : A)
| Err (e : E).
Arguments Ok {E A} v.
Arguments Err {E A} e.

Module Xml.

(** ** Names, attributes, tokens (Go: [xml.Name], [xml.Attr], [xml.Token]) *)

Record Name := mkName { Space : string; Local : string }.

Definition name_eqb (a b : Name) : bool :=
  String.eqb (Space a) (Space b) && String.eqb (Local a) (Local b).

Record Attr := mkAttr { AName : Name; AValue : string }.

Inductive Token :=
| StartElement (n : Name) (attrs : list Attr)
| EndElement (n : Name)
| CharData (s : string)
| Comment (s : string)
| ProcInst (target inst : string)
| Directive (s : string).

(** A token together with its lexeme, the exact bytes of the input it was
    read from (Go keeps them in [d.saved] for [,innerxml] fields). *)
Record PTok := mkPTok { tok : Token; raw : string }.

(** Go: [xml.SyntaxError{Msg, Line}]. *)
Record SyntaxError := mkSyntaxError { Msg : string; Line : Z }.

Definition rawOfToks (ts : list PTok) : string :=
  fold_right (fun t acc => raw t ++ acc) "" ts.

(** ** Character classes *)

Definition snoc (s : string) (c : ascii) : string := s ++ String c "".

Definition isSpace (c : ascii) : bool :=
  let n := nat_of_ascii c in
  (Nat.eqb n 32 || Nat.eqb n 9 || Nat.eqb n 10 || Nat.eqb n 13)%bool.

Definition isLetter (c : ascii) : bool :=
  let n := nat_of_ascii c in
  ((Nat.leb 65 n && Nat.leb n 90) || (Nat.leb 97 n && Nat.leb n 122))%bool.

Definition isDigit (c : ascii) : bool :=
  let n := nat_of_ascii c in (Nat.leb 48 n && Nat.leb n 57)%bool.

(** Go: [isNameByte], with every byte of a multi-byte rune accepted. *)
Definition isNameByte (c : ascii) : bool :=
  let n := nat_of_ascii c in
  (isLetter c || isDigit c || Nat.eqb n 95 (* _ *) || Nat.eqb n 58 (* : *)
   || Nat.eqb n 46 (* . *) || Nat.eqb n 45 (* - *) || Nat.leb 128 n)%bool.

Definition isNameStart (c : ascii) : bool :=
  let n := nat_of_ascii c in
  (isLetter c || Nat.eqb n 95 || Nat.eqb n 58 || Nat.leb 128 n)%bool.

Definition newline : ascii := "010"%char.
Definition dquote : ascii := "034"%char.

Definition bump (ln : Z) (c : ascii) : Z :=
  if Ascii.eqb c newline then ln + 1 else ln.

(** ** Qualified names *)

Fixpoint countColon (s : string) : nat :=
  match s with
  | EmptyString => 0
  | String c s' => ((if Ascii.eqb c ":" then 1 else 0) + countColon s')%nat
  end.

Fixpoint cutColon (s : string) : option (string * string) :=
  match s with
  | EmptyString => None
  | String c s' =>
      if Ascii.eqb c ":" then Some ("", s')
      else match cutColon s' with
           | Some (a, b) => Some (String c a, b)
           | None => None
           end
  end.

(** Go: [Decoder.nsname] after [Decoder.name]: a name with more than
    one colon is refused, [prefix:local] is split, any other name is local. *)
Definition nsname (s : string) : option Name :=
  match s with
  | EmptyString => None
  | String c _ =>
      if negb (isNameStart c) then None
      else if Nat.ltb 1 (countColon s) then None
      else match cutColon s with
           | Some (p, l) =>
               if (String.eqb p "" || String.eqb l "")%bool
               then Some (mkName "" s) else Some (mkName p l)
           | None => Some (mkName "" s)
           end
  end.

Definition NsEnv := list (string * string).

Fixpoint nsLookup (p : string) (env : NsEnv) : option string :=
  match env with
  | [] => None
  | (q, u) :: env' => if String.eqb p q then Some u else nsLookup p env'
  end.

Definition xmlURL : string := "http://www.w3.org/XML/1998/namespace".

(** Go: [Decoder.translate]. *)
Definition translate (env : NsEnv) (isElementName : bool) (n : Name) : Name :=
  if String.eqb (Space n) "xmlns" then n
  else if (String.eqb (Space n) "" && negb isElementName)%bool then n
  else if String.eqb (Space n) "xml" then mkName xmlURL (Local n)
  else if (String.eqb (Space n) "" && String.eqb (Local n) "xmlns")%bool then n
  else match nsLookup (Space n) env with
       | Some u => mkName u (Local n)
       | None => n
       end.

(** The bindings a start tag declares, innermost first. *)
Fixpoint declare (attrs : list Attr) (env : NsEnv) : NsEnv :=
  match attrs with
  | [] => env
  | a :: attrs' =>
      let env' :=
        if String.eqb (Space (AName a)) "xmlns"
        then (Local (AName a), AValue a) :: env
        else if (String.eqb (Space (AName a)) ""
                 && String.eqb (Local (AName a)) "xmlns")%bool
        then ("", AValue a) :: env
        else env in
      declare attrs' env'
  end.

(** ** UTF-8 (Go: [unicode/utf8]) *)

Definition byteOf (c : ascii) : Z := Z.of_nat (nat_of_ascii c).
Definition charOf (z : Z) : ascii := ascii_of_nat (Z.to_nat z).

Definition RuneError : Z := 65533.
Definition MaxRune : Z := 1114111.

(** The bytes of U+FFFD. *)
Definition replacement : string :=
  String "239"%char (String "191"%char (String "189"%char "")).

Definition behead (s : string) : string :=
  match s with
  | EmptyString => s
  | String _ s' => s'
  end.

Definition isCont (b : Z) : bool := (128 <=? b) && (b <=? 191).

(** Go: [utf8.DecodeRune]: the rune at the head of [s] and its width in
    bytes; [(RuneError, 1)] for an encoding that is not valid, and
    [(RuneError, 0)] for no bytes at all. *)
Definition decodeRune (s : string) : Z * nat :=
  match s with
  | EmptyString => (RuneError, 0%nat)
  | String c0 s1 =>
      let b0 := byteOf c0 in
      if b0 <? 128 then (b0, 1%nat)
      else if (b0 <? 194) || (244 <? b0) then (RuneError, 1%nat)
      else
        match s1 with
        | EmptyString => (RuneError, 1%nat)
        | String c1 s2 =>
            let b1 := byteOf c1 in
            let lo := if b0 =? 224 then 160 else if b0 =? 240 then 144 else 128 in
            let hi := if b0 =? 237 then 159 else if b0 =? 244 then 143 else 191 in
            if (b1 <? lo) || (hi <? b1) then (RuneError, 1%nat)
            else if b0 <? 224 then ((b0 mod 32) * 64 + b1 mod 64, 2%nat)
            else
              match s2 with
              | EmptyString => (RuneError, 1%nat)
              | String c2 s3 =>
                  let b2 := byteOf c2 in
                  if negb (isCont b2) then (RuneError, 1%nat)
                  else if b0 <? 240
                  then ((b0 mod 16) * 4096 + (b1 mod 64) * 64 + b2 mod 64, 3%nat)
                  else
                    match s3 with
                    | EmptyString => (RuneError, 1%nat)
                    | String c3 _ =>
                        let b3 := byteOf c3 in
                        if negb (isCont b3) then (RuneError, 1%nat)
                        else ((b0 mod 8) * 262144 + (b1 mod 64) * 4096
                              + (b2 mod 64) * 64 + b3 mod 64, 4%nat)
                    end
              end
        end
  end.

(** What follows the rune at the head of [String c s1], of width [w]. *)
Definition afterRune (w : nat) (s1 : string) : string :=
  match w with
  | 2%nat => behead s1
  | 3%nat => behead (behead s1)
  | 4%nat => behead (behead (behead s1))
  | _ => s1
  end.

(** Go: [string(rune(n))], the UTF-8 encoding of a code point; U+FFFD for
    what is no code point. *)
Definition encodeRune (r : Z) : string :=
  if (r <? 0) || (MaxRune <? r) || ((55296 <=? r) && (r <=? 57343))
  then replacement
  else if r <? 128 then String (charOf r) ""
  else if r <? 2048
  then String (charOf (192 + r / 64)) (String (charOf (128 + r mod 64)) "")
  else if r <? 65536
  then String (charOf (224 + r / 4096))
         (String (charOf (128 + (r / 64) mod 64))
            (String (charOf (128 + r mod 64)) ""))
  else String (charOf (240 + r / 262144))
         (String (charOf (128 + (r / 4096) mod 64))
            (String (charOf (128 + (r / 64) mod 64))
               (String (charOf (128 + r mod 64)) ""))).

(** Go: [isInCharacterRange], the [Char] production of XML 1.0. *)
Definition isInCharacterRange (r : Z) : bool :=
  (r =? 9) || (r =? 10) || (r =? 13)
  || ((32 <=? r) && (r <=? 55295))
  || ((57344 <=? r) && (r <=? 65533))
  || ((65536 <=? r) && (r <=? 1114111)).

Definition hexDigitOf (d : Z) : ascii :=
  if d <? 10 then charOf (48 + d) else charOf (55 + d).

(** Go: the verb [%U] of [fmt]: [U+] and at least four hexadecimal digits. *)
Definition formatU (r : Z) : string :=
  let low := String (hexDigitOf ((r / 4096) mod 16))
               (String (hexDigitOf ((r / 256) mod 16))
                  (String (hexDigitOf ((r / 16) mod 16))
                     (String (hexDigitOf (r mod 16)) ""))) in
  "U+" ++
  (if 1048576 <=? r
   then String (hexDigitOf (r / 1048576)) (String (hexDigitOf ((r / 65536) mod 16)) low)
   else if 65536 <=? r then String (hexDigitOf (r / 65536)) low
   else low).

(** Go: the last loop of [Decoder.text]: the first rune that is no valid
    UTF-8 or no character of XML, as the message of the syntax error. *)
Fixpoint checkText (s : string) : option string :=
  match s with
  | EmptyString => None
  | String _ s1 =>
      let rw := decodeRune s in
      if (fst rw =? RuneError) && Nat.eqb (snd rw) 1 then Some "invalid UTF-8"
      else if negb (isInCharacterRange (fst rw))
      then Some ("illegal character code " ++ formatU (fst rw))
      else checkText (afterRune (snd rw) s1)
  end.

(** ** Character references *)

Fixpoint decValue (s : string) (acc : Z) : Z :=
  match s with
  | EmptyString => acc
  | String c s' => decValue s' (10 * acc + (byteOf c - 48))
  end.

Definition hexDigit (c : ascii) : option Z :=
  let n := byteOf c in
  if isDigit c then Some (n - 48)
  else if (97 <=? n) && (n <=? 102) then Some (n - 87)
  else if (65 <=? n) && (n <=? 70) then Some (n - 55)
  else None.

Definition isHexDigit (c : ascii) : bool :=
  match hexDigit c with Some _ => true | None => false end.

Fixpoint hexValue (s : string) (acc : Z) : Z :=
  match s with
  | EmptyString => acc
  | String c s' =>
      hexValue s' (16 * acc + match hexDigit c with Some d => d | None => 0 end)
  end.

(** Go: [strconv.ParseUint] on the digits of a character reference, then
    [n <= unicode.MaxRune] and [string(rune(n))]. *)
Definition charRef (value : Z) (digits : string) : option string :=
  if String.eqb digits "" then None
  else if value <=? MaxRune then Some (encodeRune value)
  else None.

(** Go: the map [entity] of the names every parser knows. *)
Definition predefined (name : string) : option string :=
  if String.eqb name "lt" then Some "<"
  else if String.eqb name "gt" then Some ">"
  else if String.eqb name "amp" then Some "&"
  else if String.eqb name "apos" then Some "'"
  else if String.eqb name "quot" then Some (String dquote "")
  else None.

(** ** The XML declaration *)

Fixpoint isPrefixOf (p s : string) : bool :=
  match p, s with
  | EmptyString, _ => true
  | String a p', String b s' => Ascii.eqb a b && isPrefixOf p' s'
  | String _ _, EmptyString => false
  end.

Fixpoint dropChars (n : nat) (s : string) : string :=
  match n, s with
  | O, _ => s
  | S n', String _ s' => dropChars n' s'
  | S _, EmptyString => s
  end.

Fixpoint upTo (sep : ascii) (s : string) : option string :=
  match s with
  | EmptyString => None
  | String c s' =>
      if Ascii.eqb c sep then Some ""
      else match upTo sep s' with
           | Some v => Some (String c v)
           | None => None
           end
  end.

(** Go: [procInst]: the value of [param="..."] or [param='...'] in the
    body of a processing instruction, [""] if there is none.  An occurrence
    of [param=] that no quote follows is passed over, together with the
    byte after it; [skip] counts the bytes still to pass over. *)
Fixpoint procInstFrom (param : string) (skip : nat) (s : string) : string :=
  match s with
  | EmptyString => ""
  | String _ s' =>
      match skip with
      | S k => procInstFrom param k s'
      | O =>
          if isPrefixOf param s then
            match dropChars (String.length param) s with
            | EmptyString => ""
            | String c v =>
                if (Ascii.eqb c "'" || Ascii.eqb c dquote)%bool
                then match upTo c v with
                     | Some value => value
                     | None => ""
                     end
                else procInstFrom param (String.length param) s'
            end
          else procInstFrom param O s'
      end
  end.

Definition procInst (param s : string) : string :=
  procInstFrom (param ++ "=") O s.

Definition lowerChar (c : ascii) : ascii :=
  let n := nat_of_ascii c in
  if (Nat.leb 65 n && Nat.leb n 90)%bool then ascii_of_nat (n + 32) else c.

Fixpoint lower (s : string) : string :=
  match s with
  | EmptyString => EmptyString
  | String c s' => String (lowerChar c) (lower s')
  end.

(** Go: the two errors that [rawToken] makes with [fmt.Errorf] for an XML
    declaration, each with the value it quotes: [xml: unsupported version
    %q; only version 1.0 is supported] and [xml: encoding %q declared but
    Decoder.CharsetReader is nil]. *)
Inductive DeclError :=
| UnsupportedVersion (ver : string)
| UnsupportedEncoding (enc : string).

(** Go: the checks of [rawToken] on [<?xml ...?>]; the decoder has no
    [CharsetReader]. *)
Definition checkDecl (target data : string) : option DeclError :=
  if String.eqb target "xml" then
    let ver := procInst "version" data in
    if (negb (String.eqb ver "") && negb (String.eqb ver "1.0"))%bool
    then Some (UnsupportedVersion ver)
    else
      let enc := procInst "encoding" data in
      if (negb (String.eqb enc "") && negb (String.eqb (lower enc) "utf-8"))%bool
      then Some (UnsupportedEncoding enc)
      else None
  else None.

(** How a token stream ends: at the end of the input, at the first
    malformed construct, or at an XML declaration that is refused. *)
Inductive StreamEnd :=
| AtEOF
| AtError (e : SyntaxError)
| AtDecl (e : DeclError).

Record Stream := mkStream { toks : list PTok; fin : StreamEnd }.

(** ** The tokenizer

    Go's [Decoder.Token] ([rawToken] and [text], then the check of the
    nesting and the translation of the prefixes) as a machine that reads
    one byte at a time.  It keeps Go's line counter and reports Go's errors
    in strict mode, with no [Entity] map and no [CharsetReader].  A name
    is checked as Go checks its ASCII bytes; the bytes of a rune outside
    ASCII are accepted in a name without the look-up in Go's tables. *)

Definition nul : ascii := "000"%char.
Definition cr : ascii := "013"%char.

Inductive EntState :=
| EAmp                    (* after [&] *)
| ENum                    (* after [&#] *)
| EDec (ds : string)      (* after [&#] and the digits [ds] *)
| EHex (ds : string)      (* after [&#x] and the digits [ds] *)
| EName (nm : string).    (* after [&] and the bytes [nm] of a name *)

Inductive EntCtx :=
| InText (txt : string)
| InAttr (n : Name) (attrs : list Attr) (an : Name) (q : ascii) (v : string).

(** In the modes that read text, [b0] and [b1] are the two bytes read
    before, as in Go's [text]. *)
Inductive Mode :=
| MText (txt : string) (b0 b1 : ascii)
| MEntity (k : EntCtx) (st : EntState)
| MLt
| MEndName (n : string)
| MEndSpace (n : Name)
| MStartName (n : string)
| MTag (n : Name) (attrs : list Attr)
| MSlash (n : Name) (attrs : list Attr)
| MAttrName (n : Name) (attrs : list Attr) (an : string)
| MAttrEq (n : Name) (attrs : list Attr) (an : Name)
| MAttrQuote (n : Name) (attrs : list Attr) (an : Name)
| MAttrVal (n : Name) (attrs : list Attr) (an : Name) (q : ascii) (v : string)
           (b0 b1 : ascii)
| MPITarget (t : string)
| MPIBody (t d : string) (qm : bool)
| MBang
| MBangDash
| MComment (d : string) (dashes : nat)
| MCDataOpen (rest : string)
| MCData (txt : string) (b0 b1 : ascii)
| MDirective (d : string) (inquote : option ascii) (depth : nat)
| MDirLt (d : string) (depth : nat) (seen : nat)
| MDirComment (d : string) (depth : nat) (dashes : nat)
| MFail (e : SyntaxError)
| MStop (e : DeclError).

Record Lexer := mkLexer {
  mode : Mode;
  line : Z;                       (* Go: d.line *)
  rawbuf : string;                (* the bytes of the token being read *)
  stk : list (Name * NsEnv);      (* open elements, with the bindings to restore *)
  ns : NsEnv;                     (* Go: d.ns *)
  out : list PTok                 (* the tokens delivered so far *)
}.

Definition textStart : Mode := MText "" nul nul.

Definition initial : Lexer := mkLexer textStart 1 "" [] [] [].

(** Reads [c] as one more byte of the token in progress. *)
Definition advance (L : Lexer) (m : Mode) (c : ascii) : Lexer :=
  mkLexer m (bump (line L) c) (snoc (rawbuf L) c) (stk L) (ns L) (out L).

(** Go: [d.err = d.syntaxError(msg)] with the line counter at [ln]. *)
Definition failAt (L : Lexer) (msg : string) (ln : Z) : Lexer :=
  mkLexer (MFail (mkSyntaxError msg ln)) ln (rawbuf L) (stk L) (ns L) (out L).

(** Delivers [t], whose lexeme ends with [c]. *)
Definition deliver (L : Lexer) (t : Token) (c : ascii) : Lexer :=
  mkLexer textStart (bump (line L) c) "" (stk L) (ns L)
          (out L ++ [mkPTok t (snoc (rawbuf L) c)])%list.

Definition nameError (s dflt : string) : string :=
  match s with
  | EmptyString => dflt
  | String c _ => if isNameStart c then dflt else "invalid XML name: " ++ s
  end.

Fixpoint dropLast (s : string) : string :=
  match s with
  | EmptyString => EmptyString
  | String c EmptyString => EmptyString
  | String c s' => String c (dropLast s')
  end.

Definition translateAttr (env : NsEnv) (a : Attr) : Attr :=
  mkAttr (translate env false (AName a)) (AValue a).

(** Go: the [StartElement] case of [Token] ([pushNs], [pushElement],
    [translate]); an empty element is closed at once. *)
Definition openElement (L : Lexer) (n : Name) (attrs : list Attr)
    (selfclose : bool) : Lexer :=
  let env := declare attrs (ns L) in
  let n' := translate env true n in
  let start := mkPTok (StartElement n' (map (translateAttr env) attrs))
                      (snoc (rawbuf L) ">") in
  if selfclose
  then mkLexer textStart (line L) "" (stk L) (ns L)
               (out L ++ [start; mkPTok (EndElement n') ""])%list
  else mkLexer textStart (line L) "" ((n, ns L) :: stk L) env
               (out L ++ [start])%list.

(** Go: [popElement]. *)
Definition closeElement (L : Lexer) (n : Name) : Lexer :=
  match stk L with
  | [] => failAt L ("unexpected end element </" ++ Local n ++ ">") (line L)
  | (top, saved) :: stk' =>
      if negb (String.eqb (Local top) (Local n))
      then failAt L ("element <" ++ Local top ++ "> closed by </"
                     ++ Local n ++ ">") (line L)
      else if negb (String.eqb (Space top) (Space n))
      then failAt L ("element <" ++ Local top ++ "> in space " ++ Space top
                     ++ " closed by </" ++ Local n ++ "> in space "
                     ++ Space n) (line L)
      else mkLexer textStart (line L) "" stk' saved
                   (out L ++ [mkPTok (EndElement (translate (ns L) true n))
                                     (snoc (rawbuf L) ">")])%list
  end.

Definition tagStep (L : Lexer) (n : Name) (attrs : list Attr) (c : ascii) : Lexer :=
  if isSpace c then advance L (MTag n attrs) c
  else if Ascii.eqb c "/" then advance L (MSlash n attrs) c
  else if Ascii.eqb c ">" then openElement L n attrs false
  else if isNameByte c then advance L (MAttrName n attrs (String c "")) c
  else failAt L "expected attribute name in element" (line L).

Definition attrEqStep (L : Lexer) (n : Name) (attrs : list Attr) (an : Name)
    (c : ascii) : Lexer :=
  if isSpace c then advance L (MAttrEq n attrs an) c
  else if Ascii.eqb c "=" then advance L (MAttrQuote n attrs an) c
  else failAt L "attribute name without = in element" (line L).

Definition endStep (L : Lexer) (n : Name) (c : ascii) : Lexer :=
  if isSpace c then advance L (MEndSpace n) c
  else if Ascii.eqb c ">" then closeElement L n
  else failAt L ("invalid characters between </" ++ Local n ++ " and >") (line L).

(** Go: the end of a processing instruction, with the checks of the XML
    declaration. *)
Definition piStep (L : Lexer) (t d : string) (qm : bool) (c : ascii) : Lexer :=
  if (String.eqb d "" && isSpace c)%bool then advance L (MPIBody t d false) c
  else if (qm && Ascii.eqb c ">")%bool then
    match checkDecl t (dropLast d) with
    | Some e => mkLexer (MStop e) (line L) (rawbuf L) (stk L) (ns L) (out L)
    | None => deliver L (ProcInst t (dropLast d)) c
    end
  else advance L (MPIBody t (snoc d c) (Ascii.eqb c "?")) c.

(** Go: [text] after a reference is replaced: the text goes on, and the
    two bytes read before are forgotten. *)
Definition resume (k : EntCtx) (text : string) : Mode :=
  match k with
  | InText txt => MText (txt ++ text) nul nul
  | InAttr n attrs an q v => MAttrVal n attrs an q (v ++ text) nul nul
  end.

(** Go: [text] writes a byte: a carriage return becomes a line feed, and
    the line feed after a carriage return is dropped. *)
Definition addByte (txt : string) (b1 c : ascii) : string :=
  if Ascii.eqb c cr then snoc txt newline
  else if (Ascii.eqb c newline && Ascii.eqb b1 cr)%bool then txt
  else snoc txt c.

(** Go: []]>] read outside a CDATA section. *)
Definition closesCData (b0 b1 c : ascii) : bool :=
  (Ascii.eqb c ">" && Ascii.eqb b0 "]" && Ascii.eqb b1 "]")%bool.

Definition badEntity (L : Lexer) (ent : string) (closed : bool) : Lexer :=
  failAt L ("invalid character entity " ++ ent
            ++ (if closed then ";" else " (no semicolon)")) (line L).

(** Go: the part of [text] that reads a reference, after the [&]. *)
Definition entityStep (L : Lexer) (k : EntCtx) (st : EntState) (c : ascii) : Lexer :=
  match st with
  | EAmp =>
      if Ascii.eqb c "#" then advance L (MEntity k ENum) c
      else if isNameByte c then advance L (MEntity k (EName (String c ""))) c
      else badEntity L "&" (Ascii.eqb c ";")
  | ENum =>
      if Ascii.eqb c "x" then advance L (MEntity k (EHex "")) c
      else if isDigit c then advance L (MEntity k (EDec (String c ""))) c
      else badEntity L "&#" (Ascii.eqb c ";")
  | EDec ds =>
      if isDigit c then advance L (MEntity k (EDec (snoc ds c))) c
      else if Ascii.eqb c ";" then
        match charRef (decValue ds 0) ds with
        | Some text => advance L (resume k text) c
        | None => badEntity L ("&#" ++ ds) true
        end
      else badEntity L ("&#" ++ ds) false
  | EHex ds =>
      if isHexDigit c then advance L (MEntity k (EHex (snoc ds c))) c
      else if Ascii.eqb c ";" then
        match charRef (hexValue ds 0) ds with
        | Some text => advance L (resume k text) c
        | None => badEntity L ("&#x" ++ ds) true
        end
      else badEntity L ("&#x" ++ ds) false
  | EName nm =>
      if isNameByte c then advance L (MEntity k (EName (snoc nm c))) c
      else if Ascii.eqb c ";" then
        match predefined nm with
        | Some text => advance L (resume k text) c
        | None => badEntity L ("&" ++ nm) true
        end
      else badEntity L ("&" ++ nm) false
  end.

(** Go: the directive goes on with [c], after [HandleB]. *)
Definition directiveByte (L : Lexer) (d : string) (depth : nat) (c : ascii) : Lexer :=
  if (Ascii.eqb c dquote || Ascii.eqb c "'")%bool
  then advance L (MDirective (snoc d c) (Some c) depth) c
  else if Ascii.eqb c ">"
  then advance L (MDirective (snoc d c) None (Nat.pred depth)) c
  else if Ascii.eqb c "<"
  then advance L (MDirLt (snoc d c) depth 0) c
  else advance L (MDirective (snoc d c) None depth) c.

Definition commentOpener : string := "!--".

Fixpoint firstChars (n : nat) (s : string) : string :=
  match n, s with
  | S n', String c s' => String c (firstChars n' s')
  | _, _ => EmptyString
  end.

Definition step (L : Lexer) (c : ascii) : Lexer :=
  match mode L with
  | MFail _ => L
  | MStop _ => L
  | MText txt b0 b1 =>
      if closesCData b0 b1 c
      then failAt L "unescaped ]]> not in CDATA section" (line L)
      else if Ascii.eqb c "<" then
        match checkText txt with
        | Some msg => failAt L msg (line L)
        | None =>
            let pending := if String.eqb (rawbuf L) "" then out L
                           else (out L ++ [mkPTok (CharData txt) (rawbuf L)])%list in
            mkLexer MLt (line L) (String c "") (stk L) (ns L) pending
        end
      else if Ascii.eqb c "&" then advance L (MEntity (InText txt) EAmp) c
      else advance L (MText (addByte txt b1 c) b1 c) c
  | MEntity k st => entityStep L k st c
  | MLt =>
      if Ascii.eqb c "/" then advance L (MEndName "") c
      else if Ascii.eqb c "?" then advance L (MPITarget "") c
      else if Ascii.eqb c "!" then advance L MBang c
      else if isNameByte c then advance L (MStartName (String c "")) c
      else failAt L "expected element name after <" (line L)
  | MStartName n =>
      if isNameByte c then advance L (MStartName (snoc n c)) c
      else match nsname n with
           | Some nm => tagStep L nm [] c
           | None => failAt L (nameError n "expected element name after <") (line L)
           end
  | MTag n attrs => tagStep L n attrs c
  | MSlash n attrs =>
      if Ascii.eqb c ">" then openElement L n attrs true
      else failAt L "expected /> in element" (bump (line L) c)
  | MAttrName n attrs an =>
      if isNameByte c then advance L (MAttrName n attrs (snoc an c)) c
      else match nsname an with
           | Some a => attrEqStep L n attrs a c
           | None => failAt L (nameError an "expected attribute name in element") (line L)
           end
  | MAttrEq n attrs an => attrEqStep L n attrs an c
  | MAttrQuote n attrs an =>
      if isSpace c then advance L (MAttrQuote n attrs an) c
      else if (Ascii.eqb c dquote || Ascii.eqb c "'")%bool
      then advance L (MAttrVal n attrs an c "" nul nul) c
      else failAt L "unquoted or missing attribute value in element" (line L)
  | MAttrVal n attrs an q v b0 b1 =>
      if closesCData b0 b1 c
      then failAt L "unescaped ]]> not in CDATA section" (line L)
      else if Ascii.eqb c "<"
      then failAt L "unescaped < inside quoted string" (line L)
      else if Ascii.eqb c q then
        match checkText v with
        | Some msg => failAt L msg (line L)
        | None => advance L (MTag n (attrs ++ [mkAttr an v])%list) c
        end
      else if Ascii.eqb c "&" then advance L (MEntity (InAttr n attrs an q v) EAmp) c
      else advance L (MAttrVal n attrs an q (addByte v b1 c) b1 c) c
  | MEndName n =>
      if isNameByte c then advance L (MEndName (snoc n c)) c
      else match nsname n with
           | Some nm => endStep L nm c
           | None => failAt L (nameError n "expected element name after </") (line L)
           end
  | MEndSpace n => endStep L n c
  | MPITarget t =>
      if isNameByte c then advance L (MPITarget (snoc t c)) c
      else match t with
           | EmptyString => failAt L "expected target name after <?" (line L)
           | String c0 _ =>
               if isNameStart c0 then piStep L t "" false c
               else failAt L ("invalid XML name: " ++ t) (line L)
           end
  | MPIBody t d qm => piStep L t d qm c
  | MBang =>
      if Ascii.eqb c "-" then advance L MBangDash c
      else if Ascii.eqb c "[" then advance L (MCDataOpen "CDATA[") c
      else advance L (MDirective (String c "") None 0) c
  | MBangDash =>
      if Ascii.eqb c "-" then advance L (MComment "" 0) c
      else failAt L "invalid sequence <!- not part of <!--" (bump (line L) c)
  | MComment d k =>
      if Nat.leb 2 k then
        if Ascii.eqb c ">" then deliver L (Comment (dropLast (dropLast d))) c
        else failAt L ("invalid sequence " ++ String dquote "--"
                       ++ String dquote " not allowed in comments")
                    (bump (line L) c)
      else advance L (MComment (snoc d c) (if Ascii.eqb c "-" then S k else 0)) c
  | MCDataOpen rest =>
      match rest with
      | String r rest' =>
          if Ascii.eqb c r
          then advance L (match rest' with
                          | EmptyString => MCData "" nul nul
                          | _ => MCDataOpen rest'
                          end) c
          else failAt L "invalid <![ sequence" (bump (line L) c)
      | EmptyString => failAt L "invalid <![ sequence" (bump (line L) c)
      end
  | MCData txt b0 b1 =>
      if closesCData b0 b1 c then
        match checkText (dropLast (dropLast txt)) with
        | Some msg => failAt L msg (line L)
        | None => deliver L (CharData (dropLast (dropLast txt))) c
        end
      else advance L (MCData (addByte txt b1 c) b1 c) c
  | MDirective d inq depth =>
      match inq with
      | Some q =>
          advance L (MDirective (snoc d c)
                                (if Ascii.eqb c q then None else inq) depth) c
      | None =>
          if (Ascii.eqb c ">" && Nat.eqb depth 0)%bool
          then deliver L (Directive d) c
          else directiveByte L d depth c
      end
  | MDirLt d depth seen =>
      if Ascii.eqb c (match get seen commentOpener with Some x => x | None => nul end)
      then match seen with
           | S (S _) => advance L (MDirComment (dropLast d) depth 0) c
           | _ => advance L (MDirLt d depth (S seen)) c
           end
      else directiveByte L (d ++ firstChars seen commentOpener) (S depth) c
  | MDirComment d depth k =>
      if (Nat.leb 2 k && Ascii.eqb c ">")%bool
      then advance L (MDirective (snoc d " ") None depth) c
      else advance L (MDirComment d depth
                        (if Ascii.eqb c "-" then Nat.min 2 (S k) else 0)) c
  end.

Fixpoint run (s : string) (L : Lexer) : Lexer :=
  match s with
  | EmptyString => L
  | String c s' => run s' (step L c)
  end.

(** Go: [Token] at the end of the input. *)
Definition finish (L : Lexer) : Stream :=
  let eof := AtError (mkSyntaxError "unexpected EOF" (line L)) in
  let bad msg := mkStream (out L) (AtError (mkSyntaxError msg (line L))) in
  match mode L with
  | MFail e => mkStream (out L) (AtError e)
  | MStop e => mkStream (out L) (AtDecl e)
  | MText txt _ _ =>
      match checkText txt with
      | Some msg => bad msg
      | None =>
          mkStream (if String.eqb (rawbuf L) "" then out L
                    else (out L ++ [mkPTok (CharData txt) (rawbuf L)])%list)
                   (match stk L with [] => AtEOF | _ => eof end)
      end
  | MAttrVal _ _ _ _ v _ _ =>
      match checkText v with
      | Some msg => bad msg
      | None => mkStream (out L) eof
      end
  | MCData _ _ _ => bad "unexpected EOF in CDATA section"
  | _ => mkStream (out L) eof
  end.

Definition tokenize (s : string) : Stream := finish (run s initial).

Definition failed (L : Lexer) : bool :=
  match mode L with MFail _ | MStop _ => true | _ => false end.

(** The bytes read so far: the lexemes delivered, then the lexeme in progress. *)
Definition consumed (L : Lexer) : string := rawOfToks (out L) ++ rawbuf L.

End Xml.

(** ** Errors

    Go's [error] values that the package produces or passes on. *)
Inductive Error : Type :=
| EOF                                         (* io.EOF *)
| Syntax (e : Xml.SyntaxError)                (* *xml.SyntaxError *)
| Declaration (e : Xml.DeclError)             (* the errors of the XML declaration *)
| UnmarshalError (msg : string)               (* xml.UnmarshalError *)
| NumError (num : string) (range : bool)      (* *strconv.NumError of ParseInt:
                                                 ErrRange, or else ErrSyntax *)
| ErrEnvelopeMisconfigured
| ErrInvalidPEMFileSpecified
| ErrEncryptedPEMFileSpecified
| ErrUnsupportedContentType
| HTTPError (StatusCode : Z) (ResponseBody : string)
| TransportError (msg : string)               (* errors of net/http and of io *)
| ProtocolFault (D : Type) (Code FaultString Actor : string) (Detail : D).


Module Envelope.
Import Xml.

Definition soapEnvNS : string := "http://schemas.xmlsoap.org/soap/envelope/".
Definition envelopeName : Name := mkName soapEnvNS "Envelope".
Definition headerName : Name := mkName soapEnvNS "Header".
Definition bodyName : Name := mkName soapEnvNS "Body".
Definition faultName : Name := mkName soapEnvNS "Fault".

(** ** Elements

    What [DecodeElement] has read once an element is closed: the element
    with its children, every piece with the bytes it was read from. *)
Inductive Node :=
| Elem (n : Name) (attrs : list Attr) (kids : list Node) (otag ctag : string)
| Text (s : string) (lexeme : string)
| Misc (t : Token) (lexeme : string).

Definition concatAll (l : list string) : string :=
  fold_right append "" l.

Fixpoint rawOfNode (nd : Node) : string :=
  match nd with
  | Elem _ _ kids otag ctag => otag ++ concatAll (map rawOfNode kids) ++ ctag
  | Text _ lx => lx
  | Misc _ lx => lx
  end.

(** Go: the bytes of a [,innerxml] field. *)
Definition innerXML (kids : list Node) : string :=
  concatAll (map rawOfNode kids).

(** Go: the value of a string field read from an element, the character
    data directly inside it. *)
Fixpoint directText (kids : list Node) : string :=
  match kids with
  | [] => ""
  | Text s _ :: kids' => s ++ directText kids'
  | _ :: kids' => directText kids'
  end.

Definition isElemNamed (l : string) (nd : Node) : bool :=
  match nd with
  | Elem n _ _ _ _ => String.eqb (Local n) l
  | _ => false
  end.

(** The tokens an element was read from. *)
Fixpoint flatten (nd : Node) : list PTok :=
  match nd with
  | Elem n attrs kids otag ctag =>
      (mkPTok (StartElement n attrs) otag :: flat_map flatten kids
       ++ [mkPTok (EndElement n) ctag])%list
  | Text s lx => [mkPTok (CharData s) lx]
  | Misc t lx => [mkPTok t lx]
  end.

Definition flattenAll (l : list Node) : list PTok := flat_map flatten l.

(** ** The data model (spec 3) *)

(** Modelled from the spec: [Fault] of the absent [envelope.go] (spec 3 and
    the expected values of [envelopeDecodeTests]): the code, the string,
    the actor, and the captured inner markup of [detail], absent when the
    document has no [detail] child. *)
Record Fault := mkFault {
  FXMLName : Name;
  Code : string;
  FaultString : string;
  Actor : string;
  DetailInternal : option string
}.

(** Elements ready to be printed: the encoder's side of the collaborator. *)
Inductive XNode :=
| XElem (prefix uri local : string) (attrs : list (string * string))
        (kids : list XNode)
| XText (s : string).

(** The capability of a caller's content type: how the XML collaborator
    decodes an element into the bound value, and how it prints the value. *)
Class Content (R : Type) := {
  unmarshalXML : Node -> R -> result Error R;
  marshalXML : R -> XNode
}.

(** Modelled from the spec: [Body] and [Envelope] of the absent
    [envelope.go] (spec 3): a body holds the caller's bound content target
    (nil when none was bound) and the fault, if one was decoded; the header
    holds the elements the header builders contributed. *)
Record Body (R : Type) := mkBody {
  BXMLName : Name;
  BFault : option Fault;
  BContent : option R
}.
Arguments mkBody {R}.
Arguments BXMLName {R}.
Arguments BFault {R}.
Arguments BContent {R}.

Record Envelope (R : Type) := mkEnvelope {
  XMLName : Name;
  Header : list XNode;
  EBody : Body R
}.
Arguments mkEnvelope {R}.
Arguments XMLName {R}.
Arguments Header {R}.
Arguments EBody {R}.

Definition noName : Name := mkName "" "".

(** Modelled from the spec: [NewEnvelope] of the absent [envelope.go]
    (spec 3, Envelope: a factory that binds a caller-owned content pointer
    as the expected success-body shape). *)
Definition NewEnvelope {R} (content : option R) : Envelope R :=
  mkEnvelope noName [] (mkBody noName None content).

(** Modelled from the spec: [AddHeaders] (spec 3, Header: builders append in
    registration order). *)
Definition AddHeaders {R} (e : Envelope R) (hs : list XNode) : Envelope R :=
  mkEnvelope (XMLName e) (Header e ++ hs)%list (EBody e).

(** The [FaultError] capability of a caller's fault-detail type (spec 3):
    from the detail target and the decoded fault, the error handed to the
    caller. *)
Class FaultError (D : Type) := { errorFromFault : D -> Fault -> Error }.

(** Modelled from the spec: [ErrorFromFault] of the absent response body
    type (spec 4.4 steps 6 and 7): the error of the [FaultError] contract
    when the body resolved to a fault, no error otherwise. *)
Definition ErrorFromFault {R D} `{FaultError D} (b : Body R) (detail : D)
    : option Error :=
  match BFault b with
  | Some f => Some (errorFromFault detail f)
  | None => None
  end.

(** ** Decode (spec 4.2) *)

(** Go: a string field tagged with an element name takes the character
    data of the child of that name; a later child of the same name
    overwrites an earlier one. *)
Fixpoint fieldText (l : string) (kids : list Node) (dflt : string) : string :=
  match kids with
  | [] => dflt
  | Elem n _ ks _ _ :: kids' =>
      fieldText l kids' (if String.eqb (Local n) l then directText ks else dflt)
  | _ :: kids' => fieldText l kids' dflt
  end.

(** Go: a pointer field whose target has one [,innerxml] field. *)
Fixpoint fieldInner (l : string) (kids : list Node) (dflt : option string)
    : option string :=
  match kids with
  | [] => dflt
  | Elem n _ ks _ _ :: kids' =>
      fieldInner l kids' (if String.eqb (Local n) l then Some (innerXML ks) else dflt)
  | _ :: kids' => fieldInner l kids' dflt
  end.

(** Modelled from the spec: the decoding of a [Fault] element in the absent
    [envelope.go] (spec 4.2 step 3): [faultcode], [faultstring] and
    [faultactor] are plain text children; [detail], if present, is not
    decoded structurally, its inner markup is captured as it stands. *)
Definition decodeFault (nd : Node) : Fault :=
  match nd with
  | Elem n _ kids _ _ =>
      mkFault n (fieldText "faultcode" kids "") (fieldText "faultstring" kids "")
              (fieldText "faultactor" kids "") (fieldInner "detail" kids None)
  | _ => mkFault noName "" "" "" None
  end.

(** An element being read: its start tag and the children closed so far. *)
Record Frame := mkFrame {
  fname : Name; fattrs : list Attr; fotag : string; fkids : list Node
}.

Definition addKid (f : Frame) (k : Node) : Frame :=
  mkFrame (fname f) (fattrs f) (fotag f) (fkids f ++ [k])%list.

Definition closeFrame (f : Frame) (ctag : string) : Node :=
  Elem (fname f) (fattrs f) (fkids f) (fotag f) ctag.

(** The element being read, as far as it has been read: its open elements,
    innermost first in [stack], closed as they stand. *)
Definition soFar (stack : list Frame) (cur : Frame) : Node :=
  fold_left (fun nd parent => closeFrame (addKid parent nd) "") stack
            (closeFrame cur "").

Section Decoder.
Context {R : Type} `{Content R}.

Inductive Phase :=
| SeekRoot                              (* before the root element *)
| InEnvelope                            (* among the children of Envelope *)
| SkipChild (depth : nat)               (* in a Header or another child of Envelope *)
| InBody                                (* in Body, before its first child *)
| InChild (isFault : bool) (stack : list Frame) (cur : Frame)
| AfterChild (depth : nat)              (* in Body, after its first child *)
| Done (r : result Error (Envelope R)).

Record Decoder := mkDecoder { phase : Phase; env : Envelope R }.

Definition setBody (e : Envelope R) (b : Body R) : Envelope R :=
  mkEnvelope (XMLName e) (Header e) b.

Definition stop (d : Decoder) (err : Error) : Decoder :=
  mkDecoder (Done (Err err)) (env d).

(** Go: [DecodeElement] decodes while it reads: the target refuses the
    element at the first tag at which what has been read cannot be
    decoded (the name of an element, an attribute, the text of an element
    that is closed), and nothing after that tag is read. *)
Definition enter (d : Decoder) (isFault : bool) (stack : list Frame)
    (cur : Frame) : Decoder :=
  let next := mkDecoder (InChild isFault stack cur) (env d) in
  if isFault then next
  else match BContent (EBody (env d)) with
       | None => next
       | Some r =>
           match unmarshalXML (soFar stack cur) r with
           | Ok _ => next
           | Err e => stop d e
           end
       end.

(** The first child of Body has been read in full. *)
Definition childDone (d : Decoder) (isFault : bool) (nd : Node) : Decoder :=
  let b := EBody (env d) in
  if isFault
  then mkDecoder (AfterChild 0)
         (setBody (env d) (mkBody (BXMLName b) (Some (decodeFault nd)) None))
  else match BContent b with
       | None => stop d ErrEnvelopeMisconfigured
       | Some r =>
           match unmarshalXML nd r with
           | Ok r' => mkDecoder (AfterChild 0)
                        (setBody (env d) (mkBody (BXMLName b) (BFault b) (Some r')))
           | Err e => stop d e
           end
       end.

(** Modelled from the spec: [Decode] of the absent [envelope.go], one token
    of the stream at a time (spec 4.2).
    Step 1: the Envelope/Header/Body shell is parsed; a root element of
    another name is refused, as Go's [encoding/xml] refuses an element that
    does not match the [XMLName] tag of the struct.
    Step 2: with no content target bound and a first child of Body that is
    not a Fault, decoding fails with the configuration error.
    Step 3: the first child of Body is decoded as a Fault when it has the
    reserved name, into the bound content target otherwise, tag by tag as
    Go's [DecodeElement] does. *)
Definition dstep (d : Decoder) (t : PTok) : Decoder :=
  match phase d with
  | Done _ => d
  | SeekRoot =>
      match tok t with
      | StartElement n _ =>
          if name_eqb n envelopeName
          then mkDecoder InEnvelope (mkEnvelope n (Header (env d)) (EBody (env d)))
          else stop d (UnmarshalError ("expected element type <Envelope> but have <"
                                       ++ Local n ++ ">"))
      | _ => d
      end
  | InEnvelope =>
      match tok t with
      | StartElement n _ =>
          if name_eqb n bodyName
          then let b := EBody (env d) in
               mkDecoder InBody (setBody (env d) (mkBody n (BFault b) (BContent b)))
          else mkDecoder (SkipChild 0) (env d)
      | EndElement _ => mkDecoder (Done (Ok (env d))) (env d)
      | _ => d
      end
  | SkipChild depth =>
      match tok t with
      | StartElement _ _ => mkDecoder (SkipChild (S depth)) (env d)
      | EndElement _ =>
          match depth with
          | O => mkDecoder InEnvelope (env d)
          | S depth' => mkDecoder (SkipChild depth') (env d)
          end
      | _ => d
      end
  | InBody =>
      match tok t with
      | StartElement n attrs =>
          if name_eqb n faultName
          then enter d true [] (mkFrame n attrs (raw t) [])
          else match BContent (EBody (env d)) with
               | None => stop d ErrEnvelopeMisconfigured
               | Some _ => enter d false [] (mkFrame n attrs (raw t) [])
               end
      | EndElement _ =>
          match BContent (EBody (env d)) with
          | None => stop d ErrEnvelopeMisconfigured
          | Some _ => mkDecoder InEnvelope (env d)
          end
      | _ => d
      end
  | InChild isFault stack cur =>
      match tok t with
      | StartElement n attrs =>
          enter d isFault (cur :: stack) (mkFrame n attrs (raw t) [])
      | EndElement _ =>
          let nd := closeFrame cur (raw t) in
          match stack with
          | parent :: stack' => enter d isFault stack' (addKid parent nd)
          | [] => childDone d isFault nd
          end
      | CharData s =>
          mkDecoder (InChild isFault stack (addKid cur (Text s (raw t)))) (env d)
      | other =>
          mkDecoder (InChild isFault stack (addKid cur (Misc other (raw t)))) (env d)
      end
  | AfterChild depth =>
      match tok t with
      | StartElement _ _ => mkDecoder (AfterChild (S depth)) (env d)
      | EndElement _ =>
          match depth with
          | O => mkDecoder InEnvelope (env d)
          | S depth' => mkDecoder (AfterChild depth') (env d)
          end
      | _ => d
      end
  end.

Definition drun (ts : list PTok) (d : Decoder) : Decoder := fold_left dstep ts d.

(** The error of a stream that ended before the envelope was closed. *)
Definition endError (f : StreamEnd) : Error :=
  match f with
  | AtEOF => EOF
  | AtError e => Syntax e
  | AtDecl e => Declaration e
  end.

Definition dfinish (f : StreamEnd) (d : Decoder) : result Error (Envelope R) :=
  match phase d with
  | Done r => r
  | _ => Err (endError f)
  end.

Definition DecodeStream (s : Stream) (e : Envelope R) : result Error (Envelope R) :=
  dfinish (fin s) (drun (toks s) (mkDecoder SeekRoot e)).

(** Go: [xml.NewDecoder(bytes.NewReader(in)).Decode(val)]. *)
Definition Decode (input : string) (e : Envelope R) : result Error (Envelope R) :=
  DecodeStream (tokenize input) e.

End Decoder.

(** ** Encode (spec 4.1) *)

(** Go: the switch of [xml.EscapeText] on a rune of one byte: a control
    character that XML forbids becomes U+FFFD, and so does a byte that is
    no rune by itself. *)
Definition escapeChar (c : ascii) : string :=
  let n := nat_of_ascii c in
  if Ascii.eqb c dquote then "&#34;"
  else if Ascii.eqb c "'" then "&#39;"
  else if Ascii.eqb c "&" then "&amp;"
  else if Ascii.eqb c "<" then "&lt;"
  else if Ascii.eqb c ">" then "&gt;"
  else if Nat.eqb n 9 then "&#x9;"
  else if Nat.eqb n 10 then "&#xA;"
  else if Nat.eqb n 13 then "&#xD;"
  else if (Nat.ltb n 32 || Nat.leb 128 n)%bool then replacement
  else String c "".

(** Go: [xml.EscapeText], rune by rune: a rune of several bytes is copied
    when XML allows it and becomes U+FFFD otherwise. *)
Fixpoint escapeText (s : string) : string :=
  match s with
  | EmptyString => ""
  | String c s1 =>
      let rw := decodeRune s in
      match snd rw with
      | S (S w) =>
          (if isInCharacterRange (fst rw)
           then String c (firstChars (S w) s1) else replacement)
          ++ escapeText (afterRune (S (S w)) s1)
      | _ => escapeChar c ++ escapeText s1
      end
  end.

Definition qname (prefix local : string) : string :=
  if String.eqb prefix "" then local else prefix ++ ":" ++ local.

Definition declName (prefix : string) : string :=
  if String.eqb prefix "" then "xmlns" else "xmlns:" ++ prefix.

Definition renderAttr (a : string * string) : string :=
  " " ++ fst a ++ "=" ++ String dquote (escapeText (snd a)) ++ String dquote "".

Fixpoint bound (p u : string) (scope : list (string * string)) : bool :=
  match scope with
  | [] => (String.eqb p "" && String.eqb u "")%bool
  | (q, v) :: scope' => if String.eqb p q then String.eqb u v else bound p u scope'
  end.

(** The printer: a namespace is declared on the first element that uses it
    and on no element inside (spec 4.1, Guarantee). *)
Fixpoint render (scope : list (string * string)) (x : XNode) : string :=
  match x with
  | XText s => escapeText s
  | XElem p u l attrs kids =>
      let known := bound p u scope in
      let scope' := if known then scope else (p, u) :: scope in
      let decl := if known then [] else [(declName p, u)] in
      "<" ++ qname p l ++ concatAll (map renderAttr (decl ++ attrs)%list) ++ ">"
      ++ concatAll (map (render scope') kids)
      ++ "</" ++ qname p l ++ ">"
  end.

Definition soapPrefix : string := "soapenv".

Section Encoder.
Context {R : Type} `{Content R}.

(** Modelled from the spec: the encoding of an envelope in the absent
    [envelope.go] (spec 4.1): the content under Body under Envelope; the
    header elements, if any, under Header before Body; the two wrappers
    under a fixed prefix bound to the envelope namespace. *)
Definition encodeTree (e : Envelope R) : XNode :=
  XElem soapPrefix soapEnvNS "Envelope" []
    ((match Header e with
      | [] => []
      | hs => [XElem soapPrefix soapEnvNS "Header" [] hs]
      end)
     ++ [XElem soapPrefix soapEnvNS "Body" []
           (match BContent (EBody e) with
            | Some r => [marshalXML r]
            | None => []
            end)])%list.

(** Go: [xml.NewEncoder(res).Encode(val)]. *)
Definition Encode (e : Envelope R) : string := render [] (encodeTree e).

End Encoder.

(** Go: [DecodeElement] on a stream of its own: the element read in full,
    from the token after its start tag to its end tag. *)
Fixpoint collect (f : StreamEnd) (stack : list Frame) (cur : Frame)
    (ts : list PTok) : result Error Node :=
  match ts with
  | [] => Err (endError f)
  | t :: ts' =>
      match tok t with
      | StartElement n attrs =>
          collect f (cur :: stack) (mkFrame n attrs (raw t) []) ts'
      | EndElement _ =>
          match stack with
          | [] => Ok (closeFrame cur (raw t))
          | parent :: stack' =>
              collect f stack' (addKid parent (closeFrame cur (raw t))) ts'
          end
      | CharData c => collect f stack (addKid cur (Text c (raw t))) ts'
      | other => collect f stack (addKid cur (Misc other (raw t))) ts'
      end
  end.

(** The root element of a stream. *)
Fixpoint firstElement (f : StreamEnd) (ts : list PTok) : result Error Node :=
  match ts with
  | [] => Err (endError f)
  | t :: ts' =>
      match tok t with
      | StartElement n attrs => collect f [] (mkFrame n attrs (raw t) []) ts'
      | _ => firstElement f ts'
      end
  end.

(** Modelled from the spec: the lazy second pass of the absent
    [envelope.go] (spec 4.2 step 4): the captured fragment is parsed as a
    document of its own and its root element is decoded into the caller's
    detail type. *)
Definition decodeDetail {D : Type} (unmarshal : Node -> D -> result Error D)
    (fragment : string) (target : D) : result Error D :=
  match firstElement (fin (tokenize fragment)) (toks (tokenize fragment)) with
  | Ok nd => unmarshal nd target
  | Err e => Err e
  end.

End Envelope.

(** * The fixtures of the repository's test tables *)
Module Fixtures.
Import Xml Envelope.

(** The documents are written with ['] where the test file has a double
    quote; [q] puts the double quotes back. *)
Fixpoint q (s : string) : string :=
  match s with
  | EmptyString => EmptyString
  | String c s' => String (if Ascii.eqb c "'" then dquote else c) (q s')
  end.

(** ** Values of Go's basic types *)

Definition showZ (z : Z) : string := NilZero.string_of_int (Z.to_int z).

(** Go: [unicode.IsSpace]. *)
Definition isSpaceRune (r : Z) : bool :=
  ((9 <=? r) && (r <=? 13)) || (r =? 32) || (r =? 133) || (r =? 160)
  || (r =? 5760) || ((8192 <=? r) && (r <=? 8202)) || (r =? 8232) || (r =? 8233)
  || (r =? 8239) || (r =? 8287) || (r =? 12288).

(** Go: [strings.TrimLeftFunc(s, unicode.IsSpace)]. *)
Fixpoint trimLeft (s : string) : string :=
  match s with
  | EmptyString => s
  | String _ s1 =>
      let rw := decodeRune s in
      if isSpaceRune (fst rw) then trimLeft (afterRune (snd rw) s1) else s
  end.

Fixpoint revOnto (s acc : string) : string :=
  match s with
  | EmptyString => acc
  | String c s' => revOnto s' (String c acc)
  end.

Definition reverse (s : string) : string := revOnto s "".

(** Go: [utf8.DecodeLastRuneInString] on a string given last byte first:
    the width of its last rune when that rune is white space.  No rune of
    four bytes is white space. *)
Definition lastSpace (r : string) : option nat :=
  let spaceOf (bytes : string) (k : nat) :=
    let rw := decodeRune bytes in
    if (Nat.eqb (snd rw) k && isSpaceRune (fst rw))%bool then Some k else None in
  match r with
  | EmptyString => None
  | String c0 r1 =>
      if byteOf c0 <? 128 then spaceOf (String c0 "") 1%nat
      else match r1 with
           | EmptyString => None
           | String c1 r2 =>
               if negb (isCont (byteOf c1))
               then spaceOf (String c1 (String c0 "")) 2%nat
               else match r2 with
                    | EmptyString => None
                    | String c2 _ =>
                        if negb (isCont (byteOf c2))
                        then spaceOf (String c2 (String c1 (String c0 ""))) 3%nat
                        else None
                    end
           end
  end.

(** Go: [strings.TrimRightFunc(s, unicode.IsSpace)], on the reversed string. *)
Fixpoint trimReversed (r : string) : string :=
  match r with
  | EmptyString => r
  | String _ r1 =>
      match lastSpace r with
      | Some 1%nat => trimReversed r1
      | Some 2%nat => trimReversed (behead r1)
      | Some _ => trimReversed (behead (behead r1))
      | None => r
      end
  end.

Definition trimRight (s : string) : string := reverse (trimReversed (reverse s)).

(** Go: [strings.TrimSpace]. *)
Definition TrimSpace (s : string) : string := trimRight (trimLeft s).

(** The values of Go's [int32]. *)
Definition isInt32 (z : Z) : bool :=
  ((-2147483648 <=? z) && (z <=? 2147483647))%bool.

(** Go: [copyValue] into an [int32]:
    [strconv.ParseInt(strings.TrimSpace(src), 10, 32)]; an empty source
    sets zero. *)
Definition parseInt32 (src : string) : result Error Z :=
  match src with
  | EmptyString => Ok 0
  | _ =>
      let t := TrimSpace src in
      let parsed :=
        match t with
        | String "+" d => option_map Decimal.Pos (NilZero.uint_of_string d)
        | _ => NilZero.int_of_string t
        end in
      match parsed with
      | Some d =>
          let z := Z.of_int d in
          if isInt32 z then Ok z else Err (NumError t true)
      | None => Err (NumError t false)
      end
  end.

(** The bytes of a printed integer. *)
Definition numeric (c : ascii) : bool := (isDigit c || Ascii.eqb c "-")%bool.

(** Go: the check of an element against the [XMLName] tag of a struct. *)
Definition expectName (space local : string) (n : Name) : option Error :=
  if negb (String.eqb (Local n) local)
  then Some (UnmarshalError ("expected element type <" ++ local
                             ++ "> but have <" ++ Local n ++ ">"))
  else if (negb (String.eqb space "") && negb (String.eqb (Space n) space))%bool
  then Some (UnmarshalError
               ("expected element <" ++ local ++ "> in name space " ++ space
                ++ " but have "
                ++ (if String.eqb (Space n) "" then "no name space" else Space n)))
  else None.

(** Go: [unmarshal] assigns the attributes of the start tag in their
    order, and stops at the first that its field refuses. *)
Fixpoint assignAttrs {T : Type} (assign : Attr -> T -> result Error T)
    (attrs : list Attr) (v : T) : result Error T :=
  match attrs with
  | [] => Ok v
  | a :: attrs' =>
      match assign a v with
      | Ok v' => assignAttrs assign attrs' v'
      | Err e => Err e
      end
  end.

(** Go: an attribute is meant for the field [name,attr], whose tag names
    no name space, when its local name is [name], whatever its space. *)
Definition isAttr (name : string) (a : Attr) : bool :=
  String.eqb (Local (AName a)) name.

(** ** [envelopeExampleField] and [envelopeContentExample] *)

Module envelopeExampleField.
Record t := mk { XMLName : Name; Attr1 : string; Attr2 : Z; Value : string }.

Definition assign (a : Attr) (v : t) : result Error t :=
  let v1 := if isAttr "attr1" a
            then mk (XMLName v) (AValue a) (Attr2 v) (Value v) else v in
  if isAttr "attr2" a
  then match parseInt32 (AValue a) with
       | Ok z => Ok (mk (XMLName v1) (Attr1 v1) z (Value v1))
       | Err e => Err e
       end
  else Ok v1.

(** Go: [unmarshal] into the struct: the name, the attributes, then the
    character data directly inside the element, which is assigned even
    when there is none. *)
Definition unmarshal (nd : Node) (v : t) : result Error t :=
  match nd with
  | Elem n attrs kids _ _ =>
      match expectName "" "ContentField" n with
      | Some e => Err e
      | None =>
          match assignAttrs assign attrs (mk n (Attr1 v) (Attr2 v) (Value v)) with
          | Err e => Err e
          | Ok v1 => Ok (mk (XMLName v1) (Attr1 v1) (Attr2 v1) (directText kids))
          end
      end
  | _ => Ok v
  end.

(** Go prints no character data for an empty [,chardata] field. *)
Definition marshal (prefix uri : string) (v : t) : XNode :=
  XElem prefix uri "ContentField"
        [("attr1", Attr1 v); ("attr2", showZ (Attr2 v))]
        (if String.eqb (Value v) "" then [] else [XText (Value v)]).
End envelopeExampleField.

Module envelopeContentExample.
Record t := mk { XMLName : Name; Attr1 : Z; Field1 : envelopeExampleField.t }.

Definition zero : t :=
  mk noName 0 (envelopeExampleField.mk noName "" 0 "").

Fixpoint fields (kids : list Node) (f : envelopeExampleField.t)
    : result Error envelopeExampleField.t :=
  match kids with
  | [] => Ok f
  | k :: kids' =>
      if isElemNamed "ContentField" k
      then match envelopeExampleField.unmarshal k f with
           | Ok f' => fields kids' f'
           | Err e => Err e
           end
      else fields kids' f
  end.

Definition assign (a : Attr) (v : t) : result Error t :=
  if isAttr "attr1" a
  then match parseInt32 (AValue a) with
       | Ok z => Ok (mk (XMLName v) z (Field1 v))
       | Err e => Err e
       end
  else Ok v.

Definition unmarshal (nd : Node) (v : t) : result Error t :=
  match nd with
  | Elem n attrs kids _ _ =>
      match expectName "ns" "ContentExample" n with
      | Some e => Err e
      | None =>
          match assignAttrs assign attrs (mk n (Attr1 v) (Field1 v)) with
          | Err e => Err e
          | Ok v1 =>
              match fields kids (Field1 v1) with
              | Err e => Err e
              | Ok f => Ok (mk (XMLName v1) (Attr1 v1) f)
              end
          end
      end
  | _ => Ok v
  end.

(** The value with the raw tag names that a decode leaves in it. *)
Definition canonical (v : t) : t :=
  mk (mkName "ns" "ContentExample") (Attr1 v)
     (envelopeExampleField.mk (mkName "ns" "ContentField")
        (envelopeExampleField.Attr1 (Field1 v))
        (envelopeExampleField.Attr2 (Field1 v))
        (envelopeExampleField.Value (Field1 v))).

(** The element as the tests expect it printed: the field inherits the
    prefix of the struct. *)
Definition marshal (v : t) : XNode :=
  XElem "ns" "ns" "ContentExample" [("attr1", showZ (Attr1 v))]
        [envelopeExampleField.marshal "ns" "ns" (Field1 v)].
End envelopeContentExample.

#[global] Instance contentExample : Content envelopeContentExample.t :=
  {| unmarshalXML := envelopeContentExample.unmarshal;
     marshalXML := envelopeContentExample.marshal |}.

(** ** [faultDetailExample] *)

(** Modelled from the spec: [faultDetailExample], which the test table
    names and whose declaration is not in the package, after the scenario
    of spec 8: a detail type bound to [DetailExample] that exposes the
    attribute [attr1] as a string. *)
Module faultDetailExample.
Record t := mk { XMLName : Name; Attr1 : string }.

Definition zero : t := mk noName "".

Definition assign (a : Attr) (v : t) : result Error t :=
  Ok (if isAttr "attr1" a then mk (XMLName v) (AValue a) else v).

Definition unmarshal (nd : Node) (v : t) : result Error t :=
  match nd with
  | Elem n attrs _ _ _ =>
      match expectName "" "DetailExample" n with
      | Some e => Err e
      | None => assignAttrs assign attrs (mk n (Attr1 v))
      end
  | _ => Ok v
  end.

(** The [FaultError] contract: decode the captured detail into the target
    and embed it with the code, the string and the actor of the fault. *)
Definition toError (target : t) (f : Fault) : Error :=
  match DetailInternal f with
  | Some fragment =>
      match decodeDetail unmarshal fragment target with
      | Ok d => ProtocolFault t (Code f) (FaultString f) (Actor f) d
      | Err e => e
      end
  | None => ProtocolFault t (Code f) (FaultString f) (Actor f) target
  end.
End faultDetailExample.

#[global] Instance faultDetailError : FaultError faultDetailExample.t :=
  {| errorFromFault := faultDetailExample.toError |}.

(** ** [headerExample] *)

Module headerExample.
Record t := mk { XMLName : Name; Attr1 : Z; Value : string }.

Definition marshal (v : t) : XNode :=
  XElem "ns" "ns" "HeaderExample" [("attr1", showZ (Attr1 v))]
        (if String.eqb (Value v) "" then [] else [XText (Value v)]).
End headerExample.

(** ** The tables [envelopeEncodeTests] and [envelopeDecodeTests] *)

Definition encodeContent0 : envelopeContentExample.t :=
  envelopeContentExample.mk noName 10
    (envelopeExampleField.mk (mkName "" "ContentField") "test attr" 11
                             "This is a test string").

Definition encodeContent1 : envelopeContentExample.t :=
  envelopeContentExample.mk (mkName "" "ContentExample") 10
    (envelopeExampleField.mk (mkName "" "ContentField") "test attr" 11
                             "This is a test string").

Definition encodeHeaders1 : list headerExample.t :=
  [headerExample.mk noName 15 "test header value"].

Definition encodeRes0 : string := q "<soapenv:Envelope xmlns:soapenv='http://schemas.xmlsoap.org/soap/envelope/'><soapenv:Body><ns:ContentExample xmlns:ns='ns' attr1='10'><ns:ContentField attr1='test attr' attr2='11'>This is a test string</ns:ContentField></ns:ContentExample></soapenv:Body></soapenv:Envelope>".

Definition encodeRes1 : string := q "<soapenv:Envelope xmlns:soapenv='http://schemas.xmlsoap.org/soap/envelope/'><soapenv:Header><ns:HeaderExample xmlns:ns='ns' attr1='15'>test header value</ns:HeaderExample></soapenv:Header><soapenv:Body><ns:ContentExample xmlns:ns='ns' attr1='10'><ns:ContentField attr1='test attr' attr2='11'>This is a test string</ns:ContentField></ns:ContentExample></soapenv:Body></soapenv:Envelope>".

Definition decodeIn0 : string := q "<?xml version='1.0'?>
			<soap:Envelope xmlns:soap='http://schemas.xmlsoap.org/soap/envelope/'>
				<soap:Body>
					<ContentExample xmlns='ns' attr1='10'>
						<ContentField attr1='test attr' attr2='11'>This is a test content string</ContentField>
					</ContentExample>
				</soap:Body>
			</soap:Envelope>".

Definition decodeIn1 : string := q "<?xml version='1.0'?>
			<soap:Envelope xmlns:soap='http://schemas.xmlsoap.org/soap/envelope/'>
				<soap:Body>
					<soap:Fault>
						<faultcode>FaultCodeValue</faultcode>
						<faultstring>FaultStringValue</faultstring>
						<faultactor>FaultActorValue</faultactor>
						<detail>
							<DetailExample attr1='10'>
								<DetailField attr1='test' attr2='11'>This is a test string</DetailField>
							</DetailExample>
						</detail>
					</soap:Fault>
				</soap:Body>
			</soap:Envelope>".

Definition decodeIn2 : string := q "<?xml version='1.0'?>
			<soap:Envelope xmlns:soap='http://schemas.xmlsoap.org/soap/envelope/'>
				<soap:Body>
					<soap:Fault>
						<faultcode>FaultCodeValue</faultcode>
						<faultstring>FaultStringValue</faultstring>
						<faultactor>FaultActorValue</faultactor>
					</soap:Fault>
				</soap:Body>
			</soap:Envelope>".

Definition decodeIn3 : string := q "<?xml version='1.0'?>
			<soap:Envelope xmlns:soap='http://schemas.xmlsoap.org/soap/envelope/'>
				<soap:Body>
					<ContentExample xmlns='ns' attr1='10'>
						<ContentField attr1='test attr' attr2='11'>This is a test content string</ContentField>
				</soap:Body>
					</ContentExample>
			</soap:Envelope>".

Definition decodeIn4 : string := q "<?xml version='1.0'?>
			<soap:Envelope xmlns:soap='http://schemas.xmlsoap.org/soap/envelope/'>
				<soap:Body>
					<ContentExample xmlns='ns' attr1='10'>
						<ContentField attr1='test attr', attr2='11'>This is a test content string</ContentField>
					</ContentExample>
				</soap:Body>
			</soap:Envelope>".

Definition decodeIn5 : string := q "<?xml version='1.0'?>
			<soap:Envelope xmlns:soap='http://schemas.xmlsoap.org/soap/envelope/'>
				<soap:Body>
					<soap:Fault>
						<faultcode>FaultCodeValue</faultcode
						<faultstring>FaultStringValue</faultstring>
						<faultactor>FaultActorValue</faultactor>
						<detail>
							<DetailExample attr1='10'>
								<DetailField attr1='test' attr2='11'>This is a test string</DetailField>
							</DetailExample>
						</detail>
					</soap:Fault>
				</soap:Body>
			</soap:Envelope>".

Definition decodeIn6 : string := q "<?xml version='1.0'?>
			<soap:Envelope xmlns:soap='http://schemas.xmlsoap.org/soap/envelope/'>
				<soap:Body>
					<ContentExample xmlns='ns' attr1='10'>
						<ContentField attr1='test attr', attr2='11'>This is a test content string</ContentField>
					</ContentExample>
				</soap:Body>
			</soap:Envelope>".





(** The values the decode table expects of its first three rows, as the
    decoder leaves them: [XMLName] fields hold the names read. *)
Definition decodeOut0 : Envelope envelopeContentExample.t :=
  mkEnvelope envelopeName []
    (mkBody bodyName None
       (Some (envelopeContentExample.mk (mkName "ns" "ContentExample") 10
                (envelopeExampleField.mk (mkName "ns" "ContentField")
                   "test attr" 11 "This is a test content string")))).

Definition decodeDetail1 : string := q "
							<DetailExample attr1='10'>
								<DetailField attr1='test' attr2='11'>This is a test string</DetailField>
							</DetailExample>
						".

Definition decodeOut1 : Envelope envelopeContentExample.t :=
  mkEnvelope envelopeName []
    (mkBody bodyName
       (Some (mkFault faultName "FaultCodeValue" "FaultStringValue"
                "FaultActorValue" (Some decodeDetail1)))
       None).

Definition decodeOut2 : Envelope envelopeContentExample.t :=
  mkEnvelope envelopeName []
    (mkBody bodyName
       (Some (mkFault faultName "FaultCodeValue" "FaultStringValue"
                "FaultActorValue" None))
       None).

End Fixtures.

(** * The client ([src/client.go]) *)
Module Client.
Import Xml Envelope.

(** Go: an [io.ReadCloser], the bytes it delivers and the error, if any,
    that ends the reading in place of the end of the input. *)
Record Reader := mkReader { data : string; failure : option Error }.

(** Go: [io.ReadAll]. *)
Definition ReadAll (r : Reader) : string * option Error := (data r, failure r).

(** Go: [io.NopCloser(bytes.NewReader(b))]. *)
Definition bytesReader (b : string) : Reader := mkReader b None.

(** Go: the fields of [http.Response] that [Do] reads. *)
Record Response := mkResponse { StatusCode : Z; RespBody : Reader }.

(** What [Do] does to the outside, in order. *)
Inductive Event :=
| EvSend                      (* c.http.Do *)
| EvReadAll                   (* io.ReadAll(res.Body) *)
| EvDecode (body : Reader)    (* dec.Decode(respEnvelope), reading [body] *)
| EvClose.                    (* the deferred res.Body.Close() *)

Definition isDecode (ev : Event) : bool :=
  match ev with EvDecode _ => true | _ => false end.

Definition isClose (ev : Event) : bool :=
  match ev with EvClose => true | _ => false end.

Definition isReadAll (ev : Event) : bool :=
  match ev with EvReadAll => true | _ => false end.

(** What the caller's [response] points to after a call: a value (or nil),
    or what a decode that failed has left there.  Go's decoder writes
    through the pointer as it reads, so that state depends on the bytes
    read before the failure; it is not determined here. *)
Inductive Held (R : Type) : Type :=
| Holds (v : option R)
| Unsettled.
Arguments Holds {R}.
Arguments Unsettled {R}.
Coercion Holds : option >-> Held.

Section Do.
(** The caller's types: request, response and fault detail. *)
Context {Q R D : Type} `{FaultError D}.
(** The collaborators whose code is not in the package: the transport
    request, the context, the header builders. *)
Context {HTTPRequest Context HeaderBuilder : Type}.

(** Go: [Request], as [NewRequest] fills it. *)
Record Request := mkRequest {
  reqAction : string;
  reqURL : string;
  reqBody : Q;
  reqResp : option R;
  reqFault : option D;
  reqHeaders : list HeaderBuilder
}.

Definition NewRequest (action url : string) (body : Q) (resp : option R)
    (fault : option D) : Request :=
  mkRequest action url body resp fault [].

Definition AddHeader (r : Request) (hs : list HeaderBuilder) : Request :=
  mkRequest (reqAction r) (reqURL r) (reqBody r) (reqResp r) (reqFault r)
            (reqHeaders r ++ hs)%list.

(** Go: [Request.httpRequest], whose code is not in the package. *)
Variable httpRequest : Request -> result Error HTTPRequest.

(** Go: [SOAPDecoder], here [xml.NewDecoder(body).Decode(respEnvelope)]. *)
Variable decode : Reader -> Envelope R -> result Error (Envelope R).

(** Go: [Client]. *)
Record Client := mkClient {
  url : string;
  http : HTTPRequest -> Context -> result Error Response;
  headers : list HeaderBuilder
}.

Definition NewClient (u : string)
    (defaultClient : HTTPRequest -> Context -> result Error Response)
    (soapHeaders : list HeaderBuilder) : Client :=
  mkClient u defaultClient soapHeaders.

Definition SettHTTPClient (c : Client)
    (h : HTTPRequest -> Context -> result Error Response) : Client :=
  mkClient (url c) h (headers c).

(** What a call leaves behind: the returned error ([None] for nil), what
    the caller's [response] points to, and the events in order. *)
Record Outcome := mkOutcome {
  err : option Error;
  response : Held R;
  trace : list Event
}.

(** Go: [Client.Do] ([src/client.go], lines 52 to 110). *)
Definition Do (c : Client) (ctx : Context) (action : string) (request : Q)
    (resp : option R) (faultDetail : D) : Outcome :=
  let req := AddHeader (NewRequest action (url c) request resp None) (headers c) in
  match httpRequest req with
  | Err e => mkOutcome (Some e) resp []
  | Ok httpReq =>
      match http c httpReq ctx with
      | Err e => mkOutcome (Some e) resp [EvSend]
      | Ok res =>
          (* respEnvelope.Body = SOAPBodyResponse{Content: response, ...} *)
          let respEnvelope := NewEnvelope resp in
          (* we need to store the body in case of an error *)
          let fault500 := StatusCode res =? 500 in
          let '(cachedErrorBody, readErr) :=
            if fault500 then ReadAll (RespBody res) else (EmptyString, None) in
          match readErr with
          | Some e => mkOutcome (Some e) resp [EvSend; EvReadAll; EvClose]
          | None =>
              let body := if fault500 then bytesReader cachedErrorBody
                          else RespBody res in
              let before := if fault500 then [EvSend; EvReadAll] else [EvSend] in
              match decode body respEnvelope with
              | Err e =>
                  (* the response doesn't contain a Fault/SOAPBody *)
                  mkOutcome
                    (Some (if fault500
                           then HTTPError (StatusCode res) cachedErrorBody
                           else e))
                    Unsettled (before ++ [EvDecode body; EvClose])%list
              | Ok env' =>
                  mkOutcome
                    (ErrorFromFault (EBody env') faultDetail)
                    (match BContent (EBody env') with
                     | Some r => Some r
                     | None => resp
                     end)
                    (before ++ [EvDecode body; EvClose])%list
              end
          end
      end
  end.

End Do.

(** The decoder [Do] installs, [xml.NewDecoder(body)]: it decodes what the
    reader delivers, and a read error takes the place of the end of the
    input; the text read until then is checked as at the end of the input. *)
Definition xmlDecode {R} `{Content R} (body : Reader) (e : Envelope R)
    : result Error (Envelope R) :=
  match failure body with
  | None => Decode (data body) e
  | Some ioErr =>
      let L := run (data body) initial in
      let d := drun (out L) (mkDecoder SeekRoot e) in
      match phase d, mode L with
      | Done r, _ => r
      | _, MFail se => Err (Syntax se)
      | _, MStop de => Err (Declaration de)
      | _, MText txt _ _ | _, MAttrVal _ _ _ _ txt _ _ =>
          match checkText txt with
          | Some msg => Err (Syntax (mkSyntaxError msg (line L)))
          | None => Err ioErr
          end
      | _, _ => Err ioErr
      end
  end.

End Client.

(** * Response documents

    The vocabulary in which the properties of the decoder are stated: a
    well-formed response document is the token stream of an Envelope
    element that has one Body. *)
Module Documents.
Import Xml Envelope.

Definition isStart (t : PTok) : bool :=
  match tok t with StartElement _ _ => true | _ => false end.

(** The pieces of a tree are the tokens the tokenizer delivers: what is
    kept as [Misc] is a comment, a processing instruction or a directive. *)
Fixpoint wfNode (nd : Node) : bool :=
  match nd with
  | Elem _ _ kids _ _ => forallb wfNode kids
  | Text _ _ => true
  | Misc (Comment _) _ | Misc (ProcInst _ _) _ | Misc (Directive _) _ => true
  | Misc _ _ => false
  end.

(** Character data, comments and the like: what may precede an element. *)
Definition isFiller (nd : Node) : bool :=
  match nd with
  | Elem _ _ _ _ _ => false
  | _ => wfNode nd
  end.

Definition isElement (q : Name) (nd : Node) : bool :=
  match nd with
  | Elem n _ _ _ _ => name_eqb n q
  | _ => false
  end.

Definition notBody (nd : Node) : bool := wfNode nd && negb (isElement bodyName nd).

(** Everything of a response document but the first child of its Body. *)
Record Shell := mkShell {
  prolog : list PTok;        (* before the root element: no start tag *)
  envAttrs : list Attr;
  envOpen : string;
  envClose : string;
  beforeBody : list Node;    (* the Header and whatever else precedes Body *)
  bodyAttrs : list Attr;
  bodyOpen : string;
  bodyClose : string;
  lead : list Node;          (* in Body, before its first child *)
  more : list Node;          (* in Body, after its first child *)
  afterBody : list Node;
  trailer : list PTok        (* after the root element *)
}.

(** The part of a shell that precedes the first child of Body. *)
Definition wfLead (s : Shell) : bool :=
  forallb (fun t => negb (isStart t)) (prolog s)
  && forallb notBody (beforeBody s)
  && forallb isFiller (lead s).

Definition wfShell (s : Shell) : bool :=
  wfLead s
  && forallb wfNode (more s)
  && forallb notBody (afterBody s).

Definition bodyOf (s : Shell) (child : Node) : Node :=
  Elem bodyName (bodyAttrs s) (lead s ++ child :: more s)%list
       (bodyOpen s) (bodyClose s).

Definition envelopeOf (s : Shell) (child : Node) : Node :=
  Elem envelopeName (envAttrs s)
       (beforeBody s ++ bodyOf s child :: afterBody s)%list
       (envOpen s) (envClose s).

Definition document (s : Shell) (child : Node) : list PTok :=
  (prolog s ++ flatten (envelopeOf s child) ++ trailer s)%list.

(** The tokens of a response document up to the first child of its Body,
    that child excluded. *)
Definition upToFirstChild (s : Shell) : list PTok :=
  (prolog s
   ++ mkPTok (StartElement envelopeName (envAttrs s)) (envOpen s)
   :: flat_map flatten (beforeBody s)
   ++ mkPTok (StartElement bodyName (bodyAttrs s)) (bodyOpen s)
   :: flat_map flatten (lead s))%list.

(** [l] is [before ++ Elem _:name .. kids .. :: after] and no element of
    [after] has the local name [name]: [kids] are the children of the last
    child of that name. *)
Definition lastChild (name : string) (l : list Node) (kids : list Node) : Prop :=
  exists before sp attrs otag ctag after,
    l = (before ++ Elem (mkName sp name) attrs kids otag ctag :: after)%list
    /\ forallb (fun k => negb (isElemNamed name k)) after = true.


(** The stream breaks while the root element, an Envelope, is open. *)
Fixpoint unclosed (depth : nat) (ts : list PTok) : bool :=
  match ts with
  | [] => true
  | t :: ts' =>
      match tok t with
      | StartElement _ _ => unclosed (S depth) ts'
      | EndElement _ =>
          match depth with
          | O => false
          | S depth' => unclosed depth' ts'
          end
      | _ => unclosed depth ts'
      end
  end.



(** ** The first child of Body, found in a stream of tokens *)


(** The Body children of the root element, each given by the tokens that
    follow its start tag; [ts] is read with [depth] elements open below
    the root. *)
Fixpoint bodiesIn (depth : nat) (ts : list PTok) : list (list PTok) :=
  match ts with
  | [] => []
  | t :: ts' =>
      match tok t with
      | StartElement n _ =>
          ((if Nat.eqb depth 0 && name_eqb n bodyName then [ts'] else [])
           ++ bodiesIn (S depth) ts')%list
      | EndElement _ =>
          match depth with
          | O => []
          | S depth' => bodiesIn depth' ts'
          end
      | _ => bodiesIn depth ts'
      end
  end.





(** What the target [r] makes of an element while it is read from [ts],
    the tokens that follow the start tag of [cur]: it refuses the element
    at a tag ([Err]), or decodes it once it is closed ([Ok]); either way
    with the tokens that are left.  [None] when [ts] ends before. *)
Fixpoint readChild {R} `{Content R} (r : R) (stack : list Frame) (cur : Frame)
    (ts : list PTok) : option (result Error R * list PTok) :=
  match ts with
  | [] => None
  | t :: ts' =>
      match tok t with
      | StartElement n attrs =>
          let f := mkFrame n attrs (raw t) [] in
          match unmarshalXML (soFar (cur :: stack) f) r with
          | Err y => Some (Err y, ts')
          | Ok _ => readChild r (cur :: stack) f ts'
          end
      | EndElement _ =>
          let nd := closeFrame cur (raw t) in
          match stack with
          | [] => Some (unmarshalXML nd r, ts')
          | parent :: stack' =>
              match unmarshalXML (soFar stack' (addKid parent nd)) r with
              | Err y => Some (Err y, ts')
              | Ok _ => readChild r stack' (addKid parent nd) ts'
              end
          end
      | CharData c => readChild r stack (addKid cur (Text c (raw t))) ts'
      | other => readChild r stack (addKid cur (Misc other (raw t))) ts'
      end
  end.

(** The same from the start tag [t] of the element. *)
Definition readElement {R} `{Content R} (r : R) (t : PTok) (rest : list PTok)
    : option (result Error R * list PTok) :=
  match tok t with
  | StartElement n attrs =>
      let f := mkFrame n attrs (raw t) [] in
      match unmarshalXML (soFar [] f) r with
      | Err y => Some (Err y, rest)
      | Ok _ => readChild r [] f rest
      end
  | _ => None
  end.

(** ** Printed elements

    The elements that survive printing and reading back: names that are
    XML names, text that is valid UTF-8 and holds characters of XML only,
    children in which no two pieces of text are adjacent. *)

Fixpoint allChars (p : ascii -> bool) (s : string) : bool :=
  match s with
  | EmptyString => true
  | String c s' => p c && allChars p s'
  end.

(** The text that the tokenizer accepts, which is the text that
    [EscapeText] does not replace. *)
Definition safeText (s : string) : bool :=
  match checkText s with
  | None => true
  | Some _ => false
  end.

(** A name without a colon. *)
Definition plainName (s : string) : bool :=
  match s with
  | EmptyString => false
  | String c _ => isNameStart c && allChars isNameByte s && Nat.eqb (countColon s) 0
  end.

Definition okPrefix (p : string) : bool :=
  (String.eqb p "" || plainName p)
  && negb (String.eqb p "xmlns") && negb (String.eqb p "xml").

Definition okAttr (a : string * string) : bool :=
  plainName (fst a) && negb (String.eqb (fst a) "xmlns") && safeText (snd a).

Definition isXText (x : XNode) : bool :=
  match x with XText _ => true | _ => false end.

Fixpoint noAdjacentText (kids : list XNode) : bool :=
  match kids with
  | XText _ :: ((XText _ :: _) as rest) => false
  | _ :: rest => noAdjacentText rest
  | [] => true
  end.

Fixpoint wfX (x : XNode) : bool :=
  match x with
  | XText s => negb (String.eqb s "") && safeText s
  | XElem p u l attrs kids =>
      okPrefix p && plainName l && negb (String.eqb l "xmlns") && safeText u
      && forallb okAttr attrs && forallb wfX kids && noAdjacentText kids
  end.

Definition declAttr (prefix uri : string) : Attr :=
  mkAttr (if String.eqb prefix "" then mkName "" "xmlns" else mkName "xmlns" prefix)
         uri.

Definition plainAttr (a : string * string) : Attr :=
  mkAttr (mkName "" (fst a)) (snd a).

(** The element that the decoder reads when [x] is printed in [scope]. *)
Fixpoint asRead (scope : list (string * string)) (x : XNode) : Node :=
  match x with
  | XText s => Text s (escapeText s)
  | XElem p u l attrs kids =>
      let known := bound p u scope in
      let scope' := if known then scope else (p, u) :: scope in
      let decl := if known then [] else [(declName p, u)] in
      Elem (mkName u l)
           ((if known then [] else [declAttr p u]) ++ map plainAttr attrs)%list
           (map (asRead scope') kids)
           ("<" ++ qname p l ++ concatAll (map renderAttr (decl ++ attrs)%list) ++ ">")
           ("</" ++ qname p l ++ ">")
  end.

(** The tokens delivered once the text in progress, if any, is delivered. *)
Definition pend (out : list PTok) (txt raw : string) : list PTok :=
  if String.eqb raw "" then out else (out ++ [mkPTok (CharData txt) raw])%list.

(** Valid text byte by byte: no byte of it is a control character that
    XML forbids, and [EscapeText] copies its bytes outside ASCII. *)
Definition okByte (c : ascii) : bool :=
  let n := nat_of_ascii c in
  (Nat.leb 32 n || Nat.eqb n 9 || Nat.eqb n 10 || Nat.eqb n 13)%bool.

Definition highByte (c : ascii) : bool := 128 <=? byteOf c.

Definition escapeByte (c : ascii) : string :=
  if highByte c then String c "" else escapeChar c.

Fixpoint escapeBytes (s : string) : string :=
  match s with
  | EmptyString => ""
  | String c s' => escapeByte c ++ escapeBytes s'
  end.

(** The bytes that the printer writes as a character reference. *)
Definition isReference (c : ascii) : bool :=
  match escapeChar c with
  | String "&" _ => true
  | _ => false
  end.

(** The two bytes that Go's [text] has read last once it has read the
    printed form of [s]: a reference makes it forget them. *)
Fixpoint lastRead (s : string) (b : ascii * ascii) : ascii * ascii :=
  match s with
  | EmptyString => b
  | String c s' => lastRead s' (if isReference c then (nul, nul) else (snd b, c))
  end.

(** The tokenizer between two tokens, reading character data. *)
Definition resting (txt raw : string) (ln : Z) (stack : list (Name * NsEnv))
    (env : NsEnv) (out : list PTok) : Lexer :=
  let b := lastRead txt (nul, nul) in
  mkLexer (MText txt (fst b) (snd b)) ln raw stack env out.

(** Where the tokenizer rests after the children of an element. *)
Fixpoint afterKids (scope : list (string * string)) (kids : list XNode)
    (st : list PTok * string * string) : list PTok * string * string :=
  match kids with
  | [] => st
  | XText s :: kids' => afterKids scope kids' (fst (fst st), s, escapeText s)
  | x :: kids' =>
      afterKids scope kids'
        ((pend (fst (fst st)) (snd (fst st)) (snd st)
          ++ flatten (asRead scope x))%list, "", "")
  end.

(** The lexeme in progress grows by one byte at a time. *)
Fixpoint snocs (raw s : string) : string :=
  match s with
  | EmptyString => raw
  | String c s' => snocs (snoc raw c) s'
  end.

Definition nameBytes (name : string) : Prop :=
  exists c w, name = String c w /\ isNameByte c = true
              /\ allChars isNameByte w = true.

(** What the tokenizer makes of a printed attribute. *)
Definition parsedAttr (ra : string * string) : Attr :=
  mkAttr (match nsname (fst ra) with
          | Some a => a
          | None => mkName "" (fst ra)
          end) (snd ra).

Definition printable (ra : string * string) : Prop :=
  nameBytes (fst ra) /\ nsname (fst ra) <> None /\ safeText (snd ra) = true.

(** What a printed node leaves the tokenizer with. *)
Definition afterNode (scope : list (string * string)) (x : XNode)
    (txt raw : string) (ln : Z) (stack : list (Name * NsEnv)) (out : list PTok)
    : Lexer :=
  match x with
  | XText s => resting s (escapeText s) ln stack scope out
  | _ => resting "" "" ln stack scope (pend out txt raw ++ flatten (asRead scope x))
  end.

Definition readsBack (x : XNode) : Prop :=
  forall scope txt raw ln stack out,
    (isXText x = true -> txt = "" /\ raw = "") ->
    safeText txt = true ->
    run (render scope x) (resting txt raw ln stack scope out)
    = afterNode scope x txt raw ln stack out.

(** The shell that [Encode] prints around the content. *)
Definition printedShell : Shell :=
  mkShell []
    [declAttr soapPrefix soapEnvNS]
    ("<" ++ qname soapPrefix "Envelope"
     ++ renderAttr (declName soapPrefix, soapEnvNS) ++ ">")
    ("</" ++ qname soapPrefix "Envelope" ++ ">")
    []
    []
    ("<" ++ qname soapPrefix "Body" ++ ">")
    ("</" ++ qname soapPrefix "Body" ++ ">")
    [] [] [] [].

Definition printedScope : list (string * string) := [(soapPrefix, soapEnvNS)].

Definition isXElem (x : XNode) : bool :=
  match x with XElem _ _ _ _ _ => true | _ => false end.

Definition isFaultX (x : XNode) : bool :=
  match x with
  | XElem _ u l _ _ => name_eqb (mkName u l) faultName
  | _ => false
  end.

(** The envelope once the start tags of Envelope and Body have been read. *)
Definition opened {R} (b : option R) : Envelope R :=
  mkEnvelope envelopeName [] (mkBody bodyName None b).


(** The decoder is at work: it has neither delivered an envelope nor
    stopped on an error. *)
Definition reading {R} (p : @Phase R) : bool :=
  match p with
  | Done _ => false
  | _ => true
  end.


(** Induction on elements, through the lists of children. *)
Section NodeInduction.
Variable P : Node -> Prop.
Hypothesis HElem : forall n attrs kids otag ctag,
  Forall P kids -> P (Elem n attrs kids otag ctag).
Hypothesis HText : forall s lx, P (Text s lx).
Hypothesis HMisc : forall t lx, P (Misc t lx).

Fixpoint Node_induction (nd : Node) : P nd :=
  match nd with
  | Elem n attrs kids otag ctag =>
      HElem n attrs kids otag ctag
        ((fix all (l : list Node) : Forall P l :=
            match l with
            | [] => Forall_nil P
            | k :: l' => Forall_cons k (Node_induction k) (all l')
            end) kids)
  | Text s lx => HText s lx
  | Misc t lx => HMisc t lx
  end.
End NodeInduction.

Section XNodeInduction.
Variable P : XNode -> Prop.
Hypothesis HElem : forall p u l attrs kids,
  Forall P kids -> P (XElem p u l attrs kids).
Hypothesis HText : forall s, P (XText s).

Fixpoint XNode_induction (x : XNode) : P x :=
  match x with
  | XElem p u l attrs kids =>
      HElem p u l attrs kids
        ((fix all (ks : list XNode) : Forall P ks :=
            match ks with
            | [] => Forall_nil P
            | k :: ks' => Forall_cons k (XNode_induction k) (all ks')
            end) kids)
  | XText s => HText s
  end.
End XNodeInduction.

End Documents.

(** * A concrete service, for the scenarios of spec 8 *)
Module Scenario.
Import Xml Envelope Fixtures Client.

(** Modelled from the spec: [httpRequest] of the absent request builder
    (spec 4.3): the transport request carries the encoding of the outbound
    payload. *)
Definition encodeRequest {Q R D} `{Content Q}
    (r : @Request Q R D unit) : result Error string :=
  Ok (Encode (NewEnvelope (Some (reqBody r)))).

(** A transport whose server answers every request with one response. *)
Definition serverReplying (status : Z) (body : Reader)
    : @Client string unit unit :=
  mkClient "http://service.example/soap"
           (fun _ _ => Ok (mkResponse status body)) [].

Definition call (c : @Client string unit unit)
    : @Outcome envelopeContentExample.t :=
  Do encodeRequest xmlDecode c tt "urn:Action" encodeContent0
     (Some envelopeContentExample.zero) faultDetailExample.zero.

Definition connectionReset : Error := TransportError "connection reset by peer".

(** A request builder that gives up: a signing header whose key is not a
    valid PEM file. *)
Definition signingFails {Q R D} (r : @Request Q R D unit) : result Error string :=
  Err ErrInvalidPEMFileSpecified.

(** A transport that never gets a response. *)
Definition unreachable : @Client string unit unit :=
  mkClient "http://service.example/soap" (fun _ _ => Err connectionReset) [].

(** ** The documents of the decode table, taken apart

    The shell and the first child of Body of a document that the
    tokenizer reads to its end. *)

Definition nothing : Node := Text "" "".

Definition attrsOf (nd : Node) : list Attr :=
  match nd with Elem _ a _ _ _ => a | _ => [] end.
Definition kidsOf (nd : Node) : list Node :=
  match nd with Elem _ _ k _ _ => k | _ => [] end.
Definition otagOf (nd : Node) : string :=
  match nd with Elem _ _ _ o _ => o | _ => "" end.
Definition ctagOf (nd : Node) : string :=
  match nd with Elem _ _ _ _ c => c | _ => "" end.
Definition spaceOf (nd : Node) : string :=
  match nd with Elem n _ _ _ _ => Space n | _ => "" end.
Definition isElem (nd : Node) : bool :=
  match nd with Elem _ _ _ _ _ => true | _ => false end.

Fixpoint prologOf (ts : list PTok) : list PTok :=
  match ts with
  | [] => []
  | t :: ts' => if Documents.isStart t then [] else t :: prologOf ts'
  end.

Fixpoint takeUntil (p : Node -> bool) (l : list Node) : list Node :=
  match l with
  | [] => []
  | k :: l' => if p k then [] else k :: takeUntil p l'
  end.

Fixpoint dropUntil (p : Node -> bool) (l : list Node) : list Node :=
  match l with
  | [] => []
  | k :: l' => if p k then l else dropUntil p l'
  end.

Definition rootOf (ts : list PTok) : Node :=
  match firstElement AtEOF ts with
  | Ok nd => nd
  | Err _ => nothing
  end.

Definition bodyNodeOf (ts : list PTok) : Node :=
  hd nothing (dropUntil (Documents.isElement bodyName) (kidsOf (rootOf ts))).

Definition shellOf (ts : list PTok) : Documents.Shell :=
  let root := rootOf ts in
  let body := bodyNodeOf ts in
  Documents.mkShell
    (prologOf ts) (attrsOf root) (otagOf root) (ctagOf root)
    (takeUntil (Documents.isElement bodyName) (kidsOf root))
    (attrsOf body) (otagOf body) (ctagOf body)
    (takeUntil isElem (kidsOf body))
    (tl (dropUntil isElem (kidsOf body)))
    (tl (dropUntil (Documents.isElement bodyName) (kidsOf root)))
    (skipn (List.length (prologOf ts) + List.length (flatten root)) ts).

Definition firstChildOf (ts : list PTok) : Node :=
  hd nothing (dropUntil isElem (kidsOf (bodyNodeOf ts))).

(** The child named [l] of an element, what precedes it and what follows. *)
Definition beforeChild (l : string) (nd : Node) : list Node :=
  takeUntil (isElemNamed l) (kidsOf nd).
Definition childNamed (l : string) (nd : Node) : Node :=
  hd nothing (dropUntil (isElemNamed l) (kidsOf nd)).
Definition afterChild (l : string) (nd : Node) : list Node :=
  tl (dropUntil (isElemNamed l) (kidsOf nd)).

(** Rows 2 and 3 of the decode table: a fault with and without detail. *)
Definition faultTokens1 : list PTok := toks (tokenize decodeIn1).
Definition faultTokens2 : list PTok := toks (tokenize decodeIn2).






(** A misconfigured call whose document breaks before the start tag of
    Body is complete. *)
Definition unterminatedBody : string := q "<?xml version='1.0'?>
<soap:Envelope xmlns:soap='http://schemas.xmlsoap.org/soap/envelope/'>
<soap:Body
<ContentExample xmlns='ns' attr1='10'></ContentExample>
</soap:Body>
</soap:Envelope>".

End Scenario.

(** * The wire format of the test types *)
Module WireFormat.
Import Xml Envelope Fixtures Documents.

(** Text of ASCII bytes, where the bytes of the model are Go's runes. *)
Definition asciiChar (c : ascii) : bool := Nat.ltb (nat_of_ascii c) 128.
Definition asciiText (s : string) : bool := allChars asciiChar s.

(** ASCII text that [EscapeText] leaves as it is. *)
Definition plainText (s : string) : bool := (asciiText s && safeText s)%bool.

Definition quoted (s : string) : string := String dquote (s ++ String dquote "").

(** The bytes of the rows of [envelopeEncodeTests], with the values of the
    fields in the places of the rows' values. *)
Definition contentBytes (v : envelopeContentExample.t) : string :=
  let f := envelopeContentExample.Field1 v in
  "<ns:ContentExample xmlns:ns=" ++ quoted "ns"
  ++ " attr1=" ++ quoted (showZ (envelopeContentExample.Attr1 v)) ++ ">"
  ++ "<ns:ContentField attr1=" ++ quoted (escapeText (envelopeExampleField.Attr1 f))
  ++ " attr2=" ++ quoted (showZ (envelopeExampleField.Attr2 f)) ++ ">"
  ++ escapeText (envelopeExampleField.Value f)
  ++ "</ns:ContentField></ns:ContentExample>".

Definition headerBytes (h : headerExample.t) : string :=
  "<ns:HeaderExample xmlns:ns=" ++ quoted "ns"
  ++ " attr1=" ++ quoted (showZ (headerExample.Attr1 h)) ++ ">"
  ++ escapeText (headerExample.Value h)
  ++ "</ns:HeaderExample>".

Definition envelopeBytes (hs : list headerExample.t)
    (v : envelopeContentExample.t) : string :=
  "<soapenv:Envelope xmlns:soapenv=" ++ quoted soapEnvNS ++ ">"
  ++ match hs with
     | [] => ""
     | _ => "<soapenv:Header>" ++ concatAll (map headerBytes hs)
            ++ "</soapenv:Header>"
     end
  ++ "<soapenv:Body>" ++ contentBytes v ++ "</soapenv:Body></soapenv:Envelope>".

(** The fields of a content value are text that the round trip preserves. *)
Definition plainContent (v : envelopeContentExample.t) : bool :=
  let f := envelopeContentExample.Field1 v in
  (isInt32 (envelopeContentExample.Attr1 v)
   && isInt32 (envelopeExampleField.Attr2 f)
   && plainText (envelopeExampleField.Attr1 f)
   && plainText (envelopeExampleField.Value f))%bool.

Definition asciiContent (v : envelopeContentExample.t) : bool :=
  let f := envelopeContentExample.Field1 v in
  (asciiText (envelopeExampleField.Attr1 f)
   && asciiText (envelopeExampleField.Value f))%bool.

Definition asciiHeader (h : headerExample.t) : bool :=
  asciiText (headerExample.Value h).
End WireFormat.

(** * Properties of the tokenizer *)
Module TokenizerFacts.
Import Xml.

Lemma append_nil_r (s : string) : s ++ "" = s.
Proof. induction s as [|c s IH]; simpl; [reflexivity|]. rewrite IH. reflexivity. Qed.

Lemma append_assoc (a b c : string) : (a ++ b) ++ c = a ++ b ++ c.
Proof. induction a as [|x a IH]; simpl; [reflexivity|]. rewrite IH. reflexivity. Qed.

Lemma rawOfToks_app (a b : list PTok) :
  rawOfToks (a ++ b) = rawOfToks a ++ rawOfToks b.
Proof.
  induction a as [|t a IH]; simpl; [reflexivity|].
  rewrite IH, append_assoc. reflexivity.
Qed.

Lemma failed_step (L : Lexer) (c : ascii) : failed L = true -> step L c = L.
Proof. unfold failed, step. destruct (mode L); try discriminate; reflexivity. Qed.

Lemma failed_run (s : string) (L : Lexer) : failed L = true -> run s L = L.
Proof.
  revert L. induction s as [|c s IH]; intros L HL; simpl; [reflexivity|].
  rewrite failed_step by exact HL. apply IH, HL.
Qed.

Ltac lexer_case :=
  match goal with
  | |- context [if Ascii.eqb ?a ?b then _ else _] =>
      let E := fresh "E" in
      destruct (Ascii.eqb a b) eqn:E;
      [apply Ascii.eqb_eq in E; try subst | ]
  | |- context [if String.eqb ?a ?b then _ else _] =>
      let E := fresh "E" in
      destruct (String.eqb a b) eqn:E;
      [apply String.eqb_eq in E; try rewrite E in * | ]
  | |- context [if ?b then _ else _] => destruct b eqn:?
  | |- context [match ?x with _ => _ end] => destruct x eqn:?
  end.

Ltac lexer_close :=
  unfold consumed, advance, deliver, failAt, openElement, closeElement, snoc in *;
  simpl in *;
  try discriminate;
  rewrite ?rawOfToks_app; simpl;
  rewrite ?append_nil_r, ?append_assoc; simpl;
  try reflexivity.

Ltac lexer_steps :=
  unfold tagStep, attrEqStep, endStep, piStep, entityStep, badEntity,
    directiveByte, resume in *.

(** Every byte read goes into exactly one lexeme. *)
Lemma step_consumed (L : Lexer) (c : ascii) :
  failed (step L c) = false ->
  consumed (step L c) = consumed L ++ String c "".
Proof.
  unfold step, failed.
  destruct (mode L) eqn:Hm; intros Hf; lexer_steps;
    repeat (lexer_case; lexer_close); lexer_close.
  all: rewrite Hm in Hf; discriminate.
Qed.

(** The byte at which the tokenizer stops goes into no lexeme. *)
Lemma step_refused (L : Lexer) (c : ascii) :
  failed (step L c) = true ->
  consumed (step L c) = consumed L.
Proof.
  unfold step, failed.
  destruct (mode L) eqn:Hm; intros Hf; lexer_steps;
    repeat (lexer_case; lexer_close); lexer_close.
  all: try (match goal with k : EntCtx |- _ => destruct k end; discriminate).
  destruct s; discriminate.
Qed.

Lemma run_consumed (s : string) (L : Lexer) :
  failed (run s L) = false ->
  consumed (run s L) = consumed L ++ s.
Proof.
  revert L. induction s as [|c s IH]; intros L Hf; simpl in *.
  - rewrite append_nil_r. reflexivity.
  - assert (Hstep : failed (step L c) = false).
    { destruct (failed (step L c)) eqn:E; [|reflexivity].
      rewrite failed_run in Hf by exact E. congruence. }
    rewrite IH by exact Hf. rewrite step_consumed by exact Hstep.
    rewrite append_assoc. reflexivity.
Qed.

(** The lexemes are cut from the beginning of the input. *)
Lemma run_prefix (s : string) (L : Lexer) :
  exists tail, consumed L ++ s = consumed (run s L) ++ tail.
Proof.
  revert L. induction s as [|c s IH]; intros L; simpl.
  - exists "". reflexivity.
  - destruct (failed (step L c)) eqn:E.
    + rewrite failed_run by exact E. rewrite step_refused by exact E.
      exists (String c s). reflexivity.
    + destruct (IH (step L c)) as [tail Ht]. exists tail.
      rewrite <- Ht, step_consumed by exact E.
      rewrite append_assoc. reflexivity.
Qed.

(** The lexemes of the tokens of an input that is read to its end are the
    input, cut into pieces. *)
Lemma tokenize_lexemes (input : string) (ts : list PTok) :
  tokenize input = mkStream ts AtEOF -> rawOfToks ts = input.
Proof.
  unfold tokenize, finish. intros Ht.
  assert (Hf : failed (run input initial) = false).
  { unfold failed. destruct (mode (run input initial)); try reflexivity; discriminate. }
  pose proof (run_consumed input initial Hf) as Hc.
  unfold consumed in Hc. simpl in Hc.
  destruct (mode (run input initial)); try discriminate;
    try (destruct (checkText _); discriminate).
  destruct (checkText txt); [discriminate|].
  destruct (stk (run input initial)); try discriminate.
  inversion Ht as [Hts]. clear Ht.
  destruct (String.eqb (rawbuf (run input initial)) "") eqn:E.
  - apply String.eqb_eq in E. rewrite E, append_nil_r in Hc. exact Hc.
  - rewrite rawOfToks_app. simpl. rewrite append_nil_r. exact Hc.
Qed.

(** The tokens delivered before the tokenizer stops are read from the
    beginning of the input. *)
Lemma tokenize_prefix (input : string) :
  exists tail, input = rawOfToks (toks (tokenize input)) ++ tail.
Proof.
  destruct (run_prefix input initial) as [tail Ht].
  unfold consumed in Ht. simpl in Ht. rewrite append_assoc in Ht.
  unfold tokenize, finish.
  set (L := run input initial) in *. clearbody L.
  assert (Hout : exists tail, input = rawOfToks (out L) ++ tail)
    by (eexists; exact Ht).
  destruct (mode L); simpl toks; try exact Hout.
  - destruct (checkText txt); [exact Hout|]. simpl toks.
    destruct (String.eqb (rawbuf L) "") eqn:E; [exact Hout|].
    exists tail. rewrite rawOfToks_app. simpl.
    rewrite append_nil_r, append_assoc. exact Ht.
  - destruct (checkText v); exact Hout.
Qed.

End TokenizerFacts.

(** * Properties of the decoder *)
Module DecodeFacts.
Import Xml Envelope Documents.

#[local] Arguments drun : simpl never.
#[local] Arguments dstep {R H} !d !t /.

Section Machine.
Context {R : Type} `{Content R}.

Lemma drun_app (a b : list PTok) (d : @Decoder R) :
  drun (a ++ b) d = drun b (drun a d).
Proof. apply fold_left_app. Qed.

Lemma drun_cons (t : PTok) (ts : list PTok) (d : @Decoder R) :
  drun (t :: ts) d = drun ts (dstep d t).
Proof. reflexivity. Qed.

Lemma drun_done (ts : list PTok) (e : Envelope R) r :
  drun ts (mkDecoder (Done r) e) = mkDecoder (Done r) e.
Proof. induction ts as [|t ts IH]; [reflexivity|]. rewrite drun_cons. exact IH. Qed.

Lemma fold_addKid (kids : list Node) (f : Frame) :
  fold_left addKid kids f
  = mkFrame (fname f) (fattrs f) (fotag f) (fkids f ++ kids).
Proof.
  revert f. induction kids as [|k kids IH]; intros f; simpl.
  - rewrite app_nil_r. destruct f; reflexivity.
  - rewrite IH. simpl. rewrite <- app_assoc. reflexivity.
Qed.

Lemma enter_fault (d : @Decoder R) (stack : list Frame) (cur : Frame) :
  enter d true stack cur = mkDecoder (InChild true stack cur) (env d).
Proof. reflexivity. Qed.

(** Reading the children of an element of a fault adds them to its frame. *)
Lemma collect_kids_from (P : Node -> Prop) (e : Envelope R) :
  (forall nd, P nd -> forall stack cur,
      drun (flatten nd) (mkDecoder (InChild true stack cur) e)
      = mkDecoder (InChild true stack (addKid cur nd)) e) ->
  forall kids, Forall P kids -> forall stack cur,
      drun (flat_map flatten kids) (mkDecoder (InChild true stack cur) e)
      = mkDecoder (InChild true stack (fold_left addKid kids cur)) e.
Proof.
  intros Hone kids Hall. induction Hall as [|nd kids Hnd _ IH]; intros stack cur.
  - reflexivity.
  - simpl. rewrite drun_app, (Hone nd Hnd). apply IH.
Qed.

Lemma collect_node (e : Envelope R) (nd : Node) :
  wfNode nd = true ->
  forall stack cur,
    drun (flatten nd) (mkDecoder (InChild true stack cur) e)
    = mkDecoder (InChild true stack (addKid cur nd)) e.
Proof.
  induction nd as [n attrs kids otag ctag IH | s lx | t lx] using Node_induction;
    intros Hwf stack cur.
  - simpl in Hwf. rewrite forallb_forall in Hwf.
    assert (Hkids : Forall (fun nd => wfNode nd = true /\
              forall stack cur,
                drun (flatten nd) (mkDecoder (InChild true stack cur) e)
                = mkDecoder (InChild true stack (addKid cur nd)) e) kids).
    { rewrite Forall_forall in IH |- *. intros x Hx. split; auto. }
    simpl flatten. rewrite drun_cons. simpl.
    rewrite drun_app.
    rewrite (collect_kids_from _ e (fun nd Hnd => proj2 Hnd) kids Hkids).
    rewrite fold_addKid. simpl. reflexivity.
  - reflexivity.
  - destruct t; simpl in Hwf; try discriminate; reflexivity.
Qed.

Lemma collect_kids (e : Envelope R) (kids : list Node) :
  forallb wfNode kids = true ->
  forall stack cur,
    drun (flat_map flatten kids) (mkDecoder (InChild true stack cur) e)
    = mkDecoder (InChild true stack (fold_left addKid kids cur)) e.
Proof.
  intros Hwf. apply (collect_kids_from (fun nd => wfNode nd = true)).
  - intros nd Hnd. apply collect_node; assumption.
  - apply Forall_forall. rewrite forallb_forall in Hwf. exact Hwf.
Qed.

(** An element that is skipped leaves the decoder where it was. *)
Lemma skip_node (e : Envelope R) (nd : Node) :
  wfNode nd = true ->
  forall depth,
    drun (flatten nd) (mkDecoder (SkipChild depth) e) = mkDecoder (SkipChild depth) e
    /\ drun (flatten nd) (mkDecoder (AfterChild depth) e)
       = mkDecoder (AfterChild depth) e.
Proof.
  induction nd as [n attrs kids otag ctag IH | s lx | t lx] using Node_induction;
    intros Hwf depth.
  - simpl in Hwf. rewrite forallb_forall in Hwf.
    assert (Hkids : forall depth,
              drun (flat_map flatten kids) (mkDecoder (SkipChild depth) e)
              = mkDecoder (SkipChild depth) e
              /\ drun (flat_map flatten kids) (mkDecoder (AfterChild depth) e)
                 = mkDecoder (AfterChild depth) e).
    { clear depth. induction kids as [|k kids IHk]; intros depth.
      - split; reflexivity.
      - inversion IH as [|? ? Hk Hrest]; subst.
        assert (Hwk : wfNode k = true) by (apply Hwf; left; reflexivity).
        assert (Hwr : forall x, In x kids -> wfNode x = true)
          by (intros x Hx; apply Hwf; right; exact Hx).
        specialize (IHk Hrest Hwr depth). destruct (Hk Hwk depth) as [Hs Ha].
        simpl. rewrite !drun_app, Hs, Ha. exact IHk. }
    destruct (Hkids (S depth)) as [Hs Ha].
    simpl flatten. rewrite !drun_cons. simpl.
    rewrite !drun_app, Hs, Ha. split; reflexivity.
  - split; reflexivity.
  - destruct t; simpl in Hwf; try discriminate; split; reflexivity.
Qed.

Lemma skip_nodes (e : Envelope R) (l : list Node) :
  forallb wfNode l = true ->
  forall depth,
    drun (flat_map flatten l) (mkDecoder (AfterChild depth) e)
    = mkDecoder (AfterChild depth) e.
Proof.
  induction l as [|k l IH]; intros Hwf depth; [reflexivity|].
  simpl in Hwf. apply andb_prop in Hwf. destruct Hwf as [Hk Hl].
  simpl. rewrite drun_app. rewrite (proj2 (skip_node e k Hk depth)). apply IH, Hl.
Qed.

(** Before the root element, only a start tag matters. *)
Lemma seek_prolog (e : Envelope R) (pre : list PTok) :
  forallb (fun t => negb (isStart t)) pre = true ->
  drun pre (mkDecoder SeekRoot e) = mkDecoder SeekRoot e.
Proof.
  induction pre as [|t pre IH]; intros Hpre; [reflexivity|].
  simpl in Hpre. apply andb_prop in Hpre. destruct Hpre as [Ht Hpre].
  rewrite drun_cons. unfold dstep, isStart in *. simpl.
  destruct (tok t); try discriminate; apply IH, Hpre.
Qed.

(** Among the children of Envelope, whatever is not the Body is passed over. *)
Lemma pass_other (e : Envelope R) (k : Node) :
  notBody k = true ->
  drun (flatten k) (mkDecoder InEnvelope e) = mkDecoder InEnvelope e.
Proof.
  intros Hk. unfold notBody in Hk. apply andb_prop in Hk. destruct Hk as [Hwf Hnb].
  destruct k as [n attrs kids otag ctag | s lx | t lx].
  - simpl in Hnb. simpl flatten. rewrite drun_cons. simpl.
    destruct (name_eqb n bodyName); [discriminate|].
    rewrite drun_app.
    assert (Hkids : drun (flat_map flatten kids) (mkDecoder (SkipChild 0) e)
                    = mkDecoder (SkipChild 0) e).
    { simpl in Hwf. clear -Hwf. induction kids as [|k kids IHk]; [reflexivity|].
      simpl in Hwf. apply andb_prop in Hwf. destruct Hwf as [Hk Hr].
      simpl. rewrite drun_app, (proj1 (skip_node e k Hk 0)). apply IHk, Hr. }
    rewrite Hkids. reflexivity.
  - reflexivity.
  - destruct t; simpl in Hwf; try discriminate; reflexivity.
Qed.

Lemma pass_others (e : Envelope R) (l : list Node) :
  forallb notBody l = true ->
  drun (flat_map flatten l) (mkDecoder InEnvelope e) = mkDecoder InEnvelope e.
Proof.
  induction l as [|k l IH]; intros Hl; [reflexivity|].
  simpl in Hl. apply andb_prop in Hl. destruct Hl as [Hk Hl].
  simpl. rewrite drun_app, pass_other by assumption. apply IH, Hl.
Qed.

(** In Body, what precedes the first child is passed over. *)
Lemma pass_lead (e : Envelope R) (l : list Node) :
  forallb isFiller l = true ->
  drun (flat_map flatten l) (mkDecoder InBody e) = mkDecoder InBody e.
Proof.
  induction l as [|k l IH]; intros Hl; [reflexivity|].
  simpl in Hl. apply andb_prop in Hl. destruct Hl as [Hk Hl].
  simpl. rewrite drun_app.
  destruct k as [n attrs kids otag ctag | s lx | t lx].
  - discriminate.
  - apply IH, Hl.
  - destruct t; simpl in Hk; try discriminate; apply IH, Hl.
Qed.

(** Step 1: the shell is parsed up to the first child of Body. *)
Lemma reach_first_child (s : Shell) (b : option R) :
  wfLead s = true ->
  drun (upToFirstChild s) (mkDecoder SeekRoot (NewEnvelope b))
  = mkDecoder InBody (opened b).
Proof.
  intros Hs. unfold wfLead in Hs.
  repeat (apply andb_prop in Hs; destruct Hs as [Hs ?]).
  unfold upToFirstChild.
  rewrite drun_app, seek_prolog by assumption.
  rewrite drun_cons. simpl.
  rewrite drun_app, pass_others by assumption.
  rewrite drun_cons. simpl.
  apply pass_lead. assumption.
Qed.

Lemma wfShell_lead (s : Shell) : wfShell s = true -> wfLead s = true.
Proof.
  unfold wfShell. intros Hs.
  apply andb_prop in Hs. destruct Hs as [Hs _].
  apply andb_prop in Hs. destruct Hs as [Hs _]. exact Hs.
Qed.

Lemma document_split (s : Shell) (child : Node) :
  document s child
  = (upToFirstChild s ++ flatten child
     ++ flat_map flatten (more s)
     ++ mkPTok (EndElement bodyName) (bodyClose s)
     :: flat_map flatten (afterBody s)
     ++ mkPTok (EndElement envelopeName) (envClose s) :: trailer s)%list.
Proof.
  unfold document, upToFirstChild, envelopeOf, bodyOf. simpl.
  rewrite !flat_map_app. simpl. rewrite !flat_map_app. simpl.
  repeat (rewrite <- !app_assoc; simpl). reflexivity.
Qed.

(** After the first child: the rest of Body, the rest of Envelope, and
    whatever follows the root element. *)
Lemma after_first_child (s : Shell) (e : Envelope R) :
  wfShell s = true ->
  drun (flat_map flatten (more s)
        ++ mkPTok (EndElement bodyName) (bodyClose s)
        :: flat_map flatten (afterBody s)
        ++ mkPTok (EndElement envelopeName) (envClose s) :: trailer s)
       (mkDecoder (AfterChild 0) e)
  = mkDecoder (Done (Ok e)) e.
Proof.
  intros Hs. unfold wfShell in Hs.
  apply andb_prop in Hs. destruct Hs as [Hs Hafter].
  apply andb_prop in Hs. destruct Hs as [_ Hmore].
  rewrite drun_app, skip_nodes by assumption.
  rewrite drun_cons. simpl.
  rewrite drun_app, pass_others by assumption.
  rewrite drun_cons. simpl.
  apply drun_done.
Qed.

(** A Fault as the first child of Body, from the decoder's place before it
    to its end tag. *)
Lemma first_child (e : Envelope R) attrs kids otag ctag :
  forallb wfNode kids = true ->
  drun (flatten (Elem faultName attrs kids otag ctag)) (mkDecoder InBody e)
  = childDone (mkDecoder InBody e) true (Elem faultName attrs kids otag ctag).
Proof.
  intros Hk. simpl flatten. rewrite drun_cons. simpl.
  rewrite drun_app, collect_kids by assumption.
  rewrite fold_addKid. reflexivity.
Qed.

(** The target reads a longer stream as it reads a shorter one that holds
    the element. *)
Lemma readChild_app (a b : list PTok) :
  forall (r : R) stack cur res rest,
    readChild r stack cur a = Some (res, rest) ->
    readChild r stack cur (a ++ b) = Some (res, (rest ++ b)%list).
Proof.
  induction a as [|t a IH]; intros r stack cur res rest Ha; [discriminate|].
  simpl in Ha |- *.
  destruct (tok t) as [n attrs|n|c|c|tg i|c]; try (apply IH; exact Ha).
  - destruct (unmarshalXML (soFar (cur :: stack) (mkFrame n attrs (raw t) [])) r).
    + apply IH; exact Ha.
    + injection Ha as <- <-. reflexivity.
  - destruct stack as [|parent stack].
    + injection Ha as <- <-. reflexivity.
    + destruct (unmarshalXML
                  (soFar stack (addKid parent (closeFrame cur (raw t)))) r).
      * apply IH; exact Ha.
      * injection Ha as <- <-. reflexivity.
Qed.

(** The decoder reads the first child of Body into the bound target as
    [readChild] describes. *)
Lemma read_child (ts : list PTok) :
  forall (e : Envelope R) (r : R) (stack : list Frame) (cur : Frame),
    BContent (EBody e) = Some r ->
    match readChild r stack cur ts with
    | Some (Err y, _) =>
        drun ts (mkDecoder (InChild false stack cur) e) = mkDecoder (Done (Err y)) e
    | Some (Ok r', rest) =>
        drun ts (mkDecoder (InChild false stack cur) e)
        = drun rest
            (mkDecoder (AfterChild 0)
               (setBody e (mkBody (BXMLName (EBody e)) (BFault (EBody e))
                                  (Some r'))))
        /\ (unclosed (2 + List.length stack) ts = true -> unclosed 1 rest = true)
        /\ (bodiesIn (2 + List.length stack) ts = [] -> bodiesIn 1 rest = [])
    | None =>
        reading (phase (drun ts (mkDecoder (InChild false stack cur) e))) = true
    end.
Proof.
  induction ts as [|t ts IH]; intros e r stack cur Hr; [reflexivity|].
  assert (Hnext : forall stack' cur',
             unclosed (2 + List.length stack) (t :: ts)
             = unclosed (2 + List.length stack') ts ->
             bodiesIn (2 + List.length stack) (t :: ts)
             = bodiesIn (2 + List.length stack') ts ->
             match readChild r stack' cur' ts with
             | Some (Err y, _) =>
                 drun ts (mkDecoder (InChild false stack' cur') e)
                 = mkDecoder (Done (Err y)) e
             | Some (Ok r', rest) =>
                 drun ts (mkDecoder (InChild false stack' cur') e)
                 = drun rest
                     (mkDecoder (AfterChild 0)
                        (setBody e (mkBody (BXMLName (EBody e)) (BFault (EBody e))
                                           (Some r'))))
                 /\ (unclosed (2 + List.length stack) (t :: ts) = true ->
                     unclosed 1 rest = true)
                 /\ (bodiesIn (2 + List.length stack) (t :: ts) = [] ->
                     bodiesIn 1 rest = [])
             | None =>
                 reading (phase (drun ts (mkDecoder (InChild false stack' cur') e)))
                 = true
             end).
  { intros stack' cur' Hu Hb. rewrite Hu, Hb.
    specialize (IH e r stack' cur' Hr).
    destruct (readChild r stack' cur' ts) as [[[r'|y] rest]|]; exact IH. }
  rewrite drun_cons. simpl readChild. unfold dstep. simpl phase. simpl env.
  destruct (tok t) as [n attrs|n|c|c|tg i|c] eqn:Ht;
    try (apply Hnext; simpl; rewrite Ht; reflexivity).
  - unfold enter. simpl env. rewrite Hr.
    destruct (unmarshalXML (soFar (cur :: stack) (mkFrame n attrs (raw t) [])) r).
    + apply (Hnext (cur :: stack)); simpl; rewrite Ht; reflexivity.
    + unfold stop. apply drun_done.
  - destruct stack as [|parent stack].
    + unfold childDone. simpl env. rewrite Hr.
      destruct (unmarshalXML (closeFrame cur (raw t)) r).
      * simpl unclosed. simpl bodiesIn. rewrite Ht. repeat split; auto.
      * unfold stop. apply drun_done.
    + unfold enter. simpl env. rewrite Hr.
      destruct (unmarshalXML
                  (soFar stack (addKid parent (closeFrame cur (raw t)))) r).
      * apply (Hnext stack); simpl; rewrite Ht; reflexivity.
      * unfold stop. apply drun_done.
Qed.

(** ** The fields of a fault *)





Lemma fieldInner_app (l : string) (a b : list Node) (d : option string) :
  fieldInner l (a ++ b) d = fieldInner l b (fieldInner l a d).
Proof.
  revert d. induction a as [|k a IH]; intros d; [reflexivity|].
  destruct k; simpl; apply IH.
Qed.

Lemma fieldInner_absent (l : string) (ks : list Node) (d : option string) :
  forallb (fun k => negb (isElemNamed l k)) ks = true -> fieldInner l ks d = d.
Proof.
  induction ks as [|k ks IH]; intros Hks; [reflexivity|].
  simpl in Hks. apply andb_prop in Hks. destruct Hks as [Hk Hks].
  destruct k as [n attrs kids otag ctag | |]; simpl in *; try (apply IH, Hks).
  destruct (String.eqb (Local n) l); [discriminate|]. apply IH, Hks.
Qed.

Lemma fieldInner_last (l : string) (ks kids : list Node) (d : option string) :
  lastChild l ks kids -> fieldInner l ks d = Some (innerXML kids).
Proof.
  intros (before & sp & attrs & otag & ctag & after & Hks & Hafter). subst ks.
  rewrite fieldInner_app. simpl. rewrite String.eqb_refl.
  apply fieldInner_absent, Hafter.
Qed.

(** ** Whole documents *)

(** A document whose Body starts with a Fault decodes to that fault,
    whatever content target is bound and whatever its capability. *)
Lemma decode_fault_stream (s : Shell) fattrs fkids fotag fctag
    (f : StreamEnd) (b : option R) :
  wfShell s = true ->
  forallb wfNode fkids = true ->
  DecodeStream
    (mkStream (document s (Elem faultName fattrs fkids fotag fctag)) f)
    (NewEnvelope b)
  = Ok (mkEnvelope envelopeName []
          (mkBody bodyName
             (Some (decodeFault (Elem faultName fattrs fkids fotag fctag)))
             None)).
Proof.
  intros Hs Hk. unfold DecodeStream. simpl toks. simpl fin.
  rewrite document_split, drun_app, reach_first_child by (apply wfShell_lead, Hs).
  rewrite drun_app, first_child by assumption.
  unfold childDone. simpl.
  rewrite after_first_child by assumption. reflexivity.
Qed.

(** A document whose Body starts with another element hands that element
    to the bound content target, which decodes it as it is read. *)
Lemma decode_content_stream (s : Shell) n attrs kids otag ctag
    (f : StreamEnd) (r r' : R) :
  wfShell s = true ->
  name_eqb n faultName = false ->
  readElement r (mkPTok (StartElement n attrs) otag)
              (flat_map flatten kids ++ [mkPTok (EndElement n) ctag])
  = Some (Ok r', []) ->
  DecodeStream (mkStream (document s (Elem n attrs kids otag ctag)) f)
               (NewEnvelope (Some r))
  = Ok (mkEnvelope envelopeName [] (mkBody bodyName None (Some r'))).
Proof.
  intros Hs Hn Hread. unfold DecodeStream. simpl toks. simpl fin.
  rewrite document_split, drun_app, reach_first_child by (apply wfShell_lead, Hs).
  simpl flatten. rewrite <- app_comm_cons. rewrite drun_cons.
  unfold dstep. cbn [phase tok env raw]. rewrite Hn.
  unfold readElement in Hread. cbn [tok raw] in Hread.
  unfold enter. cbn [env opened EBody BContent].
  destruct (unmarshalXML (soFar [] (mkFrame n attrs otag [])) r) as [r1|y];
    [|discriminate Hread].
  set (tail := (flat_map flatten (more s)
                ++ mkPTok (EndElement bodyName) (bodyClose s)
                :: flat_map flatten (afterBody s)
                ++ mkPTok (EndElement envelopeName) (envClose s) :: trailer s)%list).
  pose proof (readChild_app _ tail r [] (mkFrame n attrs otag []) _ _ Hread) as Happ.
  pose proof (read_child ((flat_map flatten kids ++ [mkPTok (EndElement n) ctag])
                          ++ tail)
                (opened (Some r)) r [] (mkFrame n attrs otag []) eq_refl) as Hrun.
  rewrite Happ in Hrun. destruct Hrun as (Hrun & _ & _).
  rewrite Hrun. subst tail. simpl app.
  rewrite after_first_child by assumption. reflexivity.
Qed.


(** ** Streams that break inside the envelope *)








End Machine.

(** ** Lexemes of trees *)

Lemma concatAll_app (a b : list string) :
  concatAll (a ++ b) = concatAll a ++ concatAll b.
Proof.
  induction a as [|x a IH]; simpl; [reflexivity|].
  rewrite IH, TokenizerFacts.append_assoc. reflexivity.
Qed.

Lemma innerXML_app (a b : list Node) : innerXML (a ++ b) = innerXML a ++ innerXML b.
Proof. unfold innerXML. rewrite map_app. apply concatAll_app. Qed.

Lemma rawOfToks_flatten (nd : Node) : rawOfToks (flatten nd) = rawOfNode nd.
Proof.
  induction nd as [n attrs kids otag ctag IH | s lx | t lx] using Node_induction;
    simpl; try apply TokenizerFacts.append_nil_r.
  f_equal. rewrite TokenizerFacts.rawOfToks_app. simpl.
  rewrite TokenizerFacts.append_nil_r. f_equal.
  induction IH as [|k kids Hk _ IHk]; simpl; [reflexivity|].
  rewrite TokenizerFacts.rawOfToks_app, Hk, IHk. reflexivity.
Qed.

Lemma rawOfToks_flat_map (l : list Node) :
  rawOfToks (flat_map flatten l) = innerXML l.
Proof.
  induction l as [|k l IH]; simpl; [reflexivity|].
  rewrite TokenizerFacts.rawOfToks_app, rawOfToks_flatten, IH. reflexivity.
Qed.

Lemma rawOfToks_cons (t : PTok) (l : list PTok) :
  rawOfToks (t :: l) = raw t ++ rawOfToks l.
Proof. reflexivity. Qed.

Lemma rawOfToks_document (s : Shell) (child : Node) :
  rawOfToks (document s child)
  = rawOfToks (upToFirstChild s) ++ rawOfNode child
    ++ innerXML (more s) ++ bodyClose s
    ++ innerXML (afterBody s) ++ envClose s ++ rawOfToks (trailer s).
Proof.
  rewrite document_split.
  repeat (rewrite TokenizerFacts.rawOfToks_app || rewrite rawOfToks_cons).
  rewrite rawOfToks_flatten, !rawOfToks_flat_map. simpl raw.
  repeat rewrite TokenizerFacts.append_assoc. reflexivity.
Qed.

Lemma rawOfNode_elem n attrs kids otag ctag :
  rawOfNode (Elem n attrs kids otag ctag) = otag ++ innerXML kids ++ ctag.
Proof. reflexivity. Qed.

Lemma innerXML_cons (k : Node) (l : list Node) :
  innerXML (k :: l) = rawOfNode k ++ innerXML l.
Proof. reflexivity. Qed.

(** ** The claims about [Decode] *)

Section Claims.
Context {R : Type} `{Content R}.

Lemma Decode_stream (input : string) (e : Envelope R) :
  Decode input e
  = DecodeStream (mkStream (toks (tokenize input)) (fin (tokenize input))) e.
Proof. unfold Decode. destruct (tokenize input); reflexivity. Qed.



(** C4. The [detail] child of a decoded fault is not decoded: what is
    stored in [DetailInternal] is the inner markup of the element as it
    stands in the input, white space included, that is, the bytes between
    the lexeme of its start tag and the lexeme of its end tag. *)
Theorem detail_captured_verbatim :
  forall (input : string) (s : Shell) fattrs fotag fctag
         before sp dattrs dkids dotag dctag after (r : R),
    tokenize input
    = mkStream
        (document s
           (Elem faultName fattrs
              (before ++ Elem (mkName sp "detail") dattrs dkids dotag dctag
                      :: after)%list fotag fctag)) AtEOF ->
    wfShell s = true ->
    forallb wfNode
      (before ++ Elem (mkName sp "detail") dattrs dkids dotag dctag :: after)
    = true ->
    forallb (fun k => negb (isElemNamed "detail" k)) after = true ->
    exists flt,
      Decode input (NewEnvelope (Some r))
      = Ok (mkEnvelope envelopeName [] (mkBody bodyName (Some flt) None))
      /\ DetailInternal flt = Some (innerXML dkids)
      /\ input
         = rawOfToks (upToFirstChild s) ++ fotag ++ innerXML before
           ++ dotag ++ innerXML dkids ++ dctag
           ++ innerXML after ++ fctag ++ innerXML (more s) ++ bodyClose s
           ++ innerXML (afterBody s) ++ envClose s ++ rawOfToks (trailer s).
Proof.
  intros input s fattrs fotag fctag before sp dattrs dkids dotag dctag after r
         Htok Hs Hk Hafter.
  eexists. split; [|split].
  - unfold Decode. rewrite Htok. apply decode_fault_stream; assumption.
  - simpl. apply fieldInner_last.
    exists before, sp, dattrs, dotag, dctag, after. split; [reflexivity|exact Hafter].
  - apply TokenizerFacts.tokenize_lexemes in Htok. rewrite <- Htok.
    rewrite rawOfToks_document, rawOfNode_elem, innerXML_app, innerXML_cons,
      rawOfNode_elem.
    repeat rewrite TokenizerFacts.append_assoc. reflexivity.
Qed.

(** C5. When the Fault element of a response document has no [detail]
    child, the detail captured by the decode is absent. *)
Theorem no_detail_is_nil :
  forall (input : string) (s : Shell) fattrs fkids fotag fctag (r : R),
    toks (tokenize input) = document s (Elem faultName fattrs fkids fotag fctag) ->
    wfShell s = true ->
    forallb wfNode fkids = true ->
    forallb (fun k => negb (isElemNamed "detail" k)) fkids = true ->
    exists flt,
      Decode input (NewEnvelope (Some r))
      = Ok (mkEnvelope envelopeName [] (mkBody bodyName (Some flt) None))
      /\ DetailInternal flt = None.
Proof.
  intros input s fattrs fkids fotag fctag r Htoks Hs Hk Hnone.
  eexists. split.
  - rewrite Decode_stream, Htoks. apply decode_fault_stream; assumption.
  - simpl. apply fieldInner_absent, Hnone.
Qed.


End Claims.

(** ** The decode table, row by row *)

Import Fixtures Scenario.

Abbreviation bound0 := (NewEnvelope (Some envelopeContentExample.zero)).
Abbreviation unbound := (NewEnvelope (@None envelopeContentExample.t)).

Example decode_row1 : Decode decodeIn0 bound0 = Ok decodeOut0.
Proof. vm_compute. reflexivity. Qed.

Example decode_row2 : Decode decodeIn1 bound0 = Ok decodeOut1.
Proof. vm_compute. reflexivity. Qed.

Example decode_row3 : Decode decodeIn2 bound0 = Ok decodeOut2.
Proof. vm_compute. reflexivity. Qed.

Example decode_row4 :
  Decode decodeIn3 bound0
  = Err (Syntax (mkSyntaxError "element <ContentExample> closed by </Body>" 6)).
Proof. vm_compute. reflexivity. Qed.

Example decode_row5 :
  Decode decodeIn4 bound0
  = Err (Syntax (mkSyntaxError "expected attribute name in element" 5)).
Proof. vm_compute. reflexivity. Qed.

Example decode_row6 :
  Decode decodeIn5 bound0
  = Err (Syntax (mkSyntaxError "invalid characters between </faultcode and >" 6)).
Proof. vm_compute. reflexivity. Qed.

Example decode_row7 : Decode decodeIn6 unbound = Err ErrEnvelopeMisconfigured.
Proof. vm_compute. reflexivity. Qed.

(** The scenario of spec 8: the captured detail, decoded again into the
    caller's type, exposes the attribute. *)
Example redecode_detail :
  decodeDetail faultDetailExample.unmarshal decodeDetail1 faultDetailExample.zero
  = Ok (faultDetailExample.mk (mkName "" "DetailExample") "10").
Proof. vm_compute. reflexivity. Qed.

(** ** Witnesses and counterexamples *)


(** The shell is parsed first (spec 4.2 step 1): with no content target
    bound, a document that breaks before the start tag of Body is complete
    fails with the syntax error. *)
Example unterminated_body_unbound :
  Decode unterminatedBody unbound
  = Err (Syntax (mkSyntaxError "expected attribute name in element" 4)).
Proof. vm_compute. reflexivity. Qed.


(** Row 2 of the decode table: the detail with its white space. *)
Lemma detail_captured_verbatim_witness :
  exists flt,
    Decode decodeIn1 bound0
    = Ok (mkEnvelope envelopeName [] (mkBody bodyName (Some flt) None))
    /\ DetailInternal flt
       = Some (innerXML (kidsOf (childNamed "detail" (firstChildOf faultTokens1))))
    /\ decodeIn1
       = rawOfToks (upToFirstChild (shellOf faultTokens1))
         ++ otagOf (firstChildOf faultTokens1)
         ++ innerXML (beforeChild "detail" (firstChildOf faultTokens1))
         ++ otagOf (childNamed "detail" (firstChildOf faultTokens1))
         ++ innerXML (kidsOf (childNamed "detail" (firstChildOf faultTokens1)))
         ++ ctagOf (childNamed "detail" (firstChildOf faultTokens1))
         ++ innerXML (afterChild "detail" (firstChildOf faultTokens1))
         ++ ctagOf (firstChildOf faultTokens1)
         ++ innerXML (more (shellOf faultTokens1))
         ++ bodyClose (shellOf faultTokens1)
         ++ innerXML (afterBody (shellOf faultTokens1))
         ++ envClose (shellOf faultTokens1)
         ++ rawOfToks (trailer (shellOf faultTokens1)).
Proof.
  apply (detail_captured_verbatim decodeIn1 (shellOf faultTokens1)
           (attrsOf (firstChildOf faultTokens1))
           (otagOf (firstChildOf faultTokens1))
           (ctagOf (firstChildOf faultTokens1))
           (beforeChild "detail" (firstChildOf faultTokens1))
           (spaceOf (childNamed "detail" (firstChildOf faultTokens1)))
           (attrsOf (childNamed "detail" (firstChildOf faultTokens1)))
           (kidsOf (childNamed "detail" (firstChildOf faultTokens1)))
           (otagOf (childNamed "detail" (firstChildOf faultTokens1)))
           (ctagOf (childNamed "detail" (firstChildOf faultTokens1)))
           (afterChild "detail" (firstChildOf faultTokens1))
           envelopeContentExample.zero); vm_compute; reflexivity.
Defined.

(** The inner markup of row 2 is the string the table expects. *)
Example detail_of_row2 :
  innerXML (kidsOf (childNamed "detail" (firstChildOf faultTokens1)))
  = decodeDetail1.
Proof. vm_compute. reflexivity. Qed.

(** Row 3 of the decode table. *)
Lemma no_detail_is_nil_witness :
  exists flt,
    Decode decodeIn2 bound0
    = Ok (mkEnvelope envelopeName [] (mkBody bodyName (Some flt) None))
    /\ DetailInternal flt = None.
Proof.
  apply (no_detail_is_nil decodeIn2 (shellOf faultTokens2)
           (attrsOf (firstChildOf faultTokens2))
           (kidsOf (firstChildOf faultTokens2))
           (otagOf (firstChildOf faultTokens2))
           (ctagOf (firstChildOf faultTokens2))
           envelopeContentExample.zero); vm_compute; reflexivity.
Defined.



End DecodeFacts.

(** * The printer and the tokenizer *)
Module PrintFacts.
Import Xml Envelope Documents TokenizerFacts.

Lemma run_app (a b : string) (L : Lexer) : run (a ++ b) L = run b (run a L).
Proof. revert L. induction a as [|c a IH]; intros L; simpl; [reflexivity|apply IH]. Qed.

Ltac all_chars c :=
  destruct c as [[|] [|] [|] [|] [|] [|] [|] [|]].

(** A byte of a name is no punctuation of a tag and no line feed. *)
Lemma nameByte_plain (c : ascii) :
  isNameByte c = true ->
  isSpace c = false /\ Ascii.eqb c "/" = false /\ Ascii.eqb c ">" = false
  /\ Ascii.eqb c "=" = false /\ Ascii.eqb c newline = false
  /\ Ascii.eqb c "?" = false /\ Ascii.eqb c "!" = false.
Proof. all_chars c; vm_compute; intros Hc; try discriminate Hc; repeat split. Qed.

Lemma nameByte_bump (c : ascii) (ln : Z) : isNameByte c = true -> bump ln c = ln.
Proof.
  intros Hc. unfold bump.
  destruct (nameByte_plain c Hc) as (_ & _ & _ & _ & Hn & _). rewrite Hn. reflexivity.
Qed.

Lemma snoc_app (a w : string) (c : ascii) : snoc a c ++ w = a ++ String c w.
Proof. unfold snoc. rewrite append_assoc. reflexivity. Qed.

(** ** Names *)

Lemma run_start_name (w : string) :
  allChars isNameByte w = true ->
  forall n raw ln stack env out,
    run w (mkLexer (MStartName n) ln raw stack env out)
    = mkLexer (MStartName (n ++ w)) ln (raw ++ w) stack env out.
Proof.
  induction w as [|c w IH]; intros Hw n raw ln stack env out; simpl.
  - rewrite !append_nil_r. reflexivity.
  - simpl in Hw. apply andb_prop in Hw. destruct Hw as [Hc Hw].
    unfold step. simpl. rewrite Hc. unfold advance. simpl.
    rewrite nameByte_bump by exact Hc. rewrite IH by exact Hw.
    rewrite !snoc_app. reflexivity.
Qed.

Lemma run_attr_name (w : string) :
  allChars isNameByte w = true ->
  forall n attrs an raw ln stack env out,
    run w (mkLexer (MAttrName n attrs an) ln raw stack env out)
    = mkLexer (MAttrName n attrs (an ++ w)) ln (raw ++ w) stack env out.
Proof.
  induction w as [|c w IH]; intros Hw n attrs an raw ln stack env out; simpl.
  - rewrite !append_nil_r. reflexivity.
  - simpl in Hw. apply andb_prop in Hw. destruct Hw as [Hc Hw].
    unfold step. simpl. rewrite Hc. unfold advance. simpl.
    rewrite nameByte_bump by exact Hc. rewrite IH by exact Hw.
    rewrite !snoc_app. reflexivity.
Qed.

Lemma run_end_name (w : string) :
  allChars isNameByte w = true ->
  forall n raw ln stack env out,
    run w (mkLexer (MEndName n) ln raw stack env out)
    = mkLexer (MEndName (n ++ w)) ln (raw ++ w) stack env out.
Proof.
  induction w as [|c w IH]; intros Hw n raw ln stack env out; simpl.
  - rewrite !append_nil_r. reflexivity.
  - simpl in Hw. apply andb_prop in Hw. destruct Hw as [Hc Hw].
    unfold step. simpl. rewrite Hc. unfold advance. simpl.
    rewrite nameByte_bump by exact Hc. rewrite IH by exact Hw.
    rewrite !snoc_app. reflexivity.
Qed.

(** ** Escaped text *)

Lemma snocs_append (s raw : string) : snocs raw s = raw ++ s.
Proof.
  revert raw. induction s as [|c s IH]; intros raw; simpl.
  - rewrite append_nil_r. reflexivity.
  - rewrite IH, snoc_app. reflexivity.
Qed.

Lemma safeText_checked (s : string) : safeText s = true -> checkText s = None.
Proof. unfold safeText. destruct (checkText s); [discriminate | reflexivity]. Qed.

Lemma checked_safeText (s : string) : checkText s = None -> safeText s = true.
Proof. unfold safeText. intros Hs. rewrite Hs. reflexivity. Qed.

Lemma lastRead_app (a b : string) (h : ascii * ascii) :
  lastRead (a ++ b) h = lastRead b (lastRead a h).
Proof.
  revert h. induction a as [|c a IH]; intros h; [reflexivity|]. simpl. apply IH.
Qed.

(** *** Runes, byte by byte *)

(** The shape of what [DecodeRune] finds: a rune of one byte is an ASCII
    byte, or the byte is no rune; a rune of several bytes is made of bytes
    outside ASCII. *)
Lemma decodeRune_shape (c : ascii) (s1 : string) :
  match snd (decodeRune (String c s1)) with
  | O => False
  | 1%nat =>
      (highByte c = false /\ fst (decodeRune (String c s1)) = byteOf c)
      \/ fst (decodeRune (String c s1)) = RuneError
  | S (S w) =>
      highByte c = true
      /\ allChars highByte (firstChars (S w) s1) = true
      /\ s1 = firstChars (S w) s1 ++ afterRune (S (S w)) s1
  end.
Proof.
  unfold decodeRune, highByte, isCont.
  destruct (byteOf c <? 128) eqn:E0.
  { simpl. left. split; [|reflexivity]. apply Z.leb_gt. apply Z.ltb_lt. exact E0. }
  apply Z.ltb_ge in E0.
  assert (Hc : (128 <=? byteOf c) = true) by (apply Z.leb_le; exact E0).
  destruct ((byteOf c <? 194) || (244 <? byteOf c))%bool; [right; reflexivity|].
  destruct s1 as [|c1 s2]; [right; reflexivity|].
  set (lo := if byteOf c =? 224 then 160 else if byteOf c =? 240 then 144 else 128).
  set (hi := if byteOf c =? 237 then 159 else if byteOf c =? 244 then 143 else 191).
  assert (Hlo : 128 <= lo).
  { subst lo. destruct (byteOf c =? 224); [lia|].
    destruct (byteOf c =? 240); lia. }
  destruct ((byteOf c1 <? lo) || (hi <? byteOf c1))%bool eqn:E1;
    [right; reflexivity|].
  apply orb_false_iff in E1. destruct E1 as [E1 _]. apply Z.ltb_ge in E1.
  assert (Hc1 : (128 <=? byteOf c1) = true) by (apply Z.leb_le; lia).
  destruct (byteOf c <? 224).
  { simpl. rewrite Hc, Hc1. repeat split; reflexivity. }
  destruct s2 as [|c2 s3]; [right; reflexivity|].
  destruct ((128 <=? byteOf c2) && (byteOf c2 <=? 191))%bool eqn:E2;
    [|right; reflexivity].
  apply andb_prop in E2. destruct E2 as [Hc2 _]. simpl negb. cbv iota.
  destruct (byteOf c <? 240).
  { simpl. rewrite Hc, Hc1, Hc2. repeat split; reflexivity. }
  destruct s3 as [|c3 s4]; [right; reflexivity|].
  destruct ((128 <=? byteOf c3) && (byteOf c3 <=? 191))%bool eqn:E3;
    [|right; reflexivity].
  apply andb_prop in E3. destruct E3 as [Hc3 _]. simpl.
  rewrite Hc, Hc1, Hc2, Hc3. repeat split; reflexivity.
Qed.

Lemma escapeBytes_high (t rest : string) :
  allChars highByte t = true ->
  escapeBytes (t ++ rest) = t ++ escapeBytes rest.
Proof.
  induction t as [|c t IH]; intros Ht; [reflexivity|].
  simpl in Ht. apply andb_prop in Ht. destruct Ht as [Hc Ht].
  simpl. unfold escapeByte. rewrite Hc. simpl. rewrite IH by exact Ht. reflexivity.
Qed.

Lemma highByte_ok (c : ascii) : highByte c = true -> okByte c = true.
Proof.
  unfold highByte, okByte, byteOf. intros Hc. apply Z.leb_le in Hc.
  assert (Hn : (32 <= nat_of_ascii c)%nat) by lia.
  apply Nat.leb_le in Hn. rewrite Hn. reflexivity.
Qed.

Lemma allChars_impl (f g : ascii -> bool) (s : string) :
  (forall c, f c = true -> g c = true) ->
  allChars f s = true -> allChars g s = true.
Proof.
  intros Hfg. induction s as [|c s IH]; intros Hs; [reflexivity|].
  simpl in *. apply andb_prop in Hs. destruct Hs as [Hc Hs].
  rewrite (Hfg c Hc), IH by exact Hs. reflexivity.
Qed.

Lemma allChars_app (f : ascii -> bool) (a b : string) :
  allChars f (a ++ b) = (allChars f a && allChars f b)%bool.
Proof.
  induction a as [|c a IH]; [reflexivity|]. simpl. rewrite IH.
  rewrite andb_assoc. reflexivity.
Qed.

Lemma low_rune (c : ascii) :
  highByte c = false -> isInCharacterRange (byteOf c) = true ->
  okByte c = true.
Proof. all_chars c; vm_compute; intros H1 H2; congruence. Qed.

Lemma String_length_app (a b : string) :
  String.length (a ++ b) = (String.length a + String.length b)%nat.
Proof. induction a as [|c a IH]; simpl; [reflexivity|]. rewrite IH. reflexivity. Qed.

Lemma escapeText_cons (c : ascii) (s1 : string) :
  escapeText (String c s1)
  = match snd (decodeRune (String c s1)) with
    | S (S w) =>
        (if isInCharacterRange (fst (decodeRune (String c s1)))
         then String c (firstChars (S w) s1) else replacement)
        ++ escapeText (afterRune (S (S w)) s1)
    | _ => escapeChar c ++ escapeText s1
    end.
Proof. reflexivity. Qed.

Lemma checkText_cons (c : ascii) (s1 : string) :
  checkText (String c s1)
  = let rw := decodeRune (String c s1) in
    if ((fst rw =? RuneError) && Nat.eqb (snd rw) 1)%bool then Some "invalid UTF-8"
    else if negb (isInCharacterRange (fst rw))
    then Some ("illegal character code " ++ formatU (fst rw))
    else checkText (afterRune (snd rw) s1).
Proof. reflexivity. Qed.

(** [EscapeText] copies the bytes of valid text outside ASCII, and escapes
    its ASCII bytes one by one. *)
Lemma safe_bytes (n : nat) :
  forall s, (String.length s <= n)%nat -> safeText s = true ->
            escapeText s = escapeBytes s /\ allChars okByte s = true.
Proof.
  induction n as [|n IH]; intros s Hlen Hs.
  { destruct s; [split; reflexivity | simpl in Hlen; lia]. }
  destruct s as [|c s1]; [split; reflexivity|].
  apply safeText_checked in Hs. rewrite checkText_cons in Hs. cbv zeta in Hs.
  rewrite escapeText_cons.
  pose proof (decodeRune_shape c s1) as Hshape.
  destruct (decodeRune (String c s1)) as [r w]. simpl fst in *. simpl snd in *.
  destruct w as [|[|w]]; [contradiction| |].
  - destruct Hshape as [[Hc Hr]|Hr].
    + subst r. rewrite Z.eqb_sym in Hs.
      destruct ((RuneError =? byteOf c) && Nat.eqb 1 1)%bool; [discriminate|].
      destruct (isInCharacterRange (byteOf c)) eqn:Hin; [|discriminate].
      simpl in Hs, Hlen.
      destruct (IH s1 ltac:(lia) (checked_safeText _ Hs)) as [He Ha].
      split.
      * simpl. unfold escapeByte. rewrite Hc, He. reflexivity.
      * simpl. rewrite (low_rune c Hc Hin), Ha. reflexivity.
    + subst r. discriminate Hs.
  - destruct Hshape as (Hc & Hhigh & Hsplit).
    destruct ((r =? RuneError) && Nat.eqb (S (S w)) 1)%bool; [discriminate|].
    destruct (isInCharacterRange r); [|discriminate]. simpl negb in Hs.
    cbv iota in Hs.
    assert (Hshort : (String.length (afterRune (S (S w)) s1) <= n)%nat).
    { simpl in Hlen. rewrite Hsplit, String_length_app in Hlen. lia. }
    destruct (IH _ Hshort (checked_safeText _ Hs)) as [He Ha].
    split.
    + rewrite He. rewrite Hsplit at 3.
      change (String c (firstChars (S w) s1 ++ afterRune (S (S w)) s1))
        with (String c (firstChars (S w) s1) ++ afterRune (S (S w)) s1).
      rewrite escapeBytes_high; [reflexivity|].
      cbn [allChars]. rewrite Hc, Hhigh. reflexivity.
    + rewrite Hsplit. cbn [allChars]. rewrite (highByte_ok c Hc), allChars_app.
      rewrite (allChars_impl _ _ _ highByte_ok Hhigh), Ha. reflexivity.
Qed.

Lemma safe_escape (s : string) :
  safeText s = true -> escapeText s = escapeBytes s /\ allChars okByte s = true.
Proof. apply (safe_bytes (String.length s)). apply Nat.le_refl. Qed.

(** *** The tokenizer reads escaped bytes back *)

Lemma run_escape_byte_text' (c : ascii) :
  okByte c = true ->
  forall txt b0 b1 ln raw stack env out,
    run (escapeByte c) (mkLexer (MText txt b0 b1) ln raw stack env out)
    = mkLexer (MText (snoc txt c)
                 (fst (lastRead (String c "") (b0, b1)))
                 (snd (lastRead (String c "") (b0, b1))))
              ln (snocs raw (escapeByte c)) stack env out.
Proof.
  all_chars c; intros Hc; vm_compute in Hc; try discriminate Hc; intros;
    vm_compute; reflexivity.
Qed.

Lemma run_escape_byte_value' (c : ascii) :
  okByte c = true ->
  forall n attrs an v b0 b1 ln raw stack env out,
    run (escapeByte c)
        (mkLexer (MAttrVal n attrs an dquote v b0 b1) ln raw stack env out)
    = mkLexer (MAttrVal n attrs an dquote (snoc v c)
                 (fst (lastRead (String c "") (b0, b1)))
                 (snd (lastRead (String c "") (b0, b1))))
              ln (snocs raw (escapeByte c)) stack env out.
Proof.
  all_chars c; intros Hc; vm_compute in Hc; try discriminate Hc; intros;
    vm_compute; reflexivity.
Qed.

Lemma run_escape_bytes_text (s : string) :
  allChars okByte s = true ->
  forall txt b0 b1 ln raw stack env out,
    run (escapeBytes s) (mkLexer (MText txt b0 b1) ln raw stack env out)
    = mkLexer (MText (txt ++ s) (fst (lastRead s (b0, b1)))
                                (snd (lastRead s (b0, b1))))
              ln (raw ++ escapeBytes s) stack env out.
Proof.
  induction s as [|c s IH]; intros Hs txt b0 b1 ln raw stack env out; simpl.
  - rewrite !append_nil_r. reflexivity.
  - simpl in Hs. apply andb_prop in Hs. destruct Hs as [Hc Hs].
    rewrite run_app, run_escape_byte_text' by exact Hc.
    rewrite IH by exact Hs. rewrite snocs_append, snoc_app, append_assoc.
    simpl lastRead. rewrite <- surjective_pairing. reflexivity.
Qed.

Lemma run_escape_bytes_value (s : string) :
  allChars okByte s = true ->
  forall n attrs an v b0 b1 ln raw stack env out,
    run (escapeBytes s)
        (mkLexer (MAttrVal n attrs an dquote v b0 b1) ln raw stack env out)
    = mkLexer (MAttrVal n attrs an dquote (v ++ s)
                 (fst (lastRead s (b0, b1))) (snd (lastRead s (b0, b1))))
              ln (raw ++ escapeBytes s) stack env out.
Proof.
  induction s as [|c s IH]; intros Hs n attrs an v b0 b1 ln raw stack env out;
    simpl.
  - rewrite !append_nil_r. reflexivity.
  - simpl in Hs. apply andb_prop in Hs. destruct Hs as [Hc Hs].
    rewrite run_app, run_escape_byte_value' by exact Hc.
    rewrite IH by exact Hs. rewrite snocs_append, snoc_app, append_assoc.
    simpl lastRead. rewrite <- surjective_pairing. reflexivity.
Qed.

(** Text that is valid, once escaped, is read back as it was. *)
Lemma run_escape_text (s : string) :
  safeText s = true ->
  forall txt b0 b1 ln raw stack env out,
    run (escapeText s) (mkLexer (MText txt b0 b1) ln raw stack env out)
    = mkLexer (MText (txt ++ s) (fst (lastRead s (b0, b1)))
                                (snd (lastRead s (b0, b1))))
              ln (raw ++ escapeText s) stack env out.
Proof.
  intros Hs. destruct (safe_escape s Hs) as [He Ha]. rewrite He.
  apply run_escape_bytes_text, Ha.
Qed.

Lemma run_escape_value (s : string) :
  safeText s = true ->
  forall n attrs an v b0 b1 ln raw stack env out,
    run (escapeText s)
        (mkLexer (MAttrVal n attrs an dquote v b0 b1) ln raw stack env out)
    = mkLexer (MAttrVal n attrs an dquote (v ++ s)
                 (fst (lastRead s (b0, b1))) (snd (lastRead s (b0, b1))))
              ln (raw ++ escapeText s) stack env out.
Proof.
  intros Hs. destruct (safe_escape s Hs) as [He Ha]. rewrite He.
  apply run_escape_bytes_value, Ha.
Qed.

(** ** Qualified names *)

Lemma plainName_facts (l : string) :
  plainName l = true ->
  allChars isNameByte l = true /\ countColon l = 0%nat
  /\ exists c w, l = String c w /\ isNameStart c = true.
Proof.
  unfold plainName. destruct l as [|c w]; [discriminate|].
  intros Hl. apply andb_prop in Hl. destruct Hl as [Hl Hc].
  apply andb_prop in Hl. destruct Hl as [Hs Ha].
  apply Nat.eqb_eq in Hc. repeat split; try assumption.
  exists c, w. split; [reflexivity | exact Hs].
Qed.

Lemma cutColon_none (s : string) : countColon s = 0%nat -> cutColon s = None.
Proof.
  induction s as [|c s IH]; intros Hs; [reflexivity|].
  simpl in *. destruct (Ascii.eqb c ":"); [discriminate|].
  rewrite IH by exact Hs. reflexivity.
Qed.

Lemma cutColon_split (p l : string) :
  countColon p = 0%nat -> cutColon (p ++ String ":" l) = Some (p, l).
Proof.
  induction p as [|c p IH]; intros Hp; [reflexivity|].
  simpl in *. destruct (Ascii.eqb c ":"); [discriminate|].
  rewrite IH by exact Hp. reflexivity.
Qed.

Lemma countColon_app (a b : string) :
  countColon (a ++ b) = (countColon a + countColon b)%nat.
Proof.
  induction a as [|c a IH]; [reflexivity|]. simpl. rewrite IH. lia.
Qed.

Lemma nsname_plain (l : string) :
  plainName l = true -> nsname l = Some (mkName "" l).
Proof.
  intros Hl. destruct (plainName_facts l Hl) as (_ & Hc & c & w & -> & Hs).
  unfold nsname. rewrite Hs, Hc. simpl negb. cbv iota.
  rewrite cutColon_none by exact Hc. reflexivity.
Qed.

Lemma nsname_qualified (p l : string) :
  plainName p = true -> plainName l = true ->
  nsname (p ++ String ":" l) = Some (mkName p l).
Proof.
  intros Hp Hl.
  destruct (plainName_facts p Hp) as (_ & Hcp & c & w & -> & Hs).
  destruct (plainName_facts l Hl) as (_ & Hcl & d & v & -> & _).
  assert (Hcount : countColon (String c w ++ String ":" (String d v)) = 1%nat).
  { rewrite countColon_app, Hcp. simpl countColon in Hcl |- *. rewrite Hcl.
    reflexivity. }
  pose proof (cutColon_split (String c w) (String d v) Hcp) as Hcut.
  unfold nsname. cbn [append] in *. rewrite Hs, Hcount, Hcut. reflexivity.
Qed.

Lemma okPrefix_facts (p : string) :
  okPrefix p = true ->
  (p = "" \/ plainName p = true)
  /\ String.eqb p "xmlns" = false /\ String.eqb p "xml" = false.
Proof.
  unfold okPrefix. intros Hp.
  apply andb_prop in Hp. destruct Hp as [Hp Hxml].
  apply andb_prop in Hp. destruct Hp as [Hp Hxmlns].
  apply negb_true_iff in Hxml, Hxmlns. repeat split; try assumption.
  apply orb_prop in Hp. destruct Hp as [Hp|Hp]; [left|right; exact Hp].
  apply String.eqb_eq. exact Hp.
Qed.

Lemma nsname_qname (p l : string) :
  okPrefix p = true -> plainName l = true ->
  nsname (qname p l) = Some (mkName p l).
Proof.
  intros Hp Hl. destruct (okPrefix_facts p Hp) as ([->|Hpp] & _ & _).
  - apply nsname_plain, Hl.
  - unfold qname. destruct (plainName_facts p Hpp) as (_ & _ & c & w & -> & _).
    simpl String.eqb. apply (nsname_qualified (String c w) l Hpp Hl).
Qed.

Lemma qname_chars (p l : string) :
  okPrefix p = true -> plainName l = true ->
  allChars isNameByte (qname p l) = true
  /\ exists c w, qname p l = String c w /\ isNameByte c = true
                 /\ allChars isNameByte w = true.
Proof.
  intros Hp Hl. destruct (okPrefix_facts p Hp) as (Hpp & _ & _).
  destruct (plainName_facts l Hl) as (Hal & _ & d & v & El & _).
  assert (Hall : allChars isNameByte (qname p l) = true).
  { unfold qname. destruct Hpp as [->|Hpp]; [exact Hal|].
    destruct (plainName_facts p Hpp) as (Hap & _ & c & w & Ep & _).
    rewrite Ep. simpl String.eqb. rewrite <- Ep.
    rewrite allChars_app. rewrite Hap. simpl. exact Hal. }
  split; [exact Hall|].
  destruct (qname p l) as [|c w] eqn:Eq.
  - exfalso. unfold qname in Eq. destruct Hpp as [->|Hpp].
    + simpl in Eq. subst l. discriminate.
    + destruct (plainName_facts p Hpp) as (_ & _ & c & w & Ep & _).
      subst p. simpl in Eq. discriminate.
  - exists c, w. simpl in Hall. apply andb_prop in Hall. destruct Hall as [Hc Hw].
    repeat split; assumption.
Qed.

(** ** Start tags *)

#[local] Arguments nsname : simpl never.

Lemma run_cons (c : ascii) (s : string) (L : Lexer) :
  run (String c s) L = run s (step L c).
Proof. reflexivity. Qed.

(** One attribute, as the printer writes it. *)
Lemma run_attr (name val : string) (a : Name) :
  nsname name = Some a ->
  nameBytes name ->
  safeText val = true ->
  forall n attrs raw ln stack env out,
    run (renderAttr (name, val)) (mkLexer (MTag n attrs) ln raw stack env out)
    = mkLexer (MTag n (attrs ++ [mkAttr a val])) ln
              (raw ++ renderAttr (name, val)) stack env out.
Proof.
  intros Hns (c & w & -> & Hc & Hw) Hval n attrs raw ln stack env out.
  destruct (nameByte_plain c Hc) as (Hsp & Hsl & Hgt & _ & Hnl & _).
  unfold renderAttr. cbn [fst snd append].
  rewrite !run_cons.
  change (step (mkLexer (MTag n attrs) ln raw stack env out) " ")
    with (mkLexer (MTag n attrs) ln (snoc raw " ") stack env out).
  assert (Hfirst : step (mkLexer (MTag n attrs) ln (snoc raw " ") stack env out) c
                   = mkLexer (MAttrName n attrs (String c "")) ln
                             (snoc (snoc raw " ") c) stack env out).
  { unfold step, tagStep. simpl. rewrite Hsp, Hsl, Hgt, Hc.
    unfold advance, bump. simpl. rewrite Hnl. reflexivity. }
  rewrite Hfirst, run_app, run_attr_name by exact Hw.
  rewrite run_cons.
  assert (Heq : step (mkLexer (MAttrName n attrs (String c "" ++ w)) ln
                              (snoc (snoc raw " ") c ++ w) stack env out) "="
                = mkLexer (MAttrQuote n attrs a) ln
                          (snoc (snoc (snoc raw " ") c ++ w) "=") stack env out).
  { unfold step. simpl. change (String c "" ++ w) with (String c w).
    rewrite Hns. reflexivity. }
  rewrite Heq, run_cons.
  change (step (mkLexer (MAttrQuote n attrs a) ln
                        (snoc (snoc (snoc raw " ") c ++ w) "=") stack env out) dquote)
    with (mkLexer (MAttrVal n attrs a dquote "" nul nul) ln
                  (snoc (snoc (snoc (snoc raw " ") c ++ w) "=") dquote)
                  stack env out).
  rewrite run_app, run_escape_value by exact Hval.
  cbn [run append].
  assert (Hclose : forall v b0 b1 r,
            checkText v = None ->
            step (mkLexer (MAttrVal n attrs a dquote v b0 b1) ln r stack env out)
                 dquote
            = mkLexer (MTag n (attrs ++ [mkAttr a v])) ln (snoc r dquote)
                      stack env out).
  { intros v b0 b1 r Hv. unfold step. simpl. rewrite Hv. reflexivity. }
  rewrite Hclose by (apply safeText_checked, Hval). f_equal.
  unfold snoc. repeat rewrite append_assoc. reflexivity.
Qed.

Lemma run_attrs (ras : list (string * string)) :
  Forall printable ras ->
  forall n attrs raw ln stack env out,
    run (concatAll (map renderAttr ras)) (mkLexer (MTag n attrs) ln raw stack env out)
    = mkLexer (MTag n (attrs ++ map parsedAttr ras)) ln
              (raw ++ concatAll (map renderAttr ras)) stack env out.
Proof.
  induction 1 as [|[name val] ras (Hnb & Hns & Hval) _ IH];
    intros n attrs raw ln stack env out.
  - simpl. rewrite app_nil_r, append_nil_r. reflexivity.
  - cbn [map concatAll fold_right]. rewrite run_app.
    simpl fst in *. simpl snd in *.
    destruct (nsname name) as [a|] eqn:Ea; [|contradiction Hns; reflexivity].
    rewrite (run_attr name val a Ea Hnb Hval).
    fold (concatAll (map renderAttr ras)).
    rewrite IH. unfold parsedAttr at 2. simpl fst. simpl snd. rewrite Ea.
    rewrite <- app_assoc, append_assoc. reflexivity.
Qed.

(** After its name a tag is read as if no attribute had been read yet. *)
Lemma run_after_name (nm : string) (n : Name) (c : ascii) (s : string) :
  nsname nm = Some n ->
  isNameByte c = false ->
  forall raw ln stack env out,
    run (String c s) (mkLexer (MStartName nm) ln raw stack env out)
    = run (String c s) (mkLexer (MTag n []) ln raw stack env out).
Proof.
  intros Hns Hc raw ln stack env out. rewrite !run_cons. f_equal.
  unfold step. simpl. rewrite Hc, Hns. reflexivity.
Qed.

Lemma renderAttr_head (ra : string * string) (s : string) :
  exists s', renderAttr ra ++ s = String " " s'.
Proof. unfold renderAttr. cbn [append]. eexists. reflexivity. Qed.

(** The text in progress is delivered when a tag begins. *)
Lemma step_lt (txt raw : string) ln stack env out :
  safeText txt = true ->
  step (resting txt raw ln stack env out) "<"
  = mkLexer MLt ln "<" stack env (pend out txt raw).
Proof.
  intros Ht. unfold resting, step, pend. simpl.
  rewrite (safeText_checked _ Ht). reflexivity.
Qed.

Lemma run_start_tag (p l : string) (ras : list (string * string)) :
  okPrefix p = true -> plainName l = true -> Forall printable ras ->
  forall txt raw ln stack env out,
    safeText txt = true ->
    run ("<" ++ qname p l ++ concatAll (map renderAttr ras) ++ ">")
        (resting txt raw ln stack env out)
    = openElement
        (mkLexer (MTag (mkName p l) (map parsedAttr ras)) ln
                 ("<" ++ qname p l ++ concatAll (map renderAttr ras))
                 stack env (pend out txt raw))
        (mkName p l) (map parsedAttr ras) false.
Proof.
  intros Hp Hl Hras txt raw ln stack env out Htxt.
  pose proof (nsname_qname p l Hp Hl) as Hns.
  destruct (qname_chars p l Hp Hl) as (_ & c & w & Eq & Hc & Hw).
  rewrite Eq in *.
  destruct (nameByte_plain c Hc) as (_ & Hsl & _ & _ & Hnl & Hq & Hb).
  cbn [append]. rewrite !run_cons.
  rewrite step_lt by exact Htxt.
  assert (Hfirst : step (mkLexer MLt ln "<" stack env (pend out txt raw)) c
                   = mkLexer (MStartName (String c "")) ln (String "<" (String c ""))
                             stack env (pend out txt raw)).
  { unfold step. simpl. rewrite Hsl, Hq, Hb, Hc.
    unfold advance, bump. simpl. rewrite Hnl. reflexivity. }
  rewrite Hfirst, run_app, run_start_name by exact Hw.
  change (String c "" ++ w) with (String c w).
  change (String "<" (String c "") ++ w) with (String "<" (String c w)).
  assert (Hrest : exists d s', concatAll (map renderAttr ras) ++ ">" = String d s'
                               /\ isNameByte d = false).
  { destruct ras as [|ra ras'].
    - exists ">"%char, "". split; reflexivity.
    - cbn [map concatAll fold_right]. rewrite append_assoc.
      destruct (renderAttr_head ra (fold_right append "" (map renderAttr ras') ++ ">"))
        as [s' Hs'].
      rewrite Hs'. exists " "%char, s'. split; reflexivity. }
  destruct Hrest as (d & s' & Hds & Hd). rewrite Hds.
  rewrite (run_after_name _ _ d s' Hns Hd). rewrite <- Hds.
  rewrite run_app, run_attrs by exact Hras.
  cbn [run app]. unfold step, tagStep. simpl. reflexivity.
Qed.

Lemma run_end_tag (p l : string) :
  okPrefix p = true -> plainName l = true ->
  forall txt raw ln saved stack env out,
    safeText txt = true ->
    run ("</" ++ qname p l ++ ">")
        (resting txt raw ln ((mkName p l, saved) :: stack) env out)
    = resting "" "" ln stack saved
        (pend out txt raw
         ++ [mkPTok (EndElement (translate env true (mkName p l)))
                    ("</" ++ qname p l ++ ">")]).
Proof.
  intros Hp Hl txt raw ln saved stack env out Htxt.
  pose proof (nsname_qname p l Hp Hl) as Hns.
  destruct (qname_chars p l Hp Hl) as (Hall & _).
  cbn [append]. rewrite !run_cons.
  rewrite step_lt by exact Htxt.
  change (step (mkLexer MLt ln "<" ((mkName p l, saved) :: stack) env
                        (pend out txt raw)) "/")
    with (mkLexer (MEndName "") ln "</" ((mkName p l, saved) :: stack) env
                  (pend out txt raw)).
  rewrite run_app, run_end_name by exact Hall.
  cbn [run append]. unfold step. simpl. rewrite Hns.
  unfold endStep. simpl. unfold closeElement. simpl.
  rewrite !String.eqb_refl. reflexivity.
Qed.

(** ** Name spaces: the scope of the printer is the environment of the
    tokenizer *)

Lemma bound_lookup (p u : string) (scope : list (string * string)) :
  bound p u scope = true ->
  nsLookup p scope = Some u \/ (nsLookup p scope = None /\ p = "" /\ u = "").
Proof.
  induction scope as [|[q v] scope IH]; simpl; intros Hb.
  - right. apply andb_prop in Hb. destruct Hb as [Hp Hu].
    apply String.eqb_eq in Hp, Hu. auto.
  - destruct (String.eqb p q); [|apply IH, Hb].
    left. apply String.eqb_eq in Hb. subst v. reflexivity.
Qed.

Lemma translate_printed (p u l : string) (scope : list (string * string)) :
  okPrefix p = true -> String.eqb l "xmlns" = false ->
  translate (if bound p u scope then scope else (p, u) :: scope) true (mkName p l)
  = mkName u l.
Proof.
  intros Hp Hl. destruct (okPrefix_facts p Hp) as (_ & Hxmlns & Hxml).
  unfold translate. simpl. rewrite Hxmlns, Hxml, Hl.
  rewrite !andb_false_r.
  destruct (bound p u scope) eqn:Hb.
  - destruct (bound_lookup p u scope Hb) as [Hk|(Hk & -> & ->)]; rewrite Hk;
      reflexivity.
  - simpl. rewrite String.eqb_refl. reflexivity.
Qed.

Lemma parsed_plain (a : string * string) :
  okAttr a = true -> parsedAttr a = plainAttr a /\ printable a.
Proof.
  unfold okAttr. intros Ha.
  apply andb_prop in Ha. destruct Ha as [Ha Hv].
  apply andb_prop in Ha. destruct Ha as [Hn _].
  pose proof (nsname_plain (fst a) Hn) as Hns.
  destruct (plainName_facts (fst a) Hn) as (Hall & _ & c & w & E & Hs).
  split.
  - unfold parsedAttr, plainAttr. rewrite Hns. reflexivity.
  - split; [|split; [rewrite Hns; discriminate | exact Hv]].
    exists c, w. rewrite E in Hall. simpl in Hall.
    apply andb_prop in Hall. destruct Hall as [Hc Hw]. auto.
Qed.

Lemma parsed_decl (p u : string) :
  okPrefix p = true -> safeText u = true ->
  parsedAttr (declName p, u) = declAttr p u /\ printable (declName p, u).
Proof.
  intros Hp Hu. destruct (okPrefix_facts p Hp) as ([->|Hpp] & _ & _).
  - split; [reflexivity|]. split; [|split; [discriminate | exact Hu]].
    exists "x"%char, "mlns". repeat split.
  - destruct (plainName_facts p Hpp) as (Hall & _ & c & w & E & _).
    assert (Hns : nsname (declName p) = Some (mkName "xmlns" p)).
    { unfold declName. rewrite E. simpl String.eqb. rewrite <- E.
      apply (nsname_qualified "xmlns" p eq_refl Hpp). }
    split.
    + unfold parsedAttr, declAttr. simpl fst. simpl snd. rewrite Hns.
      rewrite E. reflexivity.
    + split; [|split; [simpl fst; rewrite Hns; discriminate | exact Hu]].
      exists "x"%char, ("mlns:" ++ p). simpl fst. unfold declName.
      rewrite E. simpl String.eqb. rewrite <- E. repeat split.
      simpl. exact Hall.
Qed.

Lemma plain_attrs (attrs : list (string * string)) :
  forallb okAttr attrs = true ->
  map parsedAttr attrs = map plainAttr attrs /\ Forall printable attrs
  /\ (forall env, declare (map plainAttr attrs) env = env)
  /\ (forall env, map (translateAttr env) (map plainAttr attrs) = map plainAttr attrs).
Proof.
  induction attrs as [|a attrs IH]; intros Ha.
  - repeat split; constructor.
  - simpl in Ha. apply andb_prop in Ha. destruct Ha as [Ha Hr].
    destruct (IH Hr) as (Hm & Hp & Hd & Ht).
    destruct (parsed_plain a Ha) as [Hpa Hpr].
    assert (Hx : String.eqb (fst a) "xmlns" = false).
    { unfold okAttr in Ha. apply andb_prop in Ha. destruct Ha as [Ha _].
      apply andb_prop in Ha. destruct Ha as [_ Ha].
      apply negb_true_iff. exact Ha. }
    repeat split.
    + simpl. rewrite Hpa, Hm. reflexivity.
    + constructor; assumption.
    + intros env. simpl. rewrite Hx. apply Hd.
    + intros env. simpl. rewrite Ht. reflexivity.
Qed.

(** The start tag of a printed element, read back. *)
Lemma run_printed_start (scope : list (string * string)) p u l attrs :
  okPrefix p = true -> plainName l = true -> String.eqb l "xmlns" = false ->
  safeText u = true -> forallb okAttr attrs = true ->
  forall txt raw ln stack out,
    safeText txt = true ->
    let known := bound p u scope in
    let scope' := if known then scope else (p, u) :: scope in
    let decl := if known then [] else [(declName p, u)] in
    run ("<" ++ qname p l ++ concatAll (map renderAttr (decl ++ attrs)) ++ ">")
        (resting txt raw ln stack scope out)
    = resting "" "" ln ((mkName p l, scope) :: stack) scope'
        (pend out txt raw
         ++ [mkPTok (StartElement (mkName u l)
                       ((if known then [] else [declAttr p u])
                        ++ map plainAttr attrs))
                    ("<" ++ qname p l
                     ++ concatAll (map renderAttr (decl ++ attrs)) ++ ">")]).
Proof.
  intros Hp Hl Hx Hu Ha txt raw ln stack out Htxt known scope' decl.
  destruct (plain_attrs attrs Ha) as (Hm & Hpr & Hd & Ht).
  destruct (parsed_decl p u Hp Hu) as [Hpd Hprd].
  assert (Hras : Forall printable (decl ++ attrs)).
  { subst decl. destruct known; simpl; [exact Hpr | constructor; assumption]. }
  rewrite run_start_tag by assumption.
  unfold openElement. cbn [rawbuf ns stk Xml.out line].
  assert (Hparsed : map parsedAttr (decl ++ attrs)
                    = ((if known then [] else [declAttr p u])
                       ++ map plainAttr attrs)%list).
  { subst decl. destruct known; simpl; rewrite Hm; [reflexivity|].
    rewrite Hpd. reflexivity. }
  rewrite Hparsed.
  assert (Hdecl : declare ((if known then [] else [declAttr p u])
                           ++ map plainAttr attrs) scope = scope').
  { subst scope'. destruct known; simpl; [apply Hd|].
    unfold declAttr. destruct (String.eqb p "") eqn:Ep; simpl.
    - apply String.eqb_eq in Ep. subst p. apply Hd.
    - apply Hd. }
  rewrite Hdecl.
  assert (Htr : map (translateAttr scope')
                    ((if known then [] else [declAttr p u]) ++ map plainAttr attrs)
                = ((if known then [] else [declAttr p u])
                   ++ map plainAttr attrs)%list).
  { rewrite map_app, Ht. f_equal. destruct known; [reflexivity|].
    simpl. unfold declAttr, translateAttr, translate.
    destruct (String.eqb p ""); reflexivity. }
  rewrite Htr.
  subst scope' known. rewrite translate_printed by assumption.
  unfold resting, snoc. repeat rewrite append_assoc. reflexivity.
Qed.

(** ** Printed trees *)

Lemma escapeText_nonempty (s : string) :
  String.eqb s "" = false -> String.eqb (escapeText s) "" = false.
Proof.
  destruct s as [|c s]; [discriminate|]. intros _. rewrite escapeText_cons.
  destruct (snd (decodeRune (String c s))) as [|[|w]].
  - unfold escapeChar.
    repeat match goal with
           | |- context [if ?b then _ else _] => destruct b
           end; reflexivity.
  - unfold escapeChar.
    repeat match goal with
           | |- context [if ?b then _ else _] => destruct b
           end; reflexivity.
  - destruct (isInCharacterRange _); reflexivity.
Qed.

(** The text in progress after the children of a printed element is the
    text of its last child, or none. *)
Lemma afterKids_safe (scope : list (string * string)) (kids : list XNode) :
  forallb wfX kids = true ->
  forall out txt raw,
    safeText txt = true ->
    safeText (snd (fst (afterKids scope kids (out, txt, raw)))) = true.
Proof.
  induction kids as [|k kids IH]; intros Hwf out txt raw Htxt; [exact Htxt|].
  simpl in Hwf. apply andb_prop in Hwf. destruct Hwf as [Hk Hwf].
  destruct k as [p u l attrs ks | s']; cbn [afterKids fst snd].
  - apply IH; [exact Hwf | reflexivity].
  - apply IH; [exact Hwf|]. simpl in Hk. apply andb_prop in Hk. apply Hk.
Qed.

Lemma run_kids (scope : list (string * string)) (kids : list XNode) :
  Forall readsBack kids ->
  forallb wfX kids = true ->
  noAdjacentText kids = true ->
  forall txt raw ln stack out,
    (match kids with
     | XText _ :: _ => txt = "" /\ raw = ""
     | _ => True
     end) ->
    safeText txt = true ->
    run (concatAll (map (render scope) kids)) (resting txt raw ln stack scope out)
    = resting (snd (fst (afterKids scope kids (out, txt, raw))))
              (snd (afterKids scope kids (out, txt, raw))) ln stack scope
              (fst (fst (afterKids scope kids (out, txt, raw)))).
Proof.
  induction 1 as [|k kids Hk _ IH]; intros Hwf Hadj txt raw ln stack out Hhead Htxt.
  - reflexivity.
  - cbn [map concatAll fold_right]. rewrite run_app.
    fold (concatAll (map (render scope) kids)).
    simpl in Hwf. apply andb_prop in Hwf. destruct Hwf as [Hwk Hwf].
    destruct k as [p u l attrs ks | s'].
    + rewrite (Hk scope txt raw ln stack out)
        by (exact Htxt || (intros Hx; discriminate Hx)).
      unfold afterNode. simpl in Hadj.
      rewrite IH;
        [reflexivity | exact Hwf | exact Hadj | destruct kids as [|[]]; auto
        | reflexivity].
    + destruct Hhead as [-> ->].
      rewrite (Hk scope "" "" ln stack out)
        by (reflexivity || (intros _; split; reflexivity)).
      unfold afterNode.
      assert (Hkids : noAdjacentText kids = true
                      /\ match kids with XText _ :: _ => False | _ => True end).
      { simpl in Hadj. destruct kids as [|[] ?]; try discriminate; auto. }
      destruct Hkids as [Hadj' Hnt].
      rewrite IH; [reflexivity | exact Hwf | exact Hadj' | |].
      * destruct kids as [|[] ?]; auto; contradiction.
      * simpl in Hwk. apply andb_prop in Hwk. apply Hwk.
Qed.

Lemma pend_afterKids (scope : list (string * string)) (kids : list XNode) :
  forallb wfX kids = true ->
  noAdjacentText kids = true ->
  forall out txt raw,
    (match kids with
     | XText _ :: _ => raw = ""
     | _ => True
     end) ->
    pend (fst (fst (afterKids scope kids (out, txt, raw))))
         (snd (fst (afterKids scope kids (out, txt, raw))))
         (snd (afterKids scope kids (out, txt, raw)))
    = (pend out txt raw ++ flat_map flatten (map (asRead scope) kids))%list.
Proof.
  induction kids as [|k kids IH]; intros Hwf Hadj out txt raw Hhead.
  - simpl. rewrite app_nil_r. reflexivity.
  - simpl in Hwf. apply andb_prop in Hwf. destruct Hwf as [Hk Hwf].
    destruct k as [p u l attrs ks | s'].
    + cbn [afterKids fst snd]. simpl in Hadj.
      rewrite IH; [|exact Hwf|exact Hadj|destruct kids as [|[]]; auto].
      unfold pend at 1. simpl String.eqb. cbn iota.
      cbn [map flat_map]. rewrite app_assoc. reflexivity.
    + subst raw. cbn [afterKids fst snd].
      assert (Hkids : noAdjacentText kids = true
                      /\ match kids with XText _ :: _ => False | _ => True end).
      { simpl in Hadj. destruct kids as [|[] ?]; try discriminate; auto. }
      destruct Hkids as [Hadj' Hnt].
      rewrite IH; [|exact Hwf|exact Hadj'|destruct kids as [|[] ?]; auto; contradiction].
      simpl in Hk. apply andb_prop in Hk. destruct Hk as [Hne _].
      apply negb_true_iff in Hne.
      unfold pend. rewrite (escapeText_nonempty s' Hne). simpl String.eqb. cbn iota.
      cbn [map flat_map asRead flatten]. rewrite <- app_assoc. reflexivity.
Qed.

Lemma render_elem (scope : list (string * string)) p u l attrs kids :
  render scope (XElem p u l attrs kids)
  = ("<" ++ qname p l
     ++ concatAll (map renderAttr
                     ((if bound p u scope then [] else [(declName p, u)]) ++ attrs))
     ++ ">")
    ++ concatAll (map (render (if bound p u scope then scope else (p, u) :: scope))
                      kids)
    ++ "</" ++ qname p l ++ ">".
Proof.
  transitivity
    ("<" ++ qname p l
     ++ concatAll (map renderAttr
                     ((if bound p u scope then [] else [(declName p, u)]) ++ attrs))
     ++ ">"
     ++ concatAll (map (render (if bound p u scope then scope else (p, u) :: scope))
                       kids)
     ++ "</" ++ qname p l ++ ">").
  - reflexivity.
  - repeat rewrite append_assoc. reflexivity.
Qed.

(** The tokenizer reads a printed element back as [asRead] describes it. *)
Lemma run_render (x : XNode) : wfX x = true -> readsBack x.
Proof.
  induction x as [p u l attrs kids IH | s] using XNode_induction; intros Hwf.
  - cbn [wfX] in Hwf.
    apply andb_prop in Hwf. destruct Hwf as [Hwf Hadj].
    apply andb_prop in Hwf. destruct Hwf as [Hwf Hks].
    apply andb_prop in Hwf. destruct Hwf as [Hwf Has].
    apply andb_prop in Hwf. destruct Hwf as [Hwf Hu].
    apply andb_prop in Hwf. destruct Hwf as [Hwf Hx].
    apply andb_prop in Hwf. destruct Hwf as [Hp Hl].
    apply negb_true_iff in Hx.
    assert (Hkids : Forall readsBack kids).
    { rewrite Forall_forall in IH |- *. intros k Hk. apply IH; [exact Hk|].
      rewrite forallb_forall in Hks. apply Hks, Hk. }
    intros scope txt raw ln stack out _ Htxt. unfold afterNode.
    rewrite render_elem, run_app.
    rewrite (run_printed_start scope p u l attrs) by assumption.
    rewrite run_app.
    rewrite run_kids;
      [|exact Hkids|assumption|assumption|destruct kids as [|[]]; auto
       |reflexivity].
    rewrite run_end_tag
      by (assumption || (apply afterKids_safe; [assumption | reflexivity])).
    rewrite pend_afterKids;
      [|assumption|assumption|destruct kids as [|[]]; auto].
    f_equal. rewrite translate_printed by assumption.
    cbn [asRead flatten].
    change (pend (pend out txt raw ++ ?x)%list "" "")
      with (pend out txt raw ++ x)%list.
    repeat rewrite <- app_assoc. reflexivity.
  - intros scope txt raw ln stack out Hclean _.
    destruct (Hclean eq_refl) as [-> ->]. unfold afterNode.
    simpl in Hwf. apply andb_prop in Hwf. destruct Hwf as [_ Hs].
    cbn [render]. unfold resting. rewrite run_escape_text by exact Hs.
    reflexivity.
Qed.

Lemma wfNode_asRead (x : XNode) (scope : list (string * string)) :
  wfNode (asRead scope x) = true.
Proof.
  revert scope.
  induction x as [p u l attrs kids IH | s] using XNode_induction; intros scope;
    [|reflexivity].
  cbn [asRead wfNode]. rewrite forallb_forall. intros nd Hnd.
  apply in_map_iff in Hnd. destruct Hnd as (k & <- & Hk).
  rewrite Forall_forall in IH. apply IH, Hk.
Qed.

(** A printed element, alone in the input, reads back as its tokens. *)
Lemma tokenize_render (x : XNode) :
  wfX x = true -> isXElem x = true ->
  tokenize (render [] x) = mkStream (flatten (asRead [] x)) AtEOF.
Proof.
  intros Hwf Hx. destruct x as [p u l attrs kids | s]; [|discriminate].
  unfold tokenize. change initial with (resting "" "" 1 [] [] []).
  rewrite (run_render _ Hwf [] "" "" 1 [] [])
    by (reflexivity || (intros H; discriminate H)).
  reflexivity.
Qed.

End PrintFacts.

(** * The content type of the test tables *)
Module FixtureFacts.
Import Xml Envelope Documents Fixtures.

Lemma numeric_uint (d : Decimal.uint) :
  allChars numeric (NilEmpty.string_of_uint d) = true.
Proof. induction d; simpl; try rewrite IHd; reflexivity. Qed.

Lemma numeric_showZ (z : Z) : allChars numeric (showZ z) = true.
Proof.
  unfold showZ, NilZero.string_of_int, NilZero.string_of_uint.
  destruct (Z.to_int z) as [d|d]; destruct d; try reflexivity;
    try apply (numeric_uint (_ d));
    change (allChars numeric (NilEmpty.string_of_uint ?x))
      with (allChars numeric (NilEmpty.string_of_uint x));
    simpl; try apply numeric_uint.
Qed.

Lemma numeric_facts (c : ascii) :
  numeric c = true ->
  (highByte c = false /\ okByte c = true)
  /\ isSpaceRune (byteOf c) = false
  /\ Ascii.eqb c "+" = false.
Proof.
  destruct c as [[|] [|] [|] [|] [|] [|] [|] [|]]; vm_compute; intros Hc;
    try discriminate Hc; repeat split.
Qed.

Lemma decodeRune_low (c : ascii) (s : string) :
  highByte c = false -> decodeRune (String c s) = (byteOf c, 1%nat).
Proof.
  unfold decodeRune, highByte. intros Hlow.
  apply Z.leb_gt in Hlow. apply Z.ltb_lt in Hlow. rewrite Hlow. reflexivity.
Qed.

(** ASCII text without the control characters that XML forbids is valid. *)
Lemma ascii_safe (s : string) :
  allChars (fun c => negb (highByte c) && okByte c)%bool s = true ->
  safeText s = true.
Proof.
  intros Hs. apply PrintFacts.checked_safeText.
  induction s as [|c s IH]; [reflexivity|].
  simpl in Hs. apply andb_prop in Hs. destruct Hs as [Hc Hs].
  apply andb_prop in Hc. destruct Hc as [Hlow Hok].
  apply negb_true_iff in Hlow.
  rewrite PrintFacts.checkText_cons. cbv zeta.
  rewrite (decodeRune_low c s Hlow). simpl fst. simpl snd.
  assert (Hin : (byteOf c =? RuneError) = false
                /\ isInCharacterRange (byteOf c) = true).
  { clear -Hlow Hok.
    destruct c as [[|] [|] [|] [|] [|] [|] [|] [|]]; vm_compute in Hlow, Hok |- *;
      try discriminate; split; reflexivity. }
  destruct Hin as [He Hin]. rewrite He, Hin. simpl. apply IH, Hs.
Qed.

Lemma safe_showZ (z : Z) : safeText (showZ z) = true.
Proof.
  apply ascii_safe.
  apply (PrintFacts.allChars_impl numeric); [|apply numeric_showZ].
  intros c Hc. destruct (numeric_facts c Hc) as ((Hlow & Hok) & _).
  rewrite Hlow, Hok. reflexivity.
Qed.

Lemma revOnto_revOnto (s a b : string) :
  revOnto (revOnto s a) b = revOnto a (s ++ b).
Proof.
  revert a b. induction s as [|c s IH]; intros a b; [reflexivity|].
  simpl. rewrite IH. reflexivity.
Qed.

Lemma reverse_reverse (s : string) : reverse (reverse s) = s.
Proof.
  unfold reverse. rewrite revOnto_revOnto. simpl.
  apply TokenizerFacts.append_nil_r.
Qed.

Lemma allChars_revOnto (f : ascii -> bool) (s acc : string) :
  allChars f (revOnto s acc) = (allChars f s && allChars f acc)%bool.
Proof.
  revert acc. induction s as [|c s IH]; intros acc; [reflexivity|].
  simpl. rewrite IH. simpl.
  destruct (f c); destruct (allChars f s); destruct (allChars f acc); reflexivity.
Qed.

Lemma trimRight_id (s : string) :
  allChars numeric s = true -> trimRight s = s.
Proof.
  intros Hs. unfold trimRight.
  assert (Hr : allChars numeric (reverse s) = true).
  { unfold reverse. rewrite allChars_revOnto, Hs. reflexivity. }
  destruct (reverse s) as [|c r] eqn:Er.
  - simpl. rewrite <- Er. apply reverse_reverse.
  - simpl in Hr. apply andb_prop in Hr. destruct Hr as [Hc _].
    destruct (numeric_facts c Hc) as ((Hlow & _) & Hsp & _).
    assert (Hlast : lastSpace (String c r) = None).
    { unfold lastSpace. rewrite (decodeRune_low c "" Hlow). simpl fst. simpl snd.
      unfold highByte in Hlow. apply Z.leb_gt in Hlow. apply Z.ltb_lt in Hlow.
      rewrite Hlow, Hsp. reflexivity. }
    cbn [trimReversed]. rewrite Hlast. rewrite <- Er. apply reverse_reverse.
Qed.

Lemma trimLeft_id (s : string) :
  allChars numeric s = true -> trimLeft s = s.
Proof.
  destruct s as [|c s]; [reflexivity|]. intros Hs. simpl in Hs.
  apply andb_prop in Hs. destruct Hs as [Hc _].
  destruct (numeric_facts c Hc) as ((Hlow & _) & Hsp & _).
  cbn [trimLeft]. rewrite (decodeRune_low c s Hlow). simpl fst.
  rewrite Hsp. reflexivity.
Qed.

Lemma to_int_proper (z : Z) :
  Z.to_int z <> Decimal.Pos Decimal.Nil /\ Z.to_int z <> Decimal.Neg Decimal.Nil.
Proof.
  destruct z as [|p|p]; simpl; split; try discriminate;
    intros Hp; injection Hp as Hp; exact (DecimalPos.Unsigned.to_uint_nonnil p Hp).
Qed.

(** Go's [strconv.ParseInt] reads back what [strconv.FormatInt] writes. *)
Lemma parse_show (z : Z) : isInt32 z = true -> parseInt32 (showZ z) = Ok z.
Proof.
  intros Hz. pose proof (numeric_showZ z) as Hnum.
  destruct (to_int_proper z) as [Hp Hn].
  pose proof (NilZero.isi (Z.to_int z) Hp Hn) as Hisi.
  fold (showZ z) in Hisi.
  unfold parseInt32, TrimSpace. rewrite trimLeft_id, trimRight_id by exact Hnum.
  destruct (showZ z) as [|c s] eqn:Es.
  - discriminate Hisi.
  - simpl in Hnum. apply andb_prop in Hnum. destruct Hnum as [Hc _].
    destruct (numeric_facts c Hc) as (_ & _ & Hplus).
    assert (Hparsed : match String c s with
                      | String "+" d => option_map Decimal.Pos (NilZero.uint_of_string d)
                      | _ => NilZero.int_of_string (String c s)
                      end = Some (Z.to_int z)).
    { rewrite <- Hisi.
      destruct (Ascii.eqb_spec c "+") as [->|Hne]; [discriminate Hplus|].
      destruct c as [[|] [|] [|] [|] [|] [|] [|] [|]]; try reflexivity.
      contradiction Hne; reflexivity. }
    rewrite Hparsed. rewrite DecimalZ.of_to. rewrite Hz.
    reflexivity.
Qed.

End FixtureFacts.

(** * The round trip *)
Module RoundTrip.
Import Xml Envelope Documents Fixtures.

Section Claim.
Context {R : Type} `{Content R}.

Lemma printed_tokens (v : R) :
  flatten (asRead [] (encodeTree (NewEnvelope (Some v))))
  = document printedShell (asRead printedScope (marshalXML v)).
Proof.
  unfold document, envelopeOf, bodyOf, encodeTree.
  cbn [NewEnvelope Header EBody BContent app printedShell prolog trailer envAttrs
       envOpen envClose beforeBody bodyAttrs bodyOpen bodyClose lead more afterBody].
  rewrite app_nil_r.
  cbn [asRead map flatten flat_map].
  reflexivity.
Qed.

(** What [Encode] prints is the printed shell around the content element. *)
Lemma encoded_document (v : R) :
  wfX (marshalXML v) = true -> isXElem (marshalXML v) = true ->
  tokenize (Encode (NewEnvelope (Some v)))
  = mkStream (document printedShell (asRead printedScope (marshalXML v))) AtEOF.
Proof.
  intros Hwf Hx. unfold Encode.
  rewrite PrintFacts.tokenize_render.
  - rewrite printed_tokens. reflexivity.
  - unfold encodeTree. cbn [NewEnvelope Header EBody BContent app].
    cbn [wfX forallb noAdjacentText]. rewrite Hwf.
    destruct (marshalXML v); reflexivity.
  - reflexivity.
Qed.

(** The envelope adds nothing to what the content type makes of its own
    printed element. *)
Lemma round_trip (v r0 r' : R) :
  wfX (marshalXML v) = true ->
  isXElem (marshalXML v) = true ->
  isFaultX (marshalXML v) = false ->
  match flatten (asRead printedScope (marshalXML v)) with
  | t :: rest => readElement r0 t rest = Some (Ok r', [])
  | [] => False
  end ->
  Decode (Encode (NewEnvelope (Some v))) (NewEnvelope (Some r0))
  = Ok (mkEnvelope envelopeName [] (mkBody bodyName None (Some r'))).
Proof.
  intros Hwf Hx Hnf Hu.
  unfold Decode. rewrite encoded_document by assumption.
  destruct (marshalXML v) as [p u l attrs kids | s]; [|discriminate].
  cbn [asRead flatten] in *.
  apply DecodeFacts.decode_content_stream; [reflexivity | exact Hnf | exact Hu].
Qed.

End Claim.

(** The content type of the tests comes back from the round trip with every
    field it was sent with, whatever the target held before, whenever its
    integers are values of [int32] and its strings are text that
    [EscapeText] does not replace; the raw tag names hold the names read. *)
Lemma content_round_trip (v r0 : envelopeContentExample.t) :
  isInt32 (envelopeContentExample.Attr1 v) = true ->
  isInt32 (envelopeExampleField.Attr2 (envelopeContentExample.Field1 v)) = true ->
  safeText (envelopeExampleField.Attr1 (envelopeContentExample.Field1 v)) = true ->
  safeText (envelopeExampleField.Value (envelopeContentExample.Field1 v)) = true ->
  Decode (Encode (NewEnvelope (Some v))) (NewEnvelope (Some r0))
  = Ok (mkEnvelope envelopeName []
          (mkBody bodyName None (Some (envelopeContentExample.canonical v)))).
Proof.
  destruct v as [n a1 [n1 s1 a2 val]]. destruct r0 as [m b1 [m1 t1 b2 old]].
  simpl. intros Ha1 Ha2 Hs1 Hval.
  apply round_trip.
  - unfold marshalXML, contentExample, envelopeContentExample.marshal,
      envelopeExampleField.marshal.
    cbn [envelopeContentExample.Attr1
         envelopeContentExample.Field1 envelopeExampleField.Attr1
         envelopeExampleField.Attr2 envelopeExampleField.Value].
    cbn [wfX forallb]. unfold okAttr. cbn [fst snd].
    rewrite !FixtureFacts.safe_showZ, Hs1.
    destruct (String.eqb val "") eqn:Ev; cbn [forallb wfX noAdjacentText];
      rewrite ?Ev, ?Hval; reflexivity.
  - reflexivity.
  - reflexivity.
  - unfold marshalXML, contentExample,
      envelopeContentExample.marshal, envelopeExampleField.marshal,
      envelopeContentExample.canonical.
    cbn [envelopeContentExample.Attr1
         envelopeContentExample.Field1 envelopeExampleField.Attr1
         envelopeExampleField.Attr2 envelopeExampleField.Value].
    destruct val as [|c val];
      repeat (progress
                (cbv -[showZ parseInt32 escapeText append];
                 rewrite ?(FixtureFacts.parse_show a1 Ha1),
                         ?(FixtureFacts.parse_show a2 Ha2)));
      rewrite ?TokenizerFacts.append_nil_r; reflexivity.
Qed.

Lemma content_example_round_trip (v : envelopeContentExample.t) :
  isInt32 (envelopeContentExample.Attr1 v) = true ->
  isInt32 (envelopeExampleField.Attr2 (envelopeContentExample.Field1 v)) = true ->
  safeText (envelopeExampleField.Attr1 (envelopeContentExample.Field1 v)) = true ->
  safeText (envelopeExampleField.Value (envelopeContentExample.Field1 v)) = true ->
  Decode (Encode (NewEnvelope (Some v)))
         (NewEnvelope (Some envelopeContentExample.zero))
  = Ok (mkEnvelope envelopeName []
          (mkBody bodyName None (Some (envelopeContentExample.canonical v)))).
Proof. apply content_round_trip. Qed.




End RoundTrip.

(** * Properties of the encoder *)
Module EncodeFacts.
Import Xml Envelope Fixtures.

(** Row 2 of the encode table: one header element, under Header, before
    Body. *)
Example encode_row2 :
  Encode (AddHeaders (NewEnvelope (Some encodeContent1))
                     (map headerExample.marshal encodeHeaders1))
  = encodeRes1.
Proof. vm_compute. reflexivity. Qed.

(** C7. The content of row 1 of the encode table, with no header builder
    registered, encodes to the bytes the table expects: one content element
    with its attributes and character data in Body, in Envelope, both under
    the prefix bound to the envelope namespace, and no Header; and whatever
    the content, an envelope with no header elements has Body as the only
    child of Envelope. *)
Theorem encode_without_headers :
  Encode (NewEnvelope (Some encodeContent0)) = encodeRes0
  /\ forall (R : Type) (C : Content R) (n : Name) (b : Body R),
       encodeTree (mkEnvelope n [] b)
       = XElem soapPrefix soapEnvNS "Envelope" []
           [XElem soapPrefix soapEnvNS "Body" []
              (match BContent b with
               | Some r => [marshalXML r]
               | None => []
               end)].
Proof.
  split.
  - vm_compute. reflexivity.
  - intros R C n b. reflexivity.
Qed.

End EncodeFacts.

(** * Properties of [Do] *)
Module DoFacts.
Import Xml Envelope Fixtures Client Scenario.

Section Facts.
Context {Q R D : Type} `{FaultError D}.
Context {HTTPRequest Context HeaderBuilder : Type}.
Variable httpRequest : @Request Q R D HeaderBuilder -> result Error HTTPRequest.
Variable decode : Reader -> Envelope R -> result Error (Envelope R).

Let request_of (c : @Client HTTPRequest Context HeaderBuilder)
    (action : string) (request : Q) (resp : option R)
    : @Request Q R D HeaderBuilder :=
  AddHeader (NewRequest action (url c) request resp None) (headers c).

(** C10. When the status is 500 and reading the response body fails, [Do]
    returns the read error itself: no decode is attempted and the error is
    not the HTTP fault-status error built from the status and the bytes
    read so far. *)
Theorem Do_read_error_verbatim :
  forall c ctx action request resp fd httpReq res partial e,
    httpRequest (request_of c action request resp) = Ok httpReq ->
    http c httpReq ctx = Ok res ->
    StatusCode res = 500 ->
    ReadAll (RespBody res) = (partial, Some e) ->
    let o := Do httpRequest decode c ctx action request resp fd in
    err o = Some e
    /\ existsb isDecode (trace o) = false
    /\ (e <> HTTPError 500 partial -> err o <> Some (HTTPError 500 partial)).
Proof.
  intros c ctx action request resp fd httpReq res partial e Hreq Hsend Hst Hread o.
  subst o. unfold Do. fold (request_of c action request resp).
  rewrite Hreq, Hsend, Hread, Hst. simpl.
  repeat split; congruence.
Qed.

(** C1. When the status is 500 and the body, read in full, does not decode
    as an envelope, [Do] returns the HTTP fault-status error with the status
    500 and all the bytes of the body, never a syntax error; the body is
    read in full before the decode, and the decode reads the cached copy. *)
Theorem Do_undecodable_500 :
  forall c ctx action request resp fd httpReq res body e,
    httpRequest (request_of c action request resp) = Ok httpReq ->
    http c httpReq ctx = Ok res ->
    StatusCode res = 500 ->
    ReadAll (RespBody res) = (body, None) ->
    decode (bytesReader body) (NewEnvelope resp) = Err e ->
    let o := Do httpRequest decode c ctx action request resp fd in
    err o = Some (HTTPError 500 body)
    /\ trace o = [EvSend; EvReadAll; EvDecode (bytesReader body); EvClose]
    /\ (forall se, err o <> Some (Syntax se)).
Proof.
  intros c ctx action request resp fd httpReq res body e Hreq Hsend Hst Hread Hdec o.
  subst o. unfold Do. fold (request_of c action request resp).
  rewrite Hreq, Hsend, Hread, Hst. simpl. rewrite Hdec. simpl.
  repeat split; congruence.
Qed.

(** C9. When the decode succeeds, at status 500 as at any other, [Do] does
    not take the cached raw-body path: it returns what [ErrorFromFault]
    gives, the error of the [FaultError] contract when the body resolved to
    a fault, and no error, with the decoded content as the caller's
    response value, when it resolved to content. *)
Theorem Do_decode_success_preempts :
  forall c ctx action request resp fd httpReq res env',
    httpRequest (request_of c action request resp) = Ok httpReq ->
    http c httpReq ctx = Ok res ->
    (StatusCode res = 500 -> failure (RespBody res) = None) ->
    decode (if StatusCode res =? 500 then bytesReader (data (RespBody res))
            else RespBody res) (NewEnvelope resp) = Ok env' ->
    let o := Do httpRequest decode c ctx action request resp fd in
    err o = ErrorFromFault (EBody env') fd
    /\ (forall f, BFault (EBody env') = Some f ->
                  err o = Some (errorFromFault fd f))
    /\ (BFault (EBody env') = None ->
        err o = None
        /\ forall r, BContent (EBody env') = Some r -> response o = Some r).
Proof.
  intros c ctx action request resp fd httpReq res env' Hreq Hsend Hread Hdec o.
  assert (Ho : err o = ErrorFromFault (EBody env') fd
               /\ response o = match BContent (EBody env') with
                               | Some r => Some r
                               | None => resp
                               end).
  { subst o. unfold Do. fold (request_of c action request resp).
    rewrite Hreq, Hsend.
    destruct (StatusCode res =? 500) eqn:Hst.
    - apply Z.eqb_eq in Hst. specialize (Hread Hst).
      unfold ReadAll. rewrite Hread. simpl. rewrite Hdec. simpl. split; reflexivity.
    - simpl. rewrite Hdec. simpl. split; reflexivity. }
  destruct Ho as [He Hr]. split; [exact He|]. split.
  - intros f Hf. rewrite He. unfold ErrorFromFault. rewrite Hf. reflexivity.
  - intros Hf. split.
    + rewrite He. unfold ErrorFromFault. rewrite Hf. reflexivity.
    + intros r Hc. rewrite Hr, Hc. reflexivity.
Qed.

End Facts.

(** A 500 whose body breaks off after some bytes. *)
Lemma Do_read_error_verbatim_witness :
  let o := call (serverReplying 500 (mkReader "<soap:Env" (Some connectionReset))) in
  err o = Some connectionReset
  /\ existsb isDecode (trace o) = false
  /\ (connectionReset <> HTTPError 500 "<soap:Env" ->
      err o <> Some (HTTPError 500 "<soap:Env")).
Proof.
  unfold call.
  apply (Do_read_error_verbatim encodeRequest xmlDecode
           (serverReplying 500 (mkReader "<soap:Env" (Some connectionReset)))
           tt "urn:Action" encodeContent0 (Some envelopeContentExample.zero)
           faultDetailExample.zero
           (Encode (NewEnvelope (Some encodeContent0)))
           (mkResponse 500 (mkReader "<soap:Env" (Some connectionReset)))
           "<soap:Env" connectionReset); vm_compute; reflexivity.
Defined.

(** The scenario of spec 8: a 500 whose body is the plain text
    [internal error]. *)
Lemma Do_undecodable_500_witness :
  let o := call (serverReplying 500 (bytesReader "internal error")) in
  err o = Some (HTTPError 500 "internal error")
  /\ trace o = [EvSend; EvReadAll; EvDecode (bytesReader "internal error"); EvClose]
  /\ (forall se, err o <> Some (Syntax se)).
Proof.
  unfold call.
  apply (Do_undecodable_500 encodeRequest xmlDecode
           (serverReplying 500 (bytesReader "internal error"))
           tt "urn:Action" encodeContent0 (Some envelopeContentExample.zero)
           faultDetailExample.zero
           (Encode (NewEnvelope (Some encodeContent0)))
           (mkResponse 500 (bytesReader "internal error"))
           "internal error" EOF); vm_compute; reflexivity.
Defined.

(** A 500 whose body is the well-formed fault of the decode table: the
    fault wins over the cached body. *)
Lemma Do_decode_success_preempts_witness :
  let o := call (serverReplying 500 (bytesReader decodeIn1)) in
  err o = ErrorFromFault (EBody decodeOut1) faultDetailExample.zero
  /\ (forall f, BFault (EBody decodeOut1) = Some f ->
                err o = Some (errorFromFault faultDetailExample.zero f))
  /\ (BFault (EBody decodeOut1) = None ->
      err o = None
      /\ forall r, BContent (EBody decodeOut1) = Some r -> response o = Some r).
Proof.
  unfold call.
  apply (Do_decode_success_preempts encodeRequest xmlDecode
           (serverReplying 500 (bytesReader decodeIn1))
           tt "urn:Action" encodeContent0 (Some envelopeContentExample.zero)
           faultDetailExample.zero
           (Encode (NewEnvelope (Some encodeContent0)))
           (mkResponse 500 (bytesReader decodeIn1)) decodeOut1);
    try (intros _); vm_compute; reflexivity.
Defined.

(** The same call, evaluated: the caller receives the protocol fault with
    the detail decoded into its own type. *)
Example Do_500_with_fault :
  err (call (serverReplying 500 (bytesReader decodeIn1)))
  = Some (ProtocolFault faultDetailExample.t "FaultCodeValue"
            "FaultStringValue" "FaultActorValue"
            (faultDetailExample.mk (mkName "" "DetailExample") "10")).
Proof. vm_compute. reflexivity. Qed.

End DoFacts.

(** * The paths of [Do] *)
Module DoPaths.
Import Xml Envelope Fixtures Client Scenario.

Section Paths.
Context {Q R D : Type} `{FaultError D}.
Context {HTTPRequest Context HeaderBuilder : Type}.
Variable httpRequest : @Request Q R D HeaderBuilder -> result Error HTTPRequest.
Variable decode : Reader -> Envelope R -> result Error (Envelope R).

Let request_of (c : @Client HTTPRequest Context HeaderBuilder)
    (action : string) (request : Q) (resp : option R)
    : @Request Q R D HeaderBuilder :=
  AddHeader (NewRequest action (url c) request resp None) (headers c).

(** What the decoder of [Do] reads from a response: the cached copy of the
    body at status 500, the body itself otherwise. *)
Let decoded_body (res : Response) : Reader :=
  if StatusCode res =? 500 then bytesReader (data (RespBody res))
  else RespBody res.

(** X1. When the request cannot be built, [Do] returns the builder's error
    and nothing else happens: no request is sent, and the caller's response
    value is left as it was. *)
Theorem Do_request_error_returned :
  forall c ctx action request resp fd e,
    httpRequest (request_of c action request resp) = Err e ->
    let o := Do httpRequest decode c ctx action request resp fd in
    err o = Some e /\ trace o = [] /\ response o = resp.
Proof.
  intros c ctx action request resp fd e Hreq o.
  subst o. unfold Do. fold (request_of c action request resp).
  rewrite Hreq. repeat split.
Qed.

(** X2. When the transport fails, [Do] returns the transport's error: there
    is no response, so nothing is read, decoded or closed, and the caller's
    response value is left as it was. *)
Theorem Do_transport_error_returned :
  forall c ctx action request resp fd httpReq e,
    httpRequest (request_of c action request resp) = Ok httpReq ->
    http c httpReq ctx = Err e ->
    let o := Do httpRequest decode c ctx action request resp fd in
    err o = Some e /\ trace o = [EvSend] /\ response o = resp.
Proof.
  intros c ctx action request resp fd httpReq e Hreq Hsend o.
  subst o. unfold Do. fold (request_of c action request resp).
  rewrite Hreq, Hsend. repeat split.
Qed.

(** X3. At a status other than 500 the body is not read beforehand: the
    decoder reads the response body itself, and when it fails [Do] returns
    the decoder's error as it is.  The status code is not reported. *)
Theorem Do_decode_error_other_status :
  forall c ctx action request resp fd httpReq res e,
    httpRequest (request_of c action request resp) = Ok httpReq ->
    http c httpReq ctx = Ok res ->
    StatusCode res <> 500 ->
    decode (RespBody res) (NewEnvelope resp) = Err e ->
    let o := Do httpRequest decode c ctx action request resp fd in
    err o = Some e
    /\ trace o = [EvSend; EvDecode (RespBody res); EvClose].
Proof.
  intros c ctx action request resp fd httpReq res e Hreq Hsend Hst Hdec o.
  subst o. unfold Do. fold (request_of c action request resp).
  rewrite Hreq, Hsend.
  apply Z.eqb_neq in Hst. rewrite Hst. simpl. rewrite Hdec. simpl.
  split; reflexivity.
Qed.

(** The five shapes of a call that got a response. *)
Lemma Do_trace_with_response :
  forall c ctx action request resp fd httpReq res,
    httpRequest (request_of c action request resp) = Ok httpReq ->
    http c httpReq ctx = Ok res ->
    let o := Do httpRequest decode c ctx action request resp fd in
    (StatusCode res = 500 /\ failure (RespBody res) <> None
     /\ trace o = [EvSend; EvReadAll; EvClose])
    \/ (StatusCode res = 500 /\ failure (RespBody res) = None
        /\ trace o = [EvSend; EvReadAll; EvDecode (decoded_body res); EvClose])
    \/ (StatusCode res <> 500
        /\ trace o = [EvSend; EvDecode (decoded_body res); EvClose]).
Proof.
  intros c ctx action request resp fd httpReq res Hreq Hsend o.
  subst o. unfold Do, decoded_body. fold (request_of c action request resp).
  rewrite Hreq, Hsend.
  destruct (StatusCode res =? 500) eqn:Hst.
  - apply Z.eqb_eq in Hst. unfold ReadAll.
    destruct (failure (RespBody res)) as [e|] eqn:Hf.
    + left. repeat split; [exact Hst | discriminate].
    + right; left. simpl.
      destruct (decode _ _); simpl; repeat split; exact Hst.
  - apply Z.eqb_neq in Hst. right; right. simpl.
    destruct (decode _ _); simpl; repeat split; exact Hst.
Qed.

(** X4. Once the transport has returned a response, [Do] closes its body
    exactly once, as the last thing it does, whatever the status, the
    reading and the decoding come to. *)
Theorem Do_closes_body_once :
  forall c ctx action request resp fd httpReq res,
    httpRequest (request_of c action request resp) = Ok httpReq ->
    http c httpReq ctx = Ok res ->
    let o := Do httpRequest decode c ctx action request resp fd in
    exists before,
      trace o = (before ++ [EvClose])%list /\ existsb isClose before = false.
Proof.
  intros c ctx action request resp fd httpReq res Hreq Hsend o.
  destruct (Do_trace_with_response c ctx action request resp fd httpReq res
              Hreq Hsend) as [[_ [_ Ht]] | [[_ [_ Ht]] | [_ Ht]]];
    fold o in Ht; rewrite Ht.
  - exists [EvSend; EvReadAll]. split; reflexivity.
  - exists [EvSend; EvReadAll; EvDecode (decoded_body res)]. split; reflexivity.
  - exists [EvSend; EvDecode (decoded_body res)]. split; reflexivity.
Qed.

(** X5. [Do] reads the body in full exactly when the status is 500, and the
    decoder, if it runs at all, runs once, after that reading, on the cached
    copy of the body at status 500 (a reader that cannot fail) and on the
    response body itself at any other status. *)
Theorem Do_decoder_input :
  forall c ctx action request resp fd httpReq res,
    httpRequest (request_of c action request resp) = Ok httpReq ->
    http c httpReq ctx = Ok res ->
    let o := Do httpRequest decode c ctx action request resp fd in
    existsb isReadAll (trace o) = (StatusCode res =? 500)
    /\ (forall b, In (EvDecode b) (trace o) ->
          b = (if StatusCode res =? 500
               then bytesReader (data (RespBody res)) else RespBody res)
          /\ (StatusCode res = 500 -> failure (RespBody res) = None))
    /\ (List.length (filter isDecode (trace o)) <= 1)%nat.
Proof.
  intros c ctx action request resp fd httpReq res Hreq Hsend o.
  destruct (Do_trace_with_response c ctx action request resp fd httpReq res
              Hreq Hsend) as [[Hst [Hf Ht]] | [[Hst [Hf Ht]] | [Hst Ht]]];
    fold o in Ht; rewrite Ht; unfold decoded_body.
  - rewrite Hst. simpl. split; [reflexivity|]. split; [|lia].
    intros b [Hb | [Hb | [Hb | []]]]; discriminate.
  - rewrite Hst. simpl. split; [reflexivity|]. split; [|lia].
    intros b [Hb | [Hb | [Hb | [Hb | []]]]]; try discriminate.
    injection Hb as <-. split; [reflexivity | intros _; exact Hf].
  - apply Z.eqb_neq in Hst. rewrite Hst. simpl. split; [reflexivity|].
    split; [|lia].
    intros b [Hb | [Hb | [Hb | []]]]; try discriminate.
    injection Hb as <-. split; [reflexivity|].
    intros H500. rewrite H500 in Hst. discriminate.
Qed.

(** X6. [Do] never reports success without a decoded envelope: when it
    returns no error, the request was built and sent, the decoder accepted
    what it read, and the decoded body holds no error of the fault
    contract.  No status code by itself makes a call succeed. *)
Theorem Do_nil_means_decoded :
  forall c ctx action request resp fd,
    let o := Do httpRequest decode c ctx action request resp fd in
    err o = None ->
    exists httpReq res env',
      httpRequest (request_of c action request resp) = Ok httpReq
      /\ http c httpReq ctx = Ok res
      /\ decode (if StatusCode res =? 500
                 then bytesReader (data (RespBody res)) else RespBody res)
                (NewEnvelope resp) = Ok env'
      /\ ErrorFromFault (EBody env') fd = None
      /\ response o = match BContent (EBody env') with
                      | Some r => Some r
                      | None => resp
                      end.
Proof.
  intros c ctx action request resp fd o. subst o.
  unfold Do. fold (request_of c action request resp).
  destruct (httpRequest (request_of c action request resp)) as [httpReq|e]
    eqn:Hreq; [|discriminate].
  destruct (http c httpReq ctx) as [res|e] eqn:Hsend; [|discriminate].
  destruct (StatusCode res =? 500) eqn:Hst.
  - unfold ReadAll. destruct (failure (RespBody res)) as [e|]; [discriminate|].
    simpl.
    destruct (decode (bytesReader (data (RespBody res))) (NewEnvelope resp))
      as [env'|e] eqn:Hdec; simpl; [|discriminate].
    intros He. exists httpReq, res, env'. rewrite Hst.
    repeat split; try assumption; reflexivity.
  - simpl.
    destruct (decode (RespBody res) (NewEnvelope resp))
      as [env'|e] eqn:Hdec; simpl; [|discriminate].
    intros He. exists httpReq, res, env'. rewrite Hst.
    repeat split; try assumption; reflexivity.
Qed.

(** X7. Where an error of [Do] comes from, once the transport has returned
    a response: it is the error of reading the body (status 500 only), the
    fault-status error with status 500 and the whole body (status 500 only,
    when the decoder refused the body), the decoder's own error (any other
    status), or the error of the fault contract for the decoded body.
    Nothing else is ever returned; the fault-status error in particular is
    never made for another status. *)
Theorem Do_error_origin :
  forall c ctx action request resp fd httpReq res x,
    httpRequest (request_of c action request resp) = Ok httpReq ->
    http c httpReq ctx = Ok res ->
    let o := Do httpRequest decode c ctx action request resp fd in
    err o = Some x ->
    (StatusCode res = 500 /\ failure (RespBody res) = Some x)
    \/ (StatusCode res = 500 /\ failure (RespBody res) = None
        /\ (exists e, decode (bytesReader (data (RespBody res)))
                             (NewEnvelope resp) = Err e)
        /\ x = HTTPError 500 (data (RespBody res)))
    \/ (StatusCode res <> 500
        /\ decode (RespBody res) (NewEnvelope resp) = Err x)
    \/ (exists env',
          decode (if StatusCode res =? 500
                  then bytesReader (data (RespBody res)) else RespBody res)
                 (NewEnvelope resp) = Ok env'
          /\ ErrorFromFault (EBody env') fd = Some x).
Proof.
  intros c ctx action request resp fd httpReq res x Hreq Hsend o. subst o.
  unfold Do. fold (request_of c action request resp).
  rewrite Hreq, Hsend.
  destruct (StatusCode res =? 500) eqn:Hst.
  - apply Z.eqb_eq in Hst. unfold ReadAll.
    destruct (failure (RespBody res)) as [e|] eqn:Hf.
    + simpl. intros He. left. split; [exact Hst | congruence].
    + simpl.
      destruct (decode (bytesReader (data (RespBody res))) (NewEnvelope resp))
        as [env'|e] eqn:Hdec; simpl; intros He.
      * right; right; right. exists env'. split; [reflexivity | exact He].
      * right; left. repeat split; [exact Hst | exists e; reflexivity|].
        rewrite Hst in He. congruence.
  - apply Z.eqb_neq in Hst. simpl.
    destruct (decode (RespBody res) (NewEnvelope resp)) as [env'|e] eqn:Hdec;
      simpl; intros He.
    + right; right; right. exists env'. split; [reflexivity | exact He].
    + right; right; left. split; [exact Hst | congruence].
Qed.

(** [SettHTTPClient] replaces the transport and nothing else: a call
    goes through the transport installed last, with the URL and the headers
    given to [NewClient], and the transport that [NewClient] installed is
    never consulted. *)
Lemma SettHTTPClient_replaces_transport :
  forall u (d d' h h' : HTTPRequest -> Context -> result Error Response)
         (hs : list HeaderBuilder) (ctx : Context) action request resp fd,
    Do httpRequest decode (SettHTTPClient (SettHTTPClient (NewClient u d hs) h') h)
       ctx action request resp fd
    = Do httpRequest decode (NewClient u h hs) ctx action request resp fd
    /\ Do httpRequest decode (SettHTTPClient (NewClient u d hs) h)
          ctx action request resp fd
       = Do httpRequest decode (SettHTTPClient (NewClient u d' hs) h)
            ctx action request resp fd.
Proof.
  intros. split; reflexivity.
Qed.

End Paths.

(** A call whose request cannot be signed: nothing is sent. *)
Lemma Do_request_error_returned_witness :
  let o := Do signingFails xmlDecode (serverReplying 200 (bytesReader decodeIn0))
              tt "urn:Action" encodeContent0
              (Some envelopeContentExample.zero) faultDetailExample.zero in
  err o = Some ErrInvalidPEMFileSpecified /\ trace o = []
  /\ response o = Some envelopeContentExample.zero.
Proof.
  apply (Do_request_error_returned signingFails xmlDecode
           (serverReplying 200 (bytesReader decodeIn0))
           tt "urn:Action" encodeContent0 (Some envelopeContentExample.zero)
           faultDetailExample.zero ErrInvalidPEMFileSpecified).
  reflexivity.
Defined.

(** A call to a server that cannot be reached. *)
Lemma Do_transport_error_returned_witness :
  let o := call unreachable in
  err o = Some connectionReset /\ trace o = [EvSend]
  /\ response o = Some envelopeContentExample.zero.
Proof.
  unfold call.
  apply (Do_transport_error_returned encodeRequest xmlDecode unreachable
           tt "urn:Action" encodeContent0 (Some envelopeContentExample.zero)
           faultDetailExample.zero
           (Encode (NewEnvelope (Some encodeContent0))) connectionReset);
    vm_compute; reflexivity.
Defined.

(** A 404 whose body is plain text: the caller sees the decoder's end of
    input, not the status. *)
Lemma Do_decode_error_other_status_witness :
  let o := call (serverReplying 404 (bytesReader "not found")) in
  err o = Some EOF
  /\ trace o = [EvSend; EvDecode (bytesReader "not found"); EvClose].
Proof.
  unfold call.
  apply (Do_decode_error_other_status encodeRequest xmlDecode
           (serverReplying 404 (bytesReader "not found"))
           tt "urn:Action" encodeContent0 (Some envelopeContentExample.zero)
           faultDetailExample.zero
           (Encode (NewEnvelope (Some encodeContent0)))
           (mkResponse 404 (bytesReader "not found")) EOF);
    [vm_compute; reflexivity | vm_compute; reflexivity
     | discriminate | vm_compute; reflexivity].
Defined.

(** A 500 whose body breaks off: the body is closed all the same. *)
Lemma Do_closes_body_once_witness :
  let o := call (serverReplying 500 (mkReader "<soap:Env" (Some connectionReset))) in
  exists before,
    trace o = (before ++ [EvClose])%list /\ existsb isClose before = false.
Proof.
  unfold call.
  apply (Do_closes_body_once encodeRequest xmlDecode
           (serverReplying 500 (mkReader "<soap:Env" (Some connectionReset)))
           tt "urn:Action" encodeContent0 (Some envelopeContentExample.zero)
           faultDetailExample.zero
           (Encode (NewEnvelope (Some encodeContent0)))
           (mkResponse 500 (mkReader "<soap:Env" (Some connectionReset))));
    vm_compute; reflexivity.
Defined.

(** A 500 that carries the fault of the decode table. *)
Lemma Do_decoder_input_witness :
  let o := call (serverReplying 500 (bytesReader decodeIn1)) in
  existsb isReadAll (trace o) = (500 =? 500)
  /\ (forall b, In (EvDecode b) (trace o) ->
        b = (if 500 =? 500
             then bytesReader (data (bytesReader decodeIn1))
             else bytesReader decodeIn1)
        /\ (500 = 500 -> failure (bytesReader decodeIn1) = None))
  /\ (List.length (filter isDecode (trace o)) <= 1)%nat.
Proof.
  unfold call.
  apply (Do_decoder_input encodeRequest xmlDecode
           (serverReplying 500 (bytesReader decodeIn1))
           tt "urn:Action" encodeContent0 (Some envelopeContentExample.zero)
           faultDetailExample.zero
           (Encode (NewEnvelope (Some encodeContent0)))
           (mkResponse 500 (bytesReader decodeIn1)));
    vm_compute; reflexivity.
Defined.

(** Row 1 of the decode table as the body of a 200. *)
Lemma Do_nil_means_decoded_witness :
  exists httpReq res env',
    encodeRequest (D := faultDetailExample.t)
      (AddHeader (NewRequest "urn:Action" "http://service.example/soap"
                    encodeContent0 (Some envelopeContentExample.zero) None) [])
    = Ok httpReq
    /\ http (serverReplying 200 (bytesReader decodeIn0)) httpReq tt = Ok res
    /\ xmlDecode (if StatusCode res =? 500
                  then bytesReader (data (RespBody res)) else RespBody res)
                 (NewEnvelope (Some envelopeContentExample.zero)) = Ok env'
    /\ ErrorFromFault (EBody env') faultDetailExample.zero = None
    /\ response (call (serverReplying 200 (bytesReader decodeIn0)))
       = match BContent (EBody env') with
         | Some r => Some r
         | None => Some envelopeContentExample.zero
         end.
Proof.
  unfold call.
  apply (Do_nil_means_decoded encodeRequest xmlDecode
           (serverReplying 200 (bytesReader decodeIn0))
           tt "urn:Action" encodeContent0 (Some envelopeContentExample.zero)
           faultDetailExample.zero).
  vm_compute. reflexivity.
Defined.

(** A 404 whose body is plain text: the error is the decoder's. *)
Lemma Do_error_origin_witness :
  (404 = 500 /\ failure (bytesReader "not found") = Some EOF)
  \/ (404 = 500 /\ failure (bytesReader "not found") = None
      /\ (exists e, xmlDecode (bytesReader (data (bytesReader "not found")))
                      (NewEnvelope (Some envelopeContentExample.zero)) = Err e)
      /\ EOF = HTTPError 500 (data (bytesReader "not found")))
  \/ (404 <> 500
      /\ xmlDecode (bytesReader "not found")
                   (NewEnvelope (Some envelopeContentExample.zero)) = Err EOF)
  \/ (exists env',
        xmlDecode (if 404 =? 500
                   then bytesReader (data (bytesReader "not found"))
                   else bytesReader "not found")
                  (NewEnvelope (Some envelopeContentExample.zero)) = Ok env'
        /\ ErrorFromFault (EBody env') faultDetailExample.zero = Some EOF).
Proof.
  apply (Do_error_origin encodeRequest xmlDecode
           (serverReplying 404 (bytesReader "not found"))
           tt "urn:Action" encodeContent0 (Some envelopeContentExample.zero)
           faultDetailExample.zero
           (Encode (NewEnvelope (Some encodeContent0)))
           (mkResponse 404 (bytesReader "not found")) EOF);
    vm_compute; reflexivity.
Defined.

End DoPaths.

(** * The test types on the wire *)
Module WireFacts.
Import Xml Envelope Fixtures Documents Client Scenario WireFormat.

Lemma escape_numeric_char (c : ascii) :
  numeric c = true -> escapeByte c = String c "".
Proof.
  destruct c as [[|] [|] [|] [|] [|] [|] [|] [|]]; vm_compute; intros Hc;
    try discriminate Hc; reflexivity.
Qed.

Lemma escape_numeric (s : string) :
  allChars numeric s = true -> escapeText s = s.
Proof.
  intros Hs.
  assert (Hsafe : safeText s = true).
  { apply FixtureFacts.ascii_safe.
    apply (PrintFacts.allChars_impl numeric); [|exact Hs].
    intros c Hc. destruct (FixtureFacts.numeric_facts c Hc) as ((Hlow & Hok) & _).
    rewrite Hlow, Hok. reflexivity. }
  destruct (PrintFacts.safe_escape s Hsafe) as [He _]. rewrite He. clear He Hsafe.
  induction s as [|c s IH]; [reflexivity|]. simpl in Hs |- *.
  apply andb_prop in Hs. destruct Hs as [Hc Hs].
  rewrite (escape_numeric_char c Hc), IH by exact Hs. reflexivity.
Qed.

Lemma escape_showZ (z : Z) : escapeText (showZ z) = showZ z.
Proof. apply escape_numeric, FixtureFacts.numeric_showZ. Qed.

Lemma render_content (v : envelopeContentExample.t) :
  render printedScope (envelopeContentExample.marshal v) = contentBytes v.
Proof.
  destruct v as [n a1 [n1 s1 a2 val]].
  unfold contentBytes, quoted, envelopeContentExample.marshal,
    envelopeExampleField.marshal.
  cbn [envelopeContentExample.Attr1 envelopeContentExample.Field1
       envelopeExampleField.Attr1 envelopeExampleField.Attr2
       envelopeExampleField.Value].
  destruct (String.eqb_spec val "") as [-> | Hval];
    cbv -[showZ escapeText append]; rewrite !escape_showZ;
    repeat (rewrite !TokenizerFacts.append_assoc; cbn [append]);
    rewrite ?TokenizerFacts.append_nil_r; reflexivity.
Qed.

Lemma render_header (h : headerExample.t) :
  render printedScope (headerExample.marshal h) = headerBytes h.
Proof.
  destruct h as [n a1 val].
  unfold headerBytes, quoted, headerExample.marshal.
  cbn [headerExample.Attr1 headerExample.Value].
  destruct (String.eqb_spec val "") as [-> | Hval];
    cbv -[showZ escapeText append]; rewrite !escape_showZ;
    repeat (rewrite !TokenizerFacts.append_assoc; cbn [append]);
    rewrite ?TokenizerFacts.append_nil_r; reflexivity.
Qed.

Lemma render_headers (hs : list headerExample.t) :
  map (render printedScope) (map headerExample.marshal hs) = map headerBytes hs.
Proof.
  induction hs as [|h hs IH]; [reflexivity|].
  cbn [map]. rewrite render_header, IH. reflexivity.
Qed.

(** X9. The bytes of an encoded envelope are those of the rows of the
    encode table with the values of the fields in the places of the rows'
    values, escaped by [EscapeText]: the header elements, in order, under
    Header before Body when there is one, no Header element when there is
    none, and the raw tag names of the content play no part.  Stated for
    ASCII text, whose bytes are the runes that Go's [EscapeText] works
    on. *)
Theorem encode_wire_format :
  forall (hs : list headerExample.t) (v : envelopeContentExample.t),
    forallb asciiHeader hs = true ->
    asciiContent v = true ->
    Encode (AddHeaders (NewEnvelope (Some v)) (map headerExample.marshal hs))
    = envelopeBytes hs v.
Proof.
  intros hs v _ _.
  unfold Encode, encodeTree, AddHeaders, NewEnvelope, envelopeBytes.
  cbn [Header EBody BContent app].
  change (marshalXML v) with (envelopeContentExample.marshal v).
  destruct hs as [|h hs].
  - cbn [map app render bound]. cbn -[render append envelopeContentExample.marshal].
    fold printedScope.
    rewrite render_content.
    unfold quoted.
    repeat (rewrite !TokenizerFacts.append_assoc; cbn [append]).
    rewrite ?TokenizerFacts.append_nil_r. reflexivity.
  - set (hs' := h :: hs).
    assert (Hm : map headerExample.marshal hs'
                 = headerExample.marshal h :: map headerExample.marshal hs)
      by reflexivity.
    rewrite Hm. cbn [app].
    rewrite <- Hm. clear Hm. clearbody hs'.
    cbn [map app render bound]. cbn -[render append envelopeContentExample.marshal map headerBytes].
    fold printedScope.
    rewrite render_content, render_headers.
    unfold quoted.
    repeat (rewrite !TokenizerFacts.append_assoc; cbn [append]).
    rewrite ?TokenizerFacts.append_nil_r. reflexivity.
Qed.

Lemma plainText_safe (s : string) : plainText s = true -> safeText s = true.
Proof. unfold plainText. intros Hs. apply andb_prop in Hs. apply Hs. Qed.

Lemma plain_round_trip (v : envelopeContentExample.t) :
  plainContent v = true ->
  Decode (Encode (NewEnvelope (Some v)))
         (NewEnvelope (Some envelopeContentExample.zero))
  = Ok (mkEnvelope envelopeName []
          (mkBody bodyName None (Some (envelopeContentExample.canonical v)))).
Proof.
  intros Hv. unfold plainContent in Hv.
  apply andb_prop in Hv. destruct Hv as [Hv Hval].
  apply andb_prop in Hv. destruct Hv as [Hv Hs1].
  apply andb_prop in Hv. destruct Hv as [Ha1 Ha2].
  apply RoundTrip.content_example_round_trip;
    auto using plainText_safe.
Qed.

(** X8. A value of the content type of the tests whose strings are text
    that [EscapeText] leaves as it is comes back from [Encode] and [Decode]
    with every field it was sent with; the raw tag names hold the names
    read. *)
Theorem content_type_round_trip :
  forall v : envelopeContentExample.t,
    plainContent v = true ->
    Decode (Encode (NewEnvelope (Some v)))
           (NewEnvelope (Some envelopeContentExample.zero))
    = Ok (mkEnvelope envelopeName []
            (mkBody bodyName None (Some (envelopeContentExample.canonical v)))).
Proof.
  intros v Hv. apply plain_round_trip, Hv.
Qed.


Lemma encode_wire_format_witness :
  Encode (AddHeaders (NewEnvelope (Some encodeContent1))
                     (map headerExample.marshal encodeHeaders1))
  = envelopeBytes encodeHeaders1 encodeContent1.
Proof.
  apply (encode_wire_format encodeHeaders1 encodeContent1); reflexivity.
Defined.

Lemma content_type_round_trip_witness :
  Decode (Encode (NewEnvelope (Some encodeContent1)))
         (NewEnvelope (Some envelopeContentExample.zero))
  = Ok (mkEnvelope envelopeName []
          (mkBody bodyName None
             (Some (envelopeContentExample.canonical encodeContent1)))).
Proof.
  apply (content_type_round_trip encodeContent1). reflexivity.
Defined.

End WireFacts.
